(** * releaser: version-name formatting, changelog splicing, line patching

    A shallow embedding of [releaser/utils.py] and [releaser/next_release.py].

    Python [str] values are modelled by [string]: sequences of 8-bit
    characters read as the code points 0..255.  On that range the regular
    expression class [\d] is exactly the ten ASCII digits.

    A file is held as the characters it stores.  Reading in text mode
    turns the line ends ["\r\n"] and ["\r"] into ["\n"] (universal
    newlines); writing stores the text as it is given, the line separator
    of [posixpath] systems being ["\n"]; [shutil.copy] copies what is
    stored.  Encodings and a byte-order mark are not represented.  Paths
    follow [posixpath]; two paths name the same file when they are the same
    text once a relative path is put after the working directory. *)

From Stdlib Require Import Ascii String List Arith Lia Bool DecimalString.
From stdpp Require Import gmap strings.

Local Open Scope char_scope.
Local Open Scope stdpp_scope.

(** ** Python string primitives *)

Module Str.

(** The one-character string ["\n"]. *)
Definition NL : string := String "010" EmptyString.

(** [len(s)] *)
Abbreviation len := String.length.

(** [s[:n]] for [0 <= n] *)
Fixpoint slice_to (n : nat) (s : string) : string :=
  match n, s with
  | S n', String c s' => String c (slice_to n' s')
  | _, _ => EmptyString
  end.

(** [s[n:]] for [0 <= n] *)
Fixpoint slice_from (n : nat) (s : string) : string :=
  match n, s with
  | S n', String _ s' => slice_from n' s'
  | _, _ => s
  end.

(** [s[:-k]] for [0 < k]: the end index [len(s) - k] is clipped at 0. *)
Definition slice_to_neg (k : nat) (s : string) : string :=
  slice_to (len s - k) s.

(** [s.startswith(p)] *)
Fixpoint startswith (p s : string) : bool :=
  match p, s with
  | EmptyString, _ => true
  | String a p', String b s' => Ascii.eqb a b && startswith p' s'
  | String _ _, EmptyString => false
  end.

(** [s.endswith(p)] *)
Definition endswith (p s : string) : bool :=
  (len p <=? len s)%nat && String.eqb (slice_from (len s - len p) s) p.

(** [s.count(c)] for a one-character needle [c]. *)
Fixpoint count (c : ascii) (s : string) : nat :=
  match s with
  | EmptyString => 0
  | String a s' => (if Ascii.eqb a c then 1 else 0) + count c s'
  end.

(** [s.replace(old, new)] for one-character [old] and [new]. *)
Fixpoint replace (old new : ascii) (s : string) : string :=
  match s with
  | EmptyString => EmptyString
  | String a s' => String (if Ascii.eqb a old then new else a) (replace old new s')
  end.

(** [sub in s] *)
Fixpoint contains (sub s : string) : bool :=
  startswith sub s ||
  match s with
  | EmptyString => false
  | String _ s' => contains sub s'
  end.

(** [c * n] for a one-character string [c] *)
Fixpoint repeat (c : ascii) (n : nat) : string :=
  match n with
  | 0 => EmptyString
  | S n' => String c (repeat c n')
  end.

(** [''.join(parts)] *)
Definition concat (parts : list string) : string :=
  fold_right String.append EmptyString parts.

(** [sep.join(parts)] *)
Fixpoint join (sep : string) (parts : list string) : string :=
  match parts with
  | [] => EmptyString
  | [x] => x
  | x :: rest => x +:+ sep +:+ join sep rest
  end.

(** [\d] on code points below 256. *)
Definition is_digit (c : ascii) : bool :=
  (48 <=? nat_of_ascii c)%nat && (nat_of_ascii c <=? 57)%nat.

(** [c.isspace()] on code points below 256: TAB, LF, VT, FF, CR, the four
    separators 0x1c..0x1f, space, NEL (0x85) and the no-break space. *)
Definition is_space (c : ascii) : bool :=
  let n := nat_of_ascii c in
  ((9 <=? n)%nat && (n <=? 13)%nat) || ((28 <=? n)%nat && (n <=? 32)%nat)
  || (n =? 133)%nat || (n =? 160)%nat.

(** [s.lstrip()] *)
Fixpoint lstrip (s : string) : string :=
  match s with
  | String c s' => if is_space c then lstrip s' else s
  | EmptyString => EmptyString
  end.

(** [s.rstrip()] *)
Fixpoint rstrip (s : string) : string :=
  match s with
  | EmptyString => EmptyString
  | String c s' =>
      match rstrip s' with
      | EmptyString => if is_space c then EmptyString else String c EmptyString
      | r => String c r
      end
  end.

(** [s.strip()] *)
Definition strip (s : string) : string := rstrip (lstrip s).

(** [c.lower()] on code points below 256: the ASCII capitals and the
    Latin-1 capitals 0xC0..0xDE other than the multiplication sign. *)
Definition lower_char (c : ascii) : ascii :=
  let n := nat_of_ascii c in
  if ((65 <=? n)%nat && (n <=? 90)%nat)
     || ((192 <=? n)%nat && (n <=? 222)%nat && negb (n =? 215)%nat)
  then ascii_of_nat (n + 32) else c.

(** [s.lower()] *)
Fixpoint lower (s : string) : string :=
  match s with
  | EmptyString => EmptyString
  | String c s' => String (lower_char c) (lower s')
  end.

(** The characters at which [str.splitlines] breaks a line, below 256:
    LF, VT, FF, CR, FS, GS, RS and NEL. *)
Definition is_linebreak (c : ascii) : bool :=
  let n := nat_of_ascii c in
  ((10 <=? n)%nat && (n <=? 13)%nat) || ((28 <=? n)%nat && (n <=? 30)%nat)
  || (n =? 133)%nat.

(** Put [c] in front of the first line of [ls]. *)
Definition cons_first (c : ascii) (ls : list string) : list string :=
  match ls with
  | [] => [String c EmptyString]
  | l :: ls' => String c l :: ls'
  end.

(** [f.readlines()]: the text cut after every ["\n"], line ends kept. *)
Fixpoint readlines (s : string) : list string :=
  match s with
  | EmptyString => []
  | String c s' =>
      if Ascii.eqb c "010" then String c EmptyString :: readlines s'
      else cons_first c (readlines s')
  end.

(** What text mode hands over when it reads [s] with universal newlines:
    [s.replace("\r\n", "\n").replace("\r", "\n")]. *)
Fixpoint universal_newlines (s : string) : string :=
  match s with
  | EmptyString => EmptyString
  | String c s' =>
      if Ascii.eqb c "013" then
        match s' with
        | String c2 s'' =>
            if Ascii.eqb c2 "010" then String "010" (universal_newlines s'')
            else String "010" (universal_newlines s')
        | EmptyString => String "010" EmptyString
        end
      else String c (universal_newlines s')
  end.

(** [s.splitlines(True)]: the text cut after every line break, line ends
    kept; a CR directly followed by LF ends one line. *)
Fixpoint splitlines_keepends (s : string) : list string :=
  match s with
  | EmptyString => []
  | String c s' =>
      if is_linebreak c then
        if Ascii.eqb c "013" && startswith NL s'
        then cons_first c (splitlines_keepends s')
        else String c EmptyString :: splitlines_keepends s'
      else cons_first c (splitlines_keepends s')
  end.

(** The line without the line break that ends it. *)
Fixpoint chomp (l : string) : string :=
  match l with
  | EmptyString => EmptyString
  | String c l' => if is_linebreak c then EmptyString else String c (chomp l')
  end.

(** [s.splitlines()] *)
Definition splitlines (s : string) : list string :=
  map chomp (splitlines_keepends s).

(** [s.replace(c, '')] for a one-character [c] *)
Fixpoint remove (c : ascii) (s : string) : string :=
  match s with
  | EmptyString => EmptyString
  | String a s' => if Ascii.eqb a c then remove c s' else String a (remove c s')
  end.

(** [s.find(sub)], with [None] for Python's [-1] *)
Fixpoint find (sub s : string) : option nat :=
  if startswith sub s then Some 0
  else match s with
       | EmptyString => None
       | String _ s' => option_map S (find sub s')
       end.

End Str.

(** ** Outcomes of a call *)

(** The Python exceptions that the modelled code can raise.  [NotModelled]
    is no Python exception: it marks a run that leaves the fragment of
    Python covered here (a format field with a conversion or a format
    specification, for instance). *)
Inductive exn : Type :=
| AssertionError (msg : string)
| TypeError (msg : string)
| IndexError (msg : string)
| UnboundLocalError (name : string)
| KeyError (key : string)
| ValueError (msg : string)
| FileNotFoundError (path : string)
| SameFileError (path : string)
| EOFError
| SystemExit (code : nat)
| CalledProcessError (output : string)
| NotModelled (what : string).

(** A call returns a value or raises. *)
Inductive result (A : Type) : Type :=
| Ok (a : A)
| Raise (e : exn).
Arguments Ok {A} a.
Arguments Raise {A} e.

(** [str(n)] for a natural number *)
Definition str_of_nat (n : nat) : string :=
  NilEmpty.string_of_uint (Nat.to_uint n).

(** ** VersionFormat: [releaser/utils.py], lines 134-201 *)

(** [rel_name[:-2] if rel_name.endswith('.0') else rel_name] *)
Definition short (rel_name : string) : string :=
  if Str.endswith ".0" rel_name then Str.slice_to_neg 2 rel_name else rel_name.

(** [re.match(tag + '\d+', s)]: [s] starts with the literal [tag] followed
    by at least one digit. *)
Definition match_tag_digits (tag s : string) : bool :=
  Str.startswith tag s &&
  match Str.slice_from (Str.len tag) s with
  | String d _ => Str.is_digit d
  | EmptyString => false
  end.

(** [re.search(tag + '\d+', s)], reduced to [match.start()]: the least index
    at which the pattern matches, scanning from the left. *)
Fixpoint re_search_start (tag s : string) : option nat :=
  if match_tag_digits tag s then Some 0
  else match s with
       | EmptyString => None
       | String _ s' => option_map S (re_search_start tag s')
       end.

(** The tuple [('rc', 'c', 'beta', 'b', 'alpha', 'a')] of [pretag_pos]. *)
Definition pretags : list string := ["rc"; "c"; "beta"; "b"; "alpha"; "a"].

(** The [for tag in ...] loop of [pretag_pos]: the first tag of [tags] that
    matches somewhere decides the result. *)
Fixpoint pretag_loop (tags : list string) (release_name : string) : option nat :=
  match tags with
  | [] => None
  | tag :: tags' =>
      match re_search_start tag release_name with
      | Some start => Some start
      | None => pretag_loop tags' release_name
      end
  end.

Definition pretag_pos (release_name : string) : option nat :=
  pretag_loop pretags release_name.

Definition strip_pretags (release_name : string) : string :=
  match pretag_pos release_name with
  | Some pos => Str.slice_to pos release_name
  | None => release_name
  end.

Definition isprerelease (release_name : string) : bool :=
  match pretag_pos release_name with
  | Some _ => true
  | None => false
  end.

Definition long_release_name (release_name : string) : result string :=
  let dotcount := Str.count "." release_name in
  if (2 <=? dotcount)%nat then Ok release_name
  else if negb (dotcount =? 1)%nat then
    Raise (AssertionError
             (release_name +:+ " contains " +:+ str_of_nat dotcount +:+ " dots"))
  else
    match pretag_pos release_name with
    | Some pos =>
        Ok (Str.slice_to pos release_name +:+ ".0" +:+ Str.slice_from pos release_name)
    | None => Ok (release_name +:+ ".0")
    end.

(** [releaser/utils.py], lines 213-215 *)
Definition relname2fname (release_name : string) : string :=
  let short_version := short (strip_pretags release_name) in
  "version_" +:+ Str.replace "." "_" short_version +:+ ".rst.inc".

(** ** The process and its surroundings *)

(** What a run can observe and change: the working directory, the files
    (keyed by path, holding text), what was printed, and the lines waiting
    on standard input. *)
Record world : Type := World {
  cwd : string;
  files : gmap string string;
  stdout : list string;
  stdin : list string
}.

Definition set_cwd (d : string) (w : world) : world :=
  World d (files w) (stdout w) (stdin w).
Definition set_files (fs : gmap string string) (w : world) : world :=
  World (cwd w) fs (stdout w) (stdin w).
Definition set_stdout (out : list string) (w : world) : world :=
  World (cwd w) (files w) out (stdin w).
Definition set_stdin (inp : list string) (w : world) : world :=
  World (cwd w) (files w) (stdout w) inp.

(** A statement sequence: it runs in a world, returns or raises, and leaves
    a world behind.  What was done before an exception stays done. *)
Definition M (A : Type) : Type := world -> result A * world.

Definition ret {A : Type} (a : A) : M A := fun w => (Ok a, w).

Definition raise {A : Type} (e : exn) : M A := fun w => (Raise e, w).

Definition bind {A B : Type} (m : M A) (k : A -> M B) : M B :=
  fun w =>
    match m w with
    | (Ok a, w') => k a w'
    | (Raise e, w') => (Raise e, w')
    end.

Definition lift {A : Type} (r : result A) : M A := fun w => (r, w).

(** [x ← m; k] and [m ;; k] are stdpp's notations for [bind]. *)
#[global] Instance M_ret : MRet M := @ret.
#[global] Instance M_bind : MBind M := fun A B k m => bind m k.

(** [os.path.join(a, b)] of [posixpath] *)
Definition os_path_join (a b : string) : string :=
  if Str.startswith "/" b then b
  else if String.eqb a "" || Str.endswith "/" a then a +:+ b
  else a +:+ "/" +:+ b.

(** [os.path.join(a, b)] where [a] may be [None]: [os.fspath(None)] raises. *)
Definition os_path_join_opt (a : option string) (b : string) : result string :=
  match a with
  | Some a' => Ok (os_path_join a' b)
  | None =>
      Raise (TypeError "expected str, bytes or os.PathLike object, not NoneType")
  end.

(** The key of [path] in [files]: a relative path is taken from the working
    directory.  Paths are compared as text. *)
Definition abspath (w : world) (path : string) : string :=
  os_path_join (cwd w) path.

(** Modelled from the spec: [chdir] is imported from [releaser.utils] and is
    not defined in the source at hand.  "The working directory is changed
    as a process-wide side effect before file operations." *)
Definition chdir (path : string) : M unit :=
  fun w => (Ok tt, set_cwd (os_path_join (cwd w) path) w).

(** [open(path).read()]: text mode, with universal newlines. *)
Definition open_read (path : string) : M string :=
  fun w =>
    match files w !! abspath w path with
    | Some content => (Ok (Str.universal_newlines content), w)
    | None => (Raise (FileNotFoundError path), w)
    end.

(** [open(path).readlines()] of a file that stores [content]. *)
Abbreviation text_lines content := (Str.readlines (Str.universal_newlines content)).

(** [open(path, 'w').write(content)]: the text is stored as it is.
    Directories and permissions are not represented: the file is created
    or replaced. *)
Definition open_write (path content : string) : M unit :=
  fun w => (Ok tt, set_files (<[abspath w path := content]> (files w)) w).

(** [open(path, 'w').writelines(lines)] *)
Definition writelines (path : string) (lines : list string) : M unit :=
  open_write path (Str.concat lines).

(** [shutil.copy(src, dst)] between two files: what [src] stores is
    copied as it is, with no translation of line ends. *)
Definition copy (src dst : string) : M unit :=
  fun w =>
    if String.eqb (abspath w src) (abspath w dst)
    then (Raise (SameFileError src), w)
    else match files w !! abspath w src with
         | Some content => open_write dst content w
         | None => (Raise (FileNotFoundError src), w)
         end.

(** [print(s, end=e)] *)
Definition print_end (s e : string) : M unit :=
  fun w => (Ok tt, set_stdout (stdout w ++ [s +:+ e]) w).

(** [print(s)] *)
Definition print (s : string) : M unit := print_end s Str.NL.

(** [input(prompt)] *)
Definition input (prompt : string) : M string :=
  fun w =>
    let w' := set_stdout (stdout w ++ [prompt]) w in
    match stdin w' with
    | line :: rest => (Ok line, set_stdin rest w')
    | [] => (Raise EOFError, w')
    end.

(** [lines[i]] *)
Definition getitem (lines : list string) (i : nat) : M string :=
  match lines !! i with
  | Some l => ret l
  | None => raise (IndexError "list index out of range")
  end.

(** Reading a local variable that may not have been assigned. *)
Definition local {A : Type} (name : string) (v : option A) : M A :=
  match v with
  | Some a => ret a
  | None => raise (UnboundLocalError name)
  end.

(** ** [str.format] with the keywords [title], [underline] and [fname] *)

(** The largest index of a sequence, [sys.maxsize] of a 64-bit build. *)
Definition PY_SSIZE_T_MAX : N := 9223372036854775807.

(** The formatter's reading of a field name as a number, digit by digit from
    the value [acc] of the digits before: [Some n] for a name of decimal
    digits only, [None] at the first other character; a value beyond
    [PY_SSIZE_T_MAX] is refused as soon as it is reached. *)
Fixpoint get_integer_from (acc : N) (name : string) : result (option N) :=
  match name with
  | EmptyString => Ok (Some acc)
  | String c name' =>
      if Str.is_digit c then
        let digitval := N.of_nat (nat_of_ascii c - 48) in
        if ((PY_SSIZE_T_MAX - digitval) / 10 <? acc)%N
        then Raise (ValueError "Too many decimal digits in format string")
        else get_integer_from (acc * 10 + digitval) name'
      else Ok None
  end.

(** [str(n)] for an index *)
Definition str_of_N (n : N) : string :=
  NilEmpty.string_of_uint (N.to_uint n).

(** A replacement field whose name is no keyword argument, in a call without
    positional arguments: the first field with an empty name stands for
    index 0, a name of decimal digits for that index, and no index is in
    range; any other name is a missing key. *)
Definition missing_field (name : string) : exn :=
  match name with
  | EmptyString =>
      IndexError "Replacement index 0 out of range for positional args tuple"
  | String _ _ =>
      match get_integer_from 0 name with
      | Ok (Some index) =>
          IndexError ("Replacement index " +:+ str_of_N index
                      +:+ " out of range for positional args tuple")
      | Ok None => KeyError name
      | Raise e => e
      end
  end.

(** The value of a replacement field.  A plain name is looked up among the
    keyword arguments; an empty or numeric name asks for a positional
    argument, and there is none; a name with a conversion, a format
    specification, an attribute or an index is outside the model. *)
Definition format_field (title underline fname name : string) : result string :=
  if String.eqb name "title" then Ok title
  else if String.eqb name "underline" then Ok underline
  else if String.eqb name "fname" then Ok fname
  else if Str.contains "!" name || Str.contains ":" name
          || Str.contains "." name || Str.contains "[" name
  then Raise (NotModelled "format field")
  else Raise (missing_field name).

(** One pass over the template.  [field] is [Some acc] inside the braces of
    a replacement field whose name so far is [acc]. *)
Fixpoint format_scan (title underline fname : string) (field : option string)
    (template : string) : result string :=
  match field, template with
  | None, EmptyString => Ok EmptyString
  | Some _, EmptyString => Raise (ValueError "expected '}' before end of string")
  | None, String c rest =>
      if Ascii.eqb c "{" then
        match rest with
        | String c2 rest2 =>
            if Ascii.eqb c2 "{" then
              match format_scan title underline fname None rest2 with
              | Ok out => Ok (String "{" out)
              | Raise e => Raise e
              end
            else format_scan title underline fname (Some EmptyString) rest
        | EmptyString => Raise (ValueError "Single '{' encountered in format string")
        end
      else if Ascii.eqb c "}" then
        match rest with
        | String c2 rest2 =>
            if Ascii.eqb c2 "}" then
              match format_scan title underline fname None rest2 with
              | Ok out => Ok (String "}" out)
              | Raise e => Raise e
              end
            else Raise (ValueError "Single '}' encountered in format string")
        | EmptyString => Raise (ValueError "Single '}' encountered in format string")
        end
      else
        match format_scan title underline fname None rest with
        | Ok out => Ok (String c out)
        | Raise e => Raise e
        end
  | Some acc, String c rest =>
      if Ascii.eqb c "}" then
        match format_field title underline fname acc with
        | Ok v =>
            match format_scan title underline fname None rest with
            | Ok out => Ok (v +:+ out)
            | Raise e => Raise e
            end
        | Raise e => Raise e
        end
      else if Ascii.eqb c "{" then
        if Str.contains "!" acc || Str.contains ":" acc
           || Str.contains "." acc || Str.contains "[" acc
        then Raise (NotModelled "format field")
        else Raise (ValueError "unexpected '{' in field name")
      else format_scan title underline fname (Some (acc +:+ String c EmptyString)) rest
  end.

(** [template.format(title=title, underline=underline, fname=fname)] *)
Definition str_format (template title underline fname : string) : result string :=
  format_scan title underline fname None template.

(** ** TextPatcher: [releaser/utils.py], lines 226-240 *)

(** The body of the inner [for]: one pair tried on line [i], whose text when
    the loop started was [line]. *)
Definition replace_step (end_ : string) (i : nat) (line : string)
    (lines : list string) (change : string * string) : list string :=
  let '(substring_to_find, new_line) := change in
  if Str.contains substring_to_find line
     && negb (Str.startswith "#" (Str.strip line))
  then <[i := new_line +:+ end_]> lines
  else lines.

(** The outer [for i, line in enumerate(lines[:])]: [snapshot] is what is
    left of the copy, [i] the index of its head, [lines] the list being
    updated. *)
Fixpoint replace_loop (changes : list (string * string)) (end_ : string)
    (i : nat) (snapshot lines : list string) : list string :=
  match snapshot with
  | [] => lines
  | line :: snapshot' =>
      replace_loop changes end_ (S i) snapshot'
        (fold_left (replace_step end_ i line) changes lines)
  end.

Definition replace_lines (fpath : string) (changes : list (string * string))
    (end_ : string) : M unit :=
  content ← open_read fpath;
  let lines := Str.readlines content in
  let lines := replace_loop changes end_ 0 lines lines in
  writelines fpath lines.

(** ** The operator prompt: [releaser/utils.py], lines 93-105 *)

(** [' ({}/{}) '.format(...)]: the default answer is shown capitalised. *)
Definition choices (default : string) : string :=
  " (" +:+ (if String.eqb "y" default then "Y" else "y") +:+ "/"
       +:+ (if String.eqb "n" default then "N" else "n") +:+ ") ".

(** [answer in ('', 'y', 'n')], where [None] stands for no answer yet. *)
Definition answered (answer : option string) : bool :=
  match answer with
  | Some a => String.eqb a "" || String.eqb a "y" || String.eqb a "n"
  | None => false
  end.

(** The [while] loop of [yes].  Every turn reads one line, so the loop ends
    within [length stdin + 1] turns: by then [input] has raised. *)
Fixpoint yes_loop (turns : nat) (prompt : string) (answer : option string)
    : M string :=
  match answer, answered answer with
  | Some a, true => ret a
  | _, _ =>
      match turns with
      | 0 => raise (NotModelled "prompt loop")
      | S turns' =>
          (match answer with
           | Some _ => print "answer should be 'y', 'n', or <return>"
           | None => ret tt
           end) ;;
          line ← input prompt;
          yes_loop turns' prompt (Some (Str.lower line))
      end
  end.

Definition yes (msg default : string) : M bool :=
  fun w =>
    (answer ← yes_loop (S (length (stdin w))) (msg +:+ choices default) None;
     ret (String.eqb (if String.eqb answer "" then default else answer) "y")) w.

Definition no (msg default : string) : M bool :=
  b ← yes msg default; ret (negb b).

(** ** Shell wrappers: [releaser/utils.py], lines 67-80 *)

(** A positional argument of [call] and [echocall]: a string or a list of
    strings. *)
Inductive pyarg : Type :=
| PStr (s : string)
| PList (l : list string).

(** [' '.join(args)]: every item has to be a string. *)
Fixpoint join_args (i : nat) (args : list pyarg) : result (list string) :=
  match args with
  | [] => Ok []
  | PStr s :: args' =>
      match join_args (S i) args' with
      | Ok l => Ok (s :: l)
      | Raise e => Raise e
      end
  | PList _ :: _ =>
      Raise (TypeError ("sequence item " +:+ str_of_nat i
                        +:+ ": expected str instance, list found"))
  end.

(** A hexadecimal digit, in lower case. *)
Definition hex_digit (n : nat) : ascii :=
  if (n <? 10)%nat then ascii_of_nat (48 + n) else ascii_of_nat (87 + n).

(** One byte of [repr(b)], for a bytes value quoted with [quote]. *)
Definition repr_byte (quote c : ascii) : string :=
  let n := nat_of_ascii c in
  if Ascii.eqb c quote || Ascii.eqb c "\" then String "\" (String c EmptyString)
  else if Ascii.eqb c "009" then "\t"
  else if Ascii.eqb c "010" then "\n"
  else if Ascii.eqb c "013" then "\r"
  else if (n <? 32)%nat || (127 <=? n)%nat
  then String "\" (String "x" (String (hex_digit (n / 16))
                                 (String (hex_digit (n mod 16)) EmptyString)))
  else String c EmptyString.

Fixpoint repr_bytes (quote : ascii) (b : string) : string :=
  match b with
  | EmptyString => EmptyString
  | String c b' => repr_byte quote c +:+ repr_bytes quote b'
  end.

(** [repr(b)] of a bytes value, as [print(b)] shows it: quoted with ['],
    or with the double quote when [b] holds a ['] and no double quote. *)
Definition bytes_repr (b : string) : string :=
  let quote : ascii :=
    if (0 <? Str.count "'" b)%nat && (Str.count "034" b =? 0)%nat
    then "034"%char else "'"%char in
  String "b" (String quote (repr_bytes quote b +:+ String quote EmptyString)).

(** [b.decode('utf8')] into code points up to 255: a byte below 128 is its
    character, and the two-byte sequences led by 0xC2 and 0xC3 are the
    characters 128 to 255.  Longer sequences give code points above 255 and
    malformed ones raise [UnicodeDecodeError]; both are outside the model. *)
Fixpoint decode_utf8 (b : string) : result string :=
  match b with
  | EmptyString => Ok EmptyString
  | String c b' =>
      let n := nat_of_ascii c in
      if (n <? 128)%nat then
        match decode_utf8 b' with
        | Ok s => Ok (String c s)
        | Raise e => Raise e
        end
      else if (n =? 194)%nat || (n =? 195)%nat then
        match b' with
        | String c2 b'' =>
            let m := nat_of_ascii c2 in
            if (128 <=? m)%nat && (m <? 192)%nat then
              match decode_utf8 b'' with
              | Ok s =>
                  Ok (String (ascii_of_nat (if (n =? 194)%nat then m else m + 64)) s)
              | Raise e => Raise e
              end
            else Raise (NotModelled "utf-8 decoding")
        | EmptyString => Raise (NotModelled "utf-8 decoding")
        end
      else Raise (NotModelled "utf-8 decoding")
  end.

(** ** ChangelogEditor and ReleaseOrchestrator: [releaser/next_release.py] *)

Definition DEFAULT_CHANGELOG_INDEX_TEMPLATE : string :=
  "{title}" +:+ Str.NL +:+
  "{underline}" +:+ Str.NL +:+
  Str.NL +:+
  "In development." +:+ Str.NL +:+
  Str.NL +:+
  ".. include:: ./changes/{fname}" +:+ Str.NL +:+
  Str.NL +:+
  Str.NL.

(** [lines[3:3] = new]: the slice bounds are clipped to the list. *)
Definition splice3 (lines new : list string) : list string :=
  take 3 lines ++ new ++ drop 3 lines.

Section Collaborators.

(** [subprocess.check_output] called with the arguments and
    [stderr=STDOUT]: the external command runner, left open.  What it
    returns, and the output that its [CalledProcessError] carries, are bytes;
    a byte is held as the character of its code. *)
Variable check_output : list pyarg -> M string.

(** [releaser.make_release.update_version(build_dir, release_name,
    package_name, module_name)]: not in the source at hand, left open. *)
Variable update_version : string -> string -> string -> string -> M unit.

(** [releaser/utils.py], lines 67-75, called without keyword arguments:
    the output of the command is decoded; the output of a failed command is
    printed, as the bytes it is, before the failure is raised again. *)
Definition call (args : list pyarg) : M string :=
  fun w =>
    match check_output args w with
    | (Ok res, w') => lift (decode_utf8 res) w'
    | (Raise (CalledProcessError output), w') =>
        (print (bytes_repr output) ;; raise (CalledProcessError output)) w'
    | other => other
    end.

(** [releaser/utils.py], lines 78-80 *)
Definition echocall (args : list pyarg) : M string :=
  words ← lift (join_args 0 args);
  print (Str.join " " words) ;;
  call args.

(** [releaser/next_release.py], lines 22-50.  The locals [fname] and
    [changelog_file] are bound only when a notes directory is given. *)
Definition update_changelog (src_documentation : option string)
    (build_dir release_name changelog_index_template : string) : M unit :=
  locals ←
    match src_documentation with
    | Some src_doc =>
        chdir build_dir ;;
        let fname := relname2fname release_name in
        let changes_dir := os_path_join src_doc "changes" in
        let changelog_file := os_path_join changes_dir fname in
        copy (os_path_join changes_dir "template.rst.inc") changelog_file ;;
        ret (Some fname, Some changelog_file)
    | None => ret (None, None)
    end;
  let fname := fst locals in
  let changelog_file := snd locals in
  fpath ← lift (os_path_join_opt src_documentation "changes.rst");
  content ← open_read fpath;
  let lines := Str.readlines content in
  let title := "Version " +:+ short release_name in
  line3 ← getitem lines 3;
  if String.eqb line3 (title +:+ Str.NL) then
    print ("changes.rst not modified (it already contains " +:+ title +:+ ")")
  else
    fname' ← local "fname" fname;
    this_version ←
      lift (str_format changelog_index_template title
              (Str.repeat "=" (Str.len title)) fname');
    let lines := splice3 lines (Str.splitlines_keepends this_version) in
    writelines fpath lines ;;
    shown ← open_read fpath;
    print (Str.join Str.NL (take 20 (Str.splitlines shown))) ;;
    declined ← no "Does the full changelog look right?" "n";
    if declined : bool then raise (SystemExit 1)
    else
      changelog_file' ← local "changelog_file" changelog_file;
      echocall [PList ["git"; "add"; fpath; changelog_file']] ;;
      ret tt.

(** [releaser/next_release.py], lines 53-60.  The source gives
    [src_documentation] the default [None] and the template the default
    [DEFAULT_CHANGELOG_INDEX_TEMPLATE]. *)
Definition add_release (local_repository package_name module_name
    release_name : string) (src_documentation : option string)
    (changelog_index_template : string) : M unit :=
  update_changelog src_documentation local_repository release_name
    changelog_index_template ;;
  let release_name := release_name +:+ "-dev" in
  update_version local_repository release_name package_name module_name.

End Collaborators.

(** ** Generic tools: [releaser/utils.py], lines 48-50 and 83-90 *)

(** [branchname]: the branch of a [git status -b -s] line. *)
Definition branchname (statusline : string) : string :=
  let statusline := Str.strip (Str.remove "#" statusline) in
  match Str.find "..." statusline with
  | Some pos => Str.slice_to pos statusline
  | None => statusline
  end.

(** The value of a replacement field among keyword arguments only.  As in
    [format_field], a name with a conversion, a format specification, an
    attribute or an index is outside the model, and an empty or numeric
    name asks for a positional argument that is not there. *)
Definition format_field_kw (kwargs : gmap string string) (name : string)
    : result string :=
  if Str.contains "!" name || Str.contains ":" name
     || Str.contains "." name || Str.contains "[" name
  then Raise (NotModelled "format field")
  else match name, get_integer_from 0 name with
       | String _ _, Ok None =>
           match kwargs !! name with
           | Some v => Ok v
           | None => Raise (KeyError name)
           end
       | _, _ => Raise (missing_field name)
       end.

(** The pass of [format_scan], with the keyword arguments in a dictionary. *)
Fixpoint format_scan_kw (kwargs : gmap string string) (field : option string)
    (template : string) : result string :=
  match field, template with
  | None, EmptyString => Ok EmptyString
  | Some _, EmptyString => Raise (ValueError "expected '}' before end of string")
  | None, String c rest =>
      if Ascii.eqb c "{" then
        match rest with
        | String c2 rest2 =>
            if Ascii.eqb c2 "{" then
              match format_scan_kw kwargs None rest2 with
              | Ok out => Ok (String "{" out)
              | Raise e => Raise e
              end
            else format_scan_kw kwargs (Some EmptyString) rest
        | EmptyString => Raise (ValueError "Single '{' encountered in format string")
        end
      else if Ascii.eqb c "}" then
        match rest with
        | String c2 rest2 =>
            if Ascii.eqb c2 "}" then
              match format_scan_kw kwargs None rest2 with
              | Ok out => Ok (String "}" out)
              | Raise e => Raise e
              end
            else Raise (ValueError "Single '}' encountered in format string")
        | EmptyString => Raise (ValueError "Single '}' encountered in format string")
        end
      else
        match format_scan_kw kwargs None rest with
        | Ok out => Ok (String c out)
        | Raise e => Raise e
        end
  | Some acc, String c rest =>
      if Ascii.eqb c "}" then
        match format_field_kw kwargs acc with
        | Ok v =>
            match format_scan_kw kwargs None rest with
            | Ok out => Ok (v +:+ out)
            | Raise e => Raise e
            end
        | Raise e => Raise e
        end
      else if Ascii.eqb c "{" then
        if Str.contains "!" acc || Str.contains ":" acc
           || Str.contains "." acc || Str.contains "[" acc
        then Raise (NotModelled "format field")
        else Raise (ValueError "unexpected '{' in field name")
      else format_scan_kw kwargs (Some (acc +:+ String c EmptyString)) rest
  end.

(** [template.format( **kwargs)] *)
Definition str_format_kw (template : string) (kwargs : gmap string string)
    : result string :=
  format_scan_kw kwargs None template.

(** [generate(fname, **kwargs)]: the [with] statement opens the template for
    reading, then the output for writing, which empties it; the body reads,
    formats and writes. *)
Definition generate (fname : string) (kwargs : gmap string string) : M unit :=
  let template_path := fname +:+ ".tmpl" in
  open_read template_path ;;
  open_write fname "" ;;
  template ← open_read template_path;
  text ← lift (str_format_kw template kwargs);
  open_write fname text.

(** ** Release notes: [releaser/utils.py], lines 218-223 *)

(** [config[key]] *)
Definition getkey (config : gmap string string) (key : string) : M string :=
  match config !! key with
  | Some v => mret v
  | None => raise (KeyError key)
  end.

(** [release_changes(config)]; the result is [None] when the function falls
    off its end. *)
Definition release_changes (config : gmap string string) : M (option string) :=
  match config !! "src_documentation" with
  | Some _ =>
      src_documentation ← getkey config "src_documentation";
      let directory := os_path_join src_documentation "changes" in
      release_name ← getkey config "release_name";
      let fname := relname2fname release_name in
      build_dir ← getkey config "build_dir";
      content ← open_read (os_path_join (os_path_join build_dir directory) fname);
      mret (Some content)
  | None => mret None
  end.

(** ** Vocabulary of the statements *)

(** The pattern [tag] followed by digits occurs in [s] at index [i]. *)
Definition tag_at (tag s : string) (i : nat) : bool :=
  match_tag_digits tag (Str.slice_from i s).

(** Following the spec's words, not the code: "the start index of the
    leftmost occurrence in the string of any pattern tag-digits", with no
    precedence among the tags. *)
Fixpoint spec_leftmost_pretag (s : string) : option nat :=
  if existsb (fun tag => match_tag_digits tag s) pretags then Some 0
  else match s with
       | EmptyString => None
       | String _ s' => option_map S (spec_leftmost_pretag s')
       end.

(** A line that [replace_lines] has to leave alone: a comment line, or a
    line that holds none of the substrings to find. *)
Definition left_alone (changes : list (string * string)) (line : string) : Prop :=
  Str.startswith "#" (Str.strip line) = true
  ∨ ∀ substring_to_find new_line,
      (substring_to_find, new_line) ∈ changes →
      Str.contains substring_to_find line = false.

(** The key in [files] of the changelog index that [update_changelog] opens
    when it is started in [w]: after [chdir(build_dir)], the path
    [join(src_documentation, 'changes.rst')]. *)
Definition changelog_key (w : world) (src_doc build_dir : string) : string :=
  os_path_join (os_path_join (cwd w) build_dir) (os_path_join src_doc "changes.rst").

(** Likewise the key of the notes template, [changes/template.rst.inc]. *)
Definition template_key (w : world) (src_doc build_dir : string) : string :=
  os_path_join (os_path_join (cwd w) build_dir)
    (os_path_join (os_path_join src_doc "changes") "template.rst.inc").

(** Likewise the key of the notes file of a release. *)
Definition notes_key (w : world) (src_doc build_dir release_name : string) : string :=
  os_path_join (os_path_join (cwd w) build_dir)
    (os_path_join (os_path_join src_doc "changes") (relname2fname release_name)).

(** The title line that [update_changelog] looks for at index 3. *)
Definition title_line (release_name : string) : string :=
  ("Version " +:+ short release_name) +:+ Str.NL.

(** The text of the section for a release, as [update_changelog] renders
    it from a template. *)
Definition render_section (template release_name : string) : result string :=
  let title := "Version " +:+ short release_name in
  str_format template title (Str.repeat "=" (Str.len title))
    (relname2fname release_name).

(** What [os.path.join] puts in front of a relative second argument. *)
Definition dir_prefix (a : string) : string :=
  if String.eqb a "" || Str.endswith "/" a then a else a +:+ "/".

(** A statement sequence that changes no file. *)
Definition keeps_files {A : Type} (m : M A) : Prop :=
  ∀ w, files (m w).2 = files w.

(** A line that ends in its only ["\n"]. *)
Definition complete_line (l : string) : Prop :=
  ∃ body, l = body +:+ Str.NL ∧ Str.count "010" body = 0.

(** No ["\n"] before the last character of [l]. *)
Fixpoint no_inner_nl (l : string) : bool :=
  match l with
  | EmptyString => true
  | String c l' =>
      match l' with
      | EmptyString => true
      | String _ _ => negb (Ascii.eqb c "010") && no_inner_nl l'
      end
  end.

(** Some character of [s] is one at which [str.splitlines] breaks. *)
Fixpoint has_linebreak (s : string) : bool :=
  match s with
  | EmptyString => false
  | String c s' => Str.is_linebreak c || has_linebreak s'
  end.

(** The line [s] with its line end. *)
Definition ln (s : string) : string := s +:+ Str.NL.

(** The lines of the section that the default template gives for release
    ["1.2"], with an underline of [n] characters. *)
Definition section_1_2 (n : nat) : list string :=
  [ln "Version 1.2"; ln (Str.repeat "=" n); ln ""; ln "In development."; ln "";
   ln ".. include:: ./changes/version_1_2.rst.inc"; ln ""; ln ""].

(** ** A small project to run the code on *)

(** A changelog index: a header of 3 lines and the section of release 1.1. *)
Definition example_index : string :=
  Str.concat [ln "Change log"; ln "##########"; ln "";
              ln "Version 1.1"; ln "==========="; ln "";
              ln ".. include:: ./changes/version_1_1.rst.inc"].

(** The same index after release 1.2 was added with the default template. *)
Definition example_index_1_2 : string :=
  Str.concat ([ln "Change log"; ln "##########"; ln ""] ++ section_1_2 11 ++
              [ln "Version 1.1"; ln "==========="; ln "";
               ln ".. include:: ./changes/version_1_1.rst.inc"]).

(** A project in [/home/release/proj] with its documentation in [doc], and
    an operator who will answer [y]. *)
Definition example_world (index : string) : world :=
  World "/home/release"
    (<["/home/release/proj/doc/changes.rst" := index]>
       (<["/home/release/proj/doc/changes/template.rst.inc" := ln "New features"]> ∅))
    [] ["y"].

(** A command runner whose commands print nothing. *)
Definition no_subprocess : list pyarg → M string := λ _, mret "".

(** The tool started again where [start] was started, on the files that
    [after] holds. *)
Definition restart (start after : world) : world :=
  World (cwd start) (files after) [] (stdin start).

(** A template of a project's own: the title line carries a remark. *)
Definition remark_template : string :=
  ln "{title} (next release)" +:+ ln "{underline}" +:+ ln "" +:+
  ln ".. include:: ./changes/{fname}" +:+ ln "".

(** A settings file with a commented-out line that holds the substring to
    find, a line to replace and a line without the substring. *)
Definition example_settings : string :=
  Str.concat [ln "# version = '0.1'"; ln "version = '0.1'"; ln "name = 'proj'"].

Definition example_settings_world : world :=
  World "/home/release" (<["/home/release/setup.cfg" := example_settings]> ∅) [] [].

(** The text [s] followed by a carriage return. *)
Definition cr (s : string) : string := s +:+ String "013" EmptyString.

(** The line [s] with the line end CRLF. *)
Definition crlf (s : string) : string := s +:+ String "013" Str.NL.

(** A settings file saved with CRLF line ends: a comment line and a line
    without the substring to find. *)
Definition example_settings_crlf : string :=
  Str.concat [crlf "# version = '0.1'"; crlf "name = 'proj'"].

Definition example_settings_crlf_world : world :=
  World "/home/release" (<["/home/release/setup.cfg" := example_settings_crlf]> ∅)
    [] [].

(** ** Well-formed release names *)

(** Every character of [s] satisfies [p]. *)
Fixpoint all_chars (p : ascii → bool) (s : string) : bool :=
  match s with
  | EmptyString => true
  | String c s' => p c && all_chars p s'
  end.

(** A character of a numeric core: a digit or a dot. *)
Definition numeric_char (c : ascii) : bool :=
  Str.is_digit c || Ascii.eqb c ".".

(** A numeric core such as ["0.8"] or ["0.8.1"]: digits and dots only. *)
Definition numeric_core (s : string) : bool := all_chars numeric_char s.

(** Digits only. *)
Definition all_digits (s : string) : bool := all_chars Str.is_digit s.

(** The tag starts with a character that no numeric core holds. *)
Definition starts_outside_core (tag : string) : bool :=
  match tag with
  | String c _ => negb (numeric_char c)
  | EmptyString => false
  end.

(** ** The operator's answers *)

(** The line that [yes] prints after an answer it does not accept. *)
Definition complaint : string :=
  "answer should be 'y', 'n', or <return>" +:+ Str.NL.

(** What [yes] writes to standard output when it is given the lines
    [rejected] before a line it accepts: the prompt, and after every
    rejected line the complaint and the prompt again. *)
Definition prompt_trace (prompt : string) (rejected : list string) : list string :=
  prompt :: flat_map (λ _, [complaint; prompt]) rejected.

(** The lines that [yes] accepts as an answer. *)
Definition accepted_answers : list string := [""; "y"; "Y"; "n"; "N"].

(** A changelog index that holds its 3-line header and no section yet. *)
Definition example_header : string :=
  Str.concat [ln "Change log"; ln "##########"; ln ""].

(** A version update that does nothing. *)
Definition no_update_version : string → string → string → string → M unit :=
  λ _ _ _ _, mret ().

(** A project with a generated [setup.py] and the template it comes from. *)
Definition example_template_world : world :=
  World "/home/release"
    (<["/home/release/setup.py" := ln "version = '0.1'"]>
       (<["/home/release/setup.py.tmpl" := ln "version = '{version}'"]> ∅))
    [] [].

(** The first character of [s], if any, is whitespace. *)
Definition starts_with_space (s : string) : bool :=
  match s with
  | String c _ => Str.is_space c
  | EmptyString => false
  end.

(** The lines of the section that the default template gives for a release
    name: the title, an underline as long as the title, and the reference
    to the notes file. *)
Definition default_section (release_name : string) : list string :=
  let title := "Version " +:+ short release_name in
  [ln title; ln (Str.repeat "=" (Str.len title)); ln ""; ln "In development.";
   ln ""; ln (".. include:: ./changes/" +:+ relname2fname release_name);
   ln ""; ln ""].

(** * Properties *)

(** ** Strings *)

Lemma append_cons (c : ascii) (s t : string) :
  String c s +:+ t = String c (s +:+ t).
Proof. reflexivity. Qed.

Lemma append_assoc (s t u : string) : (s +:+ t) +:+ u = s +:+ t +:+ u.
Proof. induction s as [|c s IH]; [reflexivity|]. by rewrite !append_cons, IH. Qed.

Lemma len_append (s t : string) : Str.len (s +:+ t) = Str.len s + Str.len t.
Proof. induction s as [|c s IH]; [reflexivity|]. rewrite append_cons. simpl. by rewrite IH. Qed.

Lemma append_inv_head (s t u : string) : s +:+ t = s +:+ u → t = u.
Proof.
  induction s as [|c s IH]; [done|].
  rewrite !append_cons. intros [= H]. by apply IH.
Qed.

Lemma slice_to_from (n : nat) (s : string) :
  Str.slice_to n s +:+ Str.slice_from n s = s.
Proof.
  revert s. induction n as [|n IH]; intros [|c s]; try reflexivity.
  simpl. by rewrite append_cons, IH.
Qed.

Lemma len_slice_to (n : nat) (s : string) :
  n ≤ Str.len s → Str.len (Str.slice_to n s) = n.
Proof.
  revert s. induction n as [|n IH]; intros [|c s] H; simpl in *; try lia.
  rewrite IH; lia.
Qed.

Lemma count_append (c : ascii) (s t : string) :
  Str.count c (s +:+ t) = Str.count c s + Str.count c t.
Proof.
  induction s as [|a s IH]; [reflexivity|].
  rewrite append_cons. simpl. rewrite IH. lia.
Qed.

Lemma startswith_append (p s t : string) :
  Str.startswith p s = true → Str.startswith p (s +:+ t) = true.
Proof.
  revert s. induction p as [|a p IH]; intros [|b s] H; simpl in *; try done.
  apply andb_true_iff in H as [-> H]. by apply IH.
Qed.

Lemma startswith_len (p s : string) :
  Str.startswith p s = true → Str.len p ≤ Str.len s.
Proof.
  revert s. induction p as [|a p IH]; intros [|b s] H; simpl in *; try done; try lia.
  apply andb_true_iff in H as [_ H]. apply IH in H. lia.
Qed.

(** ** VersionFormat *)

Lemma match_tag_digits_nil (tag : string) : match_tag_digits tag "" = false.
Proof.
  unfold match_tag_digits. destruct tag; simpl; [done|]. done.
Qed.

Lemma tag_at_nil (tag : string) (j : nat) : tag_at tag "" j = false.
Proof. unfold tag_at. destruct j; apply match_tag_digits_nil. Qed.

Lemma tag_at_cons (tag : string) (c : ascii) (s : string) (j : nat) :
  tag_at tag (String c s) (S j) = tag_at tag s j.
Proof. reflexivity. Qed.

Lemma re_search_start_Some (tag s : string) (i : nat) :
  re_search_start tag s = Some i →
  tag_at tag s i = true ∧ (∀ j, j < i → tag_at tag s j = false) ∧ i < Str.len s.
Proof.
  revert i. induction s as [|c s IH]; intros i; simpl.
  - rewrite match_tag_digits_nil. done.
  - destruct (match_tag_digits tag (String c s)) eqn:Hm.
    + intros [= <-]. split; [done|]. split; [lia|simpl; lia].
    + destruct (re_search_start tag s) as [i'|] eqn:Hs; [|done].
      intros [= <-]. destruct (IH i' eq_refl) as (Hat & Hlt & Hlen).
      split; [done|]. split; [|simpl; lia].
      intros [|j] Hj; [done|]. rewrite tag_at_cons. apply Hlt. lia.
Qed.

Lemma re_search_start_None (tag s : string) :
  re_search_start tag s = None → ∀ j, tag_at tag s j = false.
Proof.
  induction s as [|c s IH]; simpl.
  - intros _ j. apply tag_at_nil.
  - destruct (match_tag_digits tag (String c s)) eqn:Hm; [done|].
    destruct (re_search_start tag s) eqn:Hs; [done|].
    intros _ [|j]; [done|]. rewrite tag_at_cons. by apply IH.
Qed.

Lemma pretag_loop_spec (tags : list string) (name : string) :
  match pretag_loop tags name with
  | Some i =>
      ∃ before tag after,
        tags = before ++ tag :: after
        ∧ (∀ tag' j, tag' ∈ before → tag_at tag' name j = false)
        ∧ tag_at tag name i = true
        ∧ (∀ j, j < i → tag_at tag name j = false)
        ∧ i < Str.len name
  | None => ∀ tag j, tag ∈ tags → tag_at tag name j = false
  end.
Proof.
  induction tags as [|tag tags IH]; simpl.
  - intros tag j H. by apply elem_of_nil in H.
  - destruct (re_search_start tag name) as [i|] eqn:Hs.
    + apply re_search_start_Some in Hs as (Hat & Hlt & Hlen).
      exists [], tag, tags. split; [done|]. split; [|done].
      intros tag' j H. by apply elem_of_nil in H.
    + pose proof (re_search_start_None _ _ Hs) as Hnone.
      destruct (pretag_loop tags name) as [i|].
      * destruct IH as (before & tag0 & after & -> & Hb & Hat & Hlt & Hlen).
        exists (tag :: before), tag0, after. split; [done|]. split; [|done].
        intros tag' j [->|H]%elem_of_cons; [apply Hnone|by apply Hb].
      * intros tag' j [->|H]%elem_of_cons; [apply Hnone|by apply IH].
Qed.

Lemma pretag_pos_bound (name : string) (pos : nat) :
  pretag_pos name = Some pos → pos < Str.len name.
Proof.
  intros H. pose proof (pretag_loop_spec pretags name) as Hspec.
  unfold pretag_pos in H. rewrite H in Hspec.
  by destruct Hspec as (_ & _ & _ & _ & _ & _ & _ & Hlen).
Qed.

(** C2 (as amended): [pretag_pos] returns the start index of the leftmost
    occurrence of the first tag, in the order rc, c, beta, b, alpha, a, that
    occurs followed by digits anywhere in the name: no tag earlier in that
    order occurs at any index, and the deciding tag does not occur further
    left.  It returns none exactly when no tag of the list occurs followed by
    digits at any index. *)
Theorem pretag_pos_first_tag_leftmost (name : string) :
  match pretag_pos name with
  | Some i =>
      ∃ before tag after,
        pretags = before ++ tag :: after
        ∧ (∀ tag' j, tag' ∈ before → tag_at tag' name j = false)
        ∧ tag_at tag name i = true
        ∧ (∀ j, j < i → tag_at tag name j = false)
  | None => ∀ tag j, tag ∈ pretags → tag_at tag name j = false
  end.
Proof.
  pose proof (pretag_loop_spec pretags name) as Hspec. unfold pretag_pos.
  destruct (pretag_loop pretags name); [|done].
  destruct Hspec as (before & tag & after & H1 & H2 & H3 & H4 & _).
  by exists before, tag, after.
Qed.

(** C2, counterexample: in ["0.8a1rc2"] the pattern a-digits occurs at index
    3, which is the leftmost occurrence of any pattern, and [pretag_pos]
    returns 5, where rc-digits starts. *)
Lemma pretag_pos_not_leftmost :
  pretag_pos "0.8a1rc2" = Some 5
  ∧ spec_leftmost_pretag "0.8a1rc2" = Some 3
  ∧ tag_at "a" "0.8a1rc2" 3 = true.
Proof. by vm_compute. Qed.

Lemma long_release_name_one_dot (name : string) :
  Str.count "." name = 1 →
  long_release_name name =
    match pretag_pos name with
    | Some pos => Ok (Str.slice_to pos name +:+ ".0" +:+ Str.slice_from pos name)
    | None => Ok (name +:+ ".0")
    end.
Proof. intros H. unfold long_release_name. by rewrite H. Qed.

(** C1: for a release name with exactly one dot, [long_release_name] returns
    the name with [".0"] inserted immediately before the index given by
    [pretag_pos] when a tag is detected (the name is cut in two at that
    index and [".0"] is put between the parts), and the name followed by
    [".0"] when no tag is detected; a name with two or more dots is returned
    unchanged. *)
Theorem long_release_name_inserts_dot_zero (name : string) :
  (Str.count "." name = 1 →
   match pretag_pos name with
   | Some pos =>
       ∃ before after,
         name = before +:+ after ∧ Str.len before = pos
         ∧ long_release_name name = Ok (before +:+ ".0" +:+ after)
   | None => long_release_name name = Ok (name +:+ ".0")
   end)
  ∧ (2 ≤ Str.count "." name → long_release_name name = Ok name).
Proof.
  split.
  - intros H. rewrite (long_release_name_one_dot name H).
    destruct (pretag_pos name) as [pos|] eqn:Hpos; [|done].
    exists (Str.slice_to pos name), (Str.slice_from pos name).
    split; [by rewrite slice_to_from|]. split; [|done].
    apply len_slice_to. apply pretag_pos_bound in Hpos. lia.
  - intros H. unfold long_release_name.
    destruct (2 <=? Str.count "." name)%nat eqn:Hle; [done|].
    apply Nat.leb_gt in Hle. lia.
Qed.

(** C1 at ["0.8rc1"] (one dot, tag at index 3) and at ["0.8.0rc1"] (two
    dots). *)
Lemma long_release_name_inserts_dot_zero_witness :
  (∃ before after,
     "0.8rc1" = before +:+ after ∧ Str.len before = 3
     ∧ long_release_name "0.8rc1" = Ok (before +:+ ".0" +:+ after))
  ∧ long_release_name "0.8.0rc1" = Ok "0.8.0rc1".
Proof.
  split.
  - exact (proj1 (long_release_name_inserts_dot_zero "0.8rc1") eq_refl).
  - apply (proj2 (long_release_name_inserts_dot_zero "0.8.0rc1")).
    vm_compute. lia.
Defined.

(** C8: a release name without a dot makes [long_release_name] fail: the
    assertion on the dot count raises, and no value is returned.  The
    failure the spec calls InvalidVersionFormat is Python's
    [AssertionError] here. *)
Theorem long_release_name_no_dot_fails (name : string) :
  Str.count "." name = 0 →
  long_release_name name = Raise (AssertionError (name +:+ " contains 0 dots")).
Proof. intros H. unfold long_release_name. by rewrite H. Qed.

Lemma long_release_name_no_dot_fails_witness :
  long_release_name "08rc1" = Raise (AssertionError "08rc1 contains 0 dots").
Proof. apply (long_release_name_no_dot_fails "08rc1"). reflexivity. Defined.

(** C9 (as amended): when [long_release_name] succeeds, the returned name
    has exactly 2 dots if the given name has at most 2, and otherwise as
    many dots as the given name, which is returned unchanged. *)
Theorem long_release_name_dot_count (name r : string) :
  long_release_name name = Ok r →
  Str.count "." r = Nat.max 2 (Str.count "." name)
  ∧ (2 < Str.count "." name → r = name).
Proof.
  unfold long_release_name.
  destruct (2 <=? Str.count "." name)%nat eqn:Hle.
  - intros [= <-]. apply Nat.leb_le in Hle. split; [lia|done].
  - apply Nat.leb_gt in Hle.
    destruct (Str.count "." name =? 1)%nat eqn:Hone; simpl; [|done].
    apply Nat.eqb_eq in Hone. rewrite Hone.
    destruct (pretag_pos name) as [pos|]; intros [= <-].
    + rewrite !count_append.
      assert (Str.count "." (Str.slice_to pos name)
              + Str.count "." (Str.slice_from pos name) = 1) as Hsum
        by (by rewrite <- count_append, slice_to_from).
      simpl. split; lia.
    + rewrite count_append. simpl. split; lia.
Qed.

Lemma long_release_name_dot_count_witness :
  Str.count "." "0.8.0rc1" = Nat.max 2 (Str.count "." "0.8rc1")
  ∧ (2 < Str.count "." "0.8rc1" → "0.8.0rc1" = "0.8rc1").
Proof. exact (long_release_name_dot_count "0.8rc1" "0.8.0rc1" eq_refl). Defined.

(** C9, counterexample: ["1.2.3.4"] has at least one dot, [long_release_name]
    succeeds on it, and the returned name has 3 dots. *)
Lemma long_release_name_three_dots :
  long_release_name "1.2.3.4" = Ok "1.2.3.4" ∧ Str.count "." "1.2.3.4" = 3.
Proof. by vm_compute. Qed.

Lemma slice_from_ge (n : nat) (s : string) :
  Str.len s ≤ n → Str.slice_from n s = "".
Proof.
  revert s. induction n as [|n IH]; intros [|c s] H; simpl in *; try done; try lia.
  apply IH. lia.
Qed.

Lemma slice_from_append_le (n : nat) (s t : string) :
  n ≤ Str.len s → Str.slice_from n (s +:+ t) = Str.slice_from n s +:+ t.
Proof.
  revert s. induction n as [|n IH]; intros [|c s] H; simpl in *; try done; try lia.
  apply IH. lia.
Qed.

Lemma match_tag_digits_append (tag s t : string) :
  match_tag_digits tag s = true → match_tag_digits tag (s +:+ t) = true.
Proof.
  unfold match_tag_digits. intros [Hp Hd]%andb_true_iff.
  rewrite (startswith_append _ _ _ Hp). simpl.
  rewrite slice_from_append_le by by apply startswith_len.
  by destruct (Str.slice_from (Str.len tag) s).
Qed.

Lemma tag_at_append (tag s t : string) (j : nat) :
  tag_at tag s j = true → tag_at tag (s +:+ t) j = true.
Proof.
  unfold tag_at. intros H.
  destruct (decide (j ≤ Str.len s)) as [Hj|Hj].
  - rewrite slice_from_append_le by done. by apply match_tag_digits_append.
  - rewrite slice_from_ge, match_tag_digits_nil in H by lia. done.
Qed.

Lemma spec_leftmost_pretag_cons (c : ascii) (s : string) :
  spec_leftmost_pretag (String c s) =
    if existsb (λ tag, match_tag_digits tag (String c s)) pretags then Some 0
    else option_map S (spec_leftmost_pretag s).
Proof. reflexivity. Qed.

Lemma spec_leftmost_pretag_Some (s : string) (p : nat) :
  spec_leftmost_pretag s = Some p →
  ∀ tag j, tag ∈ pretags → j < p → tag_at tag s j = false.
Proof.
  revert p. induction s as [|c s IH]; intros p; [done|].
  rewrite spec_leftmost_pretag_cons.
  destruct (existsb _ pretags) eqn:Hex.
  - intros [= <-]. lia.
  - destruct (spec_leftmost_pretag s) as [p'|]; [|done].
    intros [= <-] tag [|j] Htag Hj.
    + destruct (tag_at tag (String c s) 0) eqn:Hat; [|done].
      assert (existsb (λ tag, match_tag_digits tag (String c s)) pretags = true)
        as Hyes; [|congruence].
      apply existsb_exists. exists tag. split; [by apply list_elem_of_In|done].
    + rewrite tag_at_cons. apply (IH p' eq_refl); [done|lia].
Qed.

Lemma strip_pretags_stable (name : string) :
  isprerelease (strip_pretags name) = false →
  strip_pretags (strip_pretags name) = strip_pretags name.
Proof.
  unfold isprerelease. generalize (strip_pretags name) as s. intros s H.
  unfold strip_pretags. by destruct (pretag_pos s).
Qed.

Lemma leftmost_tag_strips_clean (name : string) :
  spec_leftmost_pretag name = pretag_pos name →
  isprerelease (strip_pretags name) = false.
Proof.
  intros Hleft. unfold strip_pretags.
  destruct (pretag_pos name) as [p|] eqn:Hp.
  - unfold isprerelease, pretag_pos.
    pose proof (pretag_loop_spec pretags (Str.slice_to p name)) as Hspec.
    destruct (pretag_loop pretags (Str.slice_to p name)) as [q|]; [|done].
    destruct Hspec as (before & tag & after & Htags & _ & Hat & _ & Hq).
    apply (tag_at_append _ _ (Str.slice_from p name)) in Hat.
    rewrite slice_to_from in Hat.
    rewrite (spec_leftmost_pretag_Some name p Hleft tag q) in Hat; [done| |].
    + rewrite Htags. apply elem_of_app. right. apply elem_of_cons. by left.
    + apply pretag_pos_bound in Hp. rewrite len_slice_to in Hq; lia.
  - unfold isprerelease. by rewrite Hp.
Qed.

(** C5 (as amended): [relname2fname] computes [short(strip_pretags(name))],
    replaces every ["."] by ["_"] and returns ["version_{result}.rst.inc"];
    ["0.8.0"] gives ["version_0_8.rst.inc"] and ["0.8.1rc1"] gives
    ["version_0_8_1.rst.inc"]; and [relname2fname(name)] equals
    [relname2fname(strip_pretags(name))] for every name whose stripped form
    holds no further tag pattern, which is the case whenever [pretag_pos]
    is the leftmost tag pattern of the name. *)
Theorem relname2fname_spec (name : string) :
  relname2fname name
    = "version_" +:+ Str.replace "." "_" (short (strip_pretags name)) +:+ ".rst.inc"
  ∧ relname2fname "0.8.0" = "version_0_8.rst.inc"
  ∧ relname2fname "0.8.1rc1" = "version_0_8_1.rst.inc"
  ∧ (isprerelease (strip_pretags name) = false →
     relname2fname name = relname2fname (strip_pretags name))
  ∧ (spec_leftmost_pretag name = pretag_pos name →
     isprerelease (strip_pretags name) = false).
Proof.
  split; [done|]. split; [by vm_compute|]. split; [by vm_compute|]. split.
  - intros H. unfold relname2fname. by rewrite strip_pretags_stable.
  - apply leftmost_tag_strips_clean.
Qed.

(** C5 at ["0.8.1rc1"], whose only tag is the leftmost one. *)
Lemma relname2fname_spec_witness :
  relname2fname "0.8.1rc1" = relname2fname (strip_pretags "0.8.1rc1")
  ∧ isprerelease (strip_pretags "0.8.1rc1") = false.
Proof.
  pose proof (relname2fname_spec "0.8.1rc1") as (_ & _ & _ & Heq & Hclean).
  split; [apply Heq|]; apply Hclean; reflexivity.
Defined.

(** C5, counterexample: ["0.8a1rc2"] is cut at rc-digits, which leaves a
    name that still holds a-digits, so the two file names differ. *)
Lemma relname2fname_strip_differs :
  relname2fname "0.8a1rc2" = "version_0_8a1.rst.inc"
  ∧ relname2fname (strip_pretags "0.8a1rc2") = "version_0_8.rst.inc".
Proof. by vm_compute. Qed.

(** ** TextPatcher *)

Lemma replace_step_length (end_ : string) (i : nat) (line : string)
    (lines : list string) (change : string * string) :
  length (replace_step end_ i line lines change) = length lines.
Proof.
  unfold replace_step. destruct change as [sub new].
  destruct (_ && _); [apply length_insert|done].
Qed.

Lemma replace_step_other (end_ : string) (i j : nat) (line : string)
    (lines : list string) (change : string * string) :
  i ≠ j → replace_step end_ i line lines change !! j = lines !! j.
Proof.
  intros Hij. unfold replace_step. destruct change as [sub new].
  destruct (_ && _); [by apply list_lookup_insert_ne|done].
Qed.

Lemma replace_step_left_alone (end_ : string) (i : nat) (line : string)
    (lines : list string) (changes : list (string * string))
    (change : string * string) :
  left_alone changes line → change ∈ changes →
  replace_step end_ i line lines change = lines.
Proof.
  intros [Hcomment|Hnone] Hin; unfold replace_step; destruct change as [sub new].
  - rewrite Hcomment. simpl. by rewrite andb_false_r.
  - by rewrite (Hnone sub new Hin).
Qed.

Lemma fold_replace_step_length (end_ : string) (i : nat) (line : string)
    (changes : list (string * string)) (lines : list string) :
  length (fold_left (replace_step end_ i line) changes lines) = length lines.
Proof.
  revert lines. induction changes as [|ch changes IH]; intros lines; [done|].
  simpl. by rewrite IH, replace_step_length.
Qed.

Lemma fold_replace_step_other (end_ : string) (i j : nat) (line : string)
    (changes : list (string * string)) (lines : list string) :
  i ≠ j → fold_left (replace_step end_ i line) changes lines !! j = lines !! j.
Proof.
  intros Hij. revert lines.
  induction changes as [|ch changes IH]; intros lines; [done|].
  simpl. by rewrite IH, replace_step_other.
Qed.

Lemma fold_replace_step_left_alone (end_ : string) (i : nat) (line : string)
    (all changes : list (string * string)) (lines : list string) :
  left_alone all line → changes ⊆ all →
  fold_left (replace_step end_ i line) changes lines = lines.
Proof.
  intros Hline. revert lines.
  induction changes as [|ch changes IH]; intros lines Hsub; [done|].
  simpl. rewrite (replace_step_left_alone _ _ _ _ all) by set_solver.
  apply IH. set_solver.
Qed.

Lemma replace_loop_length (changes : list (string * string)) (end_ : string)
    (i : nat) (snapshot lines : list string) :
  length (replace_loop changes end_ i snapshot lines) = length lines.
Proof.
  revert i lines. induction snapshot as [|line snapshot IH]; intros i lines; [done|].
  simpl. by rewrite IH, fold_replace_step_length.
Qed.

(** Line [j] is untouched by the loop when its turn is over ([j < i]) or
    when the copy holds, at its place, a line to leave alone. *)
Lemma replace_loop_frame (changes : list (string * string)) (end_ : string)
    (i : nat) (snapshot lines : list string) (j : nat) :
  (j < i ∨ ∃ line, i ≤ j ∧ snapshot !! (j - i) = Some line ∧ left_alone changes line) →
  replace_loop changes end_ i snapshot lines !! j = lines !! j.
Proof.
  revert i lines. induction snapshot as [|line snapshot IH]; intros i lines H; [done|].
  simpl. destruct (decide (i = j)) as [<-|Hij].
  - destruct H as [H|(l & _ & Hl & Halone)]; [lia|].
    rewrite Nat.sub_diag in Hl. injection Hl as ->.
    rewrite IH by (left; lia).
    by rewrite (fold_replace_step_left_alone _ _ _ changes).
  - rewrite IH, fold_replace_step_other; [done|done|].
    destruct H as [H|(l & Hle & Hl & Halone)]; [left; lia|].
    right. exists l. split; [lia|]. split; [|done].
    replace (j - i) with (S (j - S i)) in Hl by lia. done.
Qed.

Lemma concat_cons_first (c : ascii) (ls : list string) :
  Str.concat (Str.cons_first c ls) = String c (Str.concat ls).
Proof. by destruct ls. Qed.

Lemma concat_readlines (s : string) : Str.concat (Str.readlines s) = s.
Proof.
  induction s as [|c s IH]; [done|]. simpl.
  destruct (Ascii.eqb c "010").
  - simpl. by rewrite IH.
  - by rewrite concat_cons_first, IH.
Qed.

(** *** Universal newlines *)

Lemma universal_newlines_cons (c : ascii) (s : string) :
  Ascii.eqb c "013" = false →
  Str.universal_newlines (String c s) = String c (Str.universal_newlines s).
Proof. intros Hc. simpl. by rewrite Hc. Qed.

Lemma universal_newlines_cr (s : string) :
  Str.universal_newlines (String "013" s) =
    String "010"
      (Str.universal_newlines
         match s with
         | String c2 s'' => if Ascii.eqb c2 "010" then s'' else s
         | EmptyString => s
         end).
Proof. destruct s as [|c2 s'']; [done|]. simpl. by destruct (Ascii.eqb c2 "010"). Qed.

(** The text that is read holds no carriage return. *)
Lemma universal_newlines_no_cr (s : string) :
  Str.count "013" (Str.universal_newlines s) = 0.
Proof.
  remember (Str.len s) as n eqn:Hn. revert s Hn.
  induction n as [n IH] using lt_wf_ind. intros [|c s] Hn; [done|].
  simpl in Hn. destruct (Ascii.eqb c "013") eqn:Hc.
  - apply Ascii.eqb_eq in Hc as ->. rewrite universal_newlines_cr.
    change (Str.count "013" (String "010" ?x)) with (Str.count "013" x).
    destruct s as [|c2 s]; [done|]. simpl in Hn.
    destruct (Ascii.eqb c2 "010"); (eapply IH; [|reflexivity]); simpl; lia.
  - rewrite universal_newlines_cons by done. simpl. rewrite Hc.
    eapply IH; [|reflexivity]. lia.
Qed.

(** A text without carriage returns is read as it is stored. *)
Lemma universal_newlines_id (s : string) :
  Str.count "013" s = 0 → Str.universal_newlines s = s.
Proof.
  induction s as [|c s IH]; [done|]. simpl Str.count.
  destruct (Ascii.eqb c "013") eqn:Hc; [done|]. intros H.
  by rewrite universal_newlines_cons, IH.
Qed.

Lemma universal_newlines_append (a b : string) :
  Str.count "013" a = 0 →
  Str.universal_newlines (a +:+ b) = a +:+ Str.universal_newlines b.
Proof.
  induction a as [|c a IH]; [done|]. simpl Str.count.
  destruct (Ascii.eqb c "013") eqn:Hc; [done|]. intros H.
  by rewrite !append_cons, universal_newlines_cons, IH.
Qed.

Lemma universal_newlines_idemp (s : string) :
  Str.universal_newlines (Str.universal_newlines s) = Str.universal_newlines s.
Proof. apply universal_newlines_id, universal_newlines_no_cr. Qed.

(** C7 (as amended): [replace_lines] reads the file in text mode, as lines
    that together are its content with every line end CRLF or CR turned
    into LF, and writes them back with every comment line (even one that
    holds a target substring) and every line holding no target substring
    left as it was read.  In a file without carriage returns the lines read
    are the content itself, so these lines are left as they were stored,
    line ending included. *)
Theorem replace_lines_leaves_alone (w : world) (fpath : string)
    (changes : list (string * string)) (end_ content : string) :
  files w !! abspath w fpath = Some content →
  ∃ lines' : list string,
    replace_lines fpath changes end_ w
      = (Ok tt, set_files (<[abspath w fpath := Str.concat lines']> (files w)) w)
    ∧ Str.concat (text_lines content) = Str.universal_newlines content
    ∧ (Str.count "013" content = 0 → Str.concat (text_lines content) = content)
    ∧ length lines' = length (text_lines content)
    ∧ ∀ (i : nat) (line : string),
        text_lines content !! i = Some line →
        left_alone changes line →
        lines' !! i = Some line.
Proof.
  intros Hfile.
  exists (replace_loop changes end_ 0 (text_lines content) (text_lines content)).
  split; [|split; [apply concat_readlines|split; [|split; [apply replace_loop_length|]]]].
  - unfold replace_lines, mbind, M_bind, bind, open_read. by rewrite Hfile.
  - intros Hcr. by rewrite concat_readlines, universal_newlines_id.
  - intros i line Hi Halone. rewrite replace_loop_frame; [done|].
    right. exists line. rewrite Nat.sub_0_r. split; [lia|done].
Qed.

(** C7, counterexample: a settings file with CRLF line ends, whose comment
    line holds the substring and whose other line does not, is written back
    with both lines ending in LF: neither line keeps its line ending. *)
Lemma replace_lines_rewrites_crlf :
  files example_settings_crlf_world !! "/home/release/setup.cfg"
    = Some (crlf "# version = '0.1'" +:+ crlf "name = 'proj'")
  ∧ replace_lines "setup.cfg" [("version", "version = '0.2'")] Str.NL
      example_settings_crlf_world
    = (Ok (), set_files (<["/home/release/setup.cfg" :=
                             ln "# version = '0.1'" +:+ ln "name = 'proj'"]>
                           (files example_settings_crlf_world))
                example_settings_crlf_world)
  ∧ String.eqb (crlf "# version = '0.1'") (ln "# version = '0.1'") = false
  ∧ String.eqb (crlf "name = 'proj'") (ln "name = 'proj'") = false.
Proof. by vm_compute. Qed.

(** C7 at the example settings file: the comment line and the line without
    the substring stay, the line between them is replaced. *)
Lemma replace_lines_leaves_alone_witness :
  ∃ lines' : list string,
    replace_lines "setup.cfg" [("version", "version = '0.2'")] Str.NL
      example_settings_world
      = (Ok (), set_files (<["/home/release/setup.cfg" := Str.concat lines']>
                             (files example_settings_world))
                  example_settings_world)
    ∧ lines' !! 0 = Some (ln "# version = '0.1'")
    ∧ lines' !! 2 = Some (ln "name = 'proj'").
Proof.
  destruct (replace_lines_leaves_alone example_settings_world "setup.cfg"
              [("version", "version = '0.2'")] Str.NL example_settings eq_refl)
    as (lines' & Hrun & _ & _ & _ & Hkept).
  exists lines'. split; [exact Hrun|]. split.
  - apply Hkept; [reflexivity|]. left. reflexivity.
  - apply Hkept; [reflexivity|]. right.
    intros sub new [= -> ->]%list_elem_of_singleton. reflexivity.
Defined.

(** ** ChangelogEditor *)

(** C10: with a notes directory of [None], the value that [add_release]
    passes on by default, [update_changelog] raises before it reads, writes
    or prints anything: the step that computes the notes file name is
    skipped and building the changelog path from [None] fails.  The world
    is left as it was, and [add_release] fails the same way without calling
    the version update. *)
Theorem update_changelog_None_fails
    (check_output : list pyarg → M string)
    (update_version : string → string → string → string → M unit)
    (build_dir package_name module_name release_name template : string)
    (w : world) :
  update_changelog check_output None build_dir release_name template w
    = (Raise (TypeError "expected str, bytes or os.PathLike object, not NoneType"), w)
  ∧ add_release check_output update_version build_dir package_name module_name
      release_name None template w
    = (Raise (TypeError "expected str, bytes or os.PathLike object, not NoneType"), w).
Proof. split; reflexivity. Qed.

(** *** Paths *)

Lemma os_path_join_relative (a b : string) :
  Str.startswith "/" b = false → os_path_join a b = dir_prefix a +:+ b.
Proof.
  intros H. unfold os_path_join, dir_prefix. rewrite H.
  destruct (String.eqb a "" || Str.endswith "/" a); [done|].
  by rewrite append_assoc.
Qed.

Lemma os_path_join_absolute (a b : string) :
  Str.startswith "/" b = true → os_path_join a b = b.
Proof. intros H. unfold os_path_join. by rewrite H. Qed.

Lemma startswith_slash_append (p : string) (c : ascii) (r r' : string) :
  Str.startswith "/" (p +:+ String c r) = Str.startswith "/" (p +:+ String c r').
Proof. destruct p; simpl; by rewrite !andb_true_r. Qed.

Lemma slice_from_append_ge (k : nat) (s t : string) :
  Str.slice_from (Str.len s + k) (s +:+ t) = Str.slice_from k t.
Proof. induction s as [|c s IH]; [done|]. by rewrite append_cons. Qed.

Lemma dir_prefix_changes (p : string) :
  dir_prefix (p +:+ "changes") = p +:+ "changes" +:+ "/".
Proof.
  unfold dir_prefix, Str.endswith.
  replace (String.eqb (p +:+ "changes") "") with false by by destruct p.
  rewrite len_append. simpl Str.len.
  replace (Str.len p + 7 - 1) with (Str.len p + 6) by lia.
  rewrite slice_from_append_ge. simpl. rewrite andb_false_r.
  by rewrite append_assoc.
Qed.

(** The three paths of [update_changelog] share a root and part after it. *)
Lemma changelog_keys (w : world) (src_doc build_dir release_name : string) :
  ∃ root fname',
    changelog_key w src_doc build_dir = root +:+ "changes" +:+ ".rst"
    ∧ template_key w src_doc build_dir
        = root +:+ "changes" +:+ "/" +:+ "template.rst.inc"
    ∧ notes_key w src_doc build_dir release_name
        = root +:+ "changes" +:+ "/" +:+ "version_" +:+ fname'.
Proof.
  unfold changelog_key, template_key, notes_key, relname2fname.
  set (d := os_path_join (cwd w) build_dir).
  set (rest := Str.replace "." "_" (short (strip_pretags release_name)) +:+ ".rst.inc").
  rewrite !(os_path_join_relative src_doc) by done.
  rewrite !(os_path_join_relative (dir_prefix src_doc +:+ "changes")) by done.
  rewrite dir_prefix_changes, !append_assoc.
  change "changes.rst" with ("changes" +:+ ".rst").
  set (p := dir_prefix src_doc).
  assert (∀ r, Str.startswith "/" (p +:+ "changes" +:+ r)
               = Str.startswith "/" (p +:+ "changes" +:+ ".rst")) as Hsame
    by (intros r; apply (startswith_slash_append p "c")).
  destruct (Str.startswith "/" (p +:+ "changes" +:+ ".rst")) eqn:Habs.
  - exists p, rest. by rewrite !os_path_join_absolute by by rewrite ?Hsame.
  - exists (dir_prefix d +:+ p), rest.
    by rewrite !os_path_join_relative, !append_assoc by by rewrite ?Hsame.
Qed.

Lemma changelog_key_not_notes (w : world) (src_doc build_dir release_name : string) :
  notes_key w src_doc build_dir release_name ≠ changelog_key w src_doc build_dir.
Proof.
  destruct (changelog_keys w src_doc build_dir release_name)
    as (root & fname' & -> & _ & ->).
  intros H. by do 2 apply append_inv_head in H.
Qed.

Lemma template_key_not_notes (w : world) (src_doc build_dir release_name : string) :
  template_key w src_doc build_dir ≠ notes_key w src_doc build_dir release_name.
Proof.
  destruct (changelog_keys w src_doc build_dir release_name)
    as (root & fname' & _ & -> & ->).
  intros H. by do 3 apply append_inv_head in H.
Qed.

(** *** Running statement sequences *)

Lemma bind_Ok {A B : Type} (m : M A) (k : A → M B) (w w' : world) (a : A) :
  m w = (Ok a, w') → (m ≫= k) w = k a w'.
Proof. intros H. unfold mbind, M_bind, bind. by rewrite H. Qed.

Lemma bind_Raise {A B : Type} (m : M A) (k : A → M B) (w w' : world) (e : exn) :
  m w = (Raise e, w') → (m ≫= k) w = (Raise e, w').
Proof. intros H. unfold mbind, M_bind, bind. by rewrite H. Qed.

Lemma keeps_ret {A : Type} (a : A) : keeps_files (mret a).
Proof. done. Qed.

Lemma keeps_raise {A : Type} (e : exn) : keeps_files (@raise A e).
Proof. done. Qed.

Lemma keeps_bind {A B : Type} (m : M A) (k : A → M B) :
  keeps_files m → (∀ a, keeps_files (k a)) → keeps_files (m ≫= k).
Proof.
  intros Hm Hk w. unfold mbind, M_bind, bind.
  specialize (Hm w). destruct (m w) as [[a|e] w']; simpl in *; [|done].
  by rewrite Hk.
Qed.

Lemma keeps_print (s : string) : keeps_files (print s).
Proof. done. Qed.

Lemma keeps_input (prompt : string) : keeps_files (input prompt).
Proof. intros w. unfold input. simpl. by destruct (stdin w). Qed.

Lemma keeps_open_read (path : string) : keeps_files (open_read path).
Proof. intros w. unfold open_read. by destruct (files w !! abspath w path). Qed.

Lemma keeps_local {A : Type} (name : string) (v : option A) :
  keeps_files (local name v).
Proof. intros w. by destruct v. Qed.

Lemma keeps_yes_loop (turns : nat) (prompt : string) (answer : option string) :
  keeps_files (yes_loop turns prompt answer).
Proof.
  revert answer. induction turns as [|turns IH]; intros answer.
  - destruct answer as [a|]; simpl; [destruct (_ || _)|]; done.
  - assert (∀ first : M (),
              keeps_files first →
              keeps_files
                (first ;; line ← input prompt;
                 yes_loop turns prompt (Some (Str.lower line)))) as Hturn.
    { intros first Hfirst. apply keeps_bind; [done|]. intros _.
      apply keeps_bind; [apply keeps_input|]. intros line. apply IH. }
    destruct answer as [a|]; simpl; [destruct (_ || _); [done|]|];
      by apply Hturn.
Qed.

Lemma keeps_yes (msg default : string) : keeps_files (yes msg default).
Proof.
  intros w. unfold yes.
  apply (keeps_bind (yes_loop (S (length (stdin w))) (msg +:+ choices default) None)).
  - apply keeps_yes_loop.
  - intros a. apply keeps_ret.
Qed.

Lemma keeps_no (msg default : string) : keeps_files (no msg default).
Proof.
  apply keeps_bind; [apply keeps_yes|]. intros b. apply keeps_ret.
Qed.

(** [echocall] handed a list raises at [' '.join(args)], before anything is
    printed or run. *)
Lemma echocall_list (check_output : list pyarg → M string) (l : list string)
    (args : list pyarg) (w : world) :
  echocall check_output (PList l :: args) w
    = (Raise (TypeError "sequence item 0: expected str instance, list found"), w).
Proof. reflexivity. Qed.

Lemma copy_run (src dst : string) (w : world) :
  copy src dst w =
    if String.eqb (abspath w src) (abspath w dst)
    then (Raise (SameFileError src), w)
    else match files w !! abspath w src with
         | Some content =>
             (Ok (), set_files (<[abspath w dst := content]> (files w)) w)
         | None => (Raise (FileNotFoundError src), w)
         end.
Proof.
  unfold copy. destruct (String.eqb _ _); [done|].
  by destruct (files w !! abspath w src).
Qed.

(** *** What [update_changelog] does to the files *)

Lemma getitem_run (lines : list string) (i : nat) (w : world) :
  getitem lines i w =
    match lines !! i with
    | Some l => (Ok l, w)
    | None => (Raise (IndexError "list index out of range"), w)
    end.
Proof. unfold getitem. by destruct (lines !! i). Qed.

(** The statements after [writelines]: show, ask, stage. *)
Lemma keeps_confirm_and_stage (check_output : list pyarg → M string)
    (fpath : string) (changelog_file : option string) :
  keeps_files
    (shown ← open_read fpath;
     print (Str.join Str.NL (take 20 (Str.splitlines shown))) ;;
     declined ← no "Does the full changelog look right?" "n";
     if declined : bool then raise (SystemExit 1)
     else
       changelog_file' ← local "changelog_file" changelog_file;
       echocall check_output [PList ["git"; "add"; fpath; changelog_file']] ;;
       mret ()).
Proof.
  apply keeps_bind; [apply keeps_open_read|]. intros shown.
  apply keeps_bind; [apply keeps_print|]. intros _.
  apply keeps_bind; [apply keeps_no|]. intros [|]; [apply keeps_raise|].
  apply keeps_bind; [apply keeps_local|]. intros file.
  intros w. by rewrite (bind_Raise _ _ w w _ (echocall_list _ _ _ w)).
Qed.

(** The files after a run with a notes directory, case by case: the
    template is copied to the notes file if it exists; then the changelog
    index is rewritten with the section spliced in, provided it exists, has
    a line at index 3 other than the title line, and the template renders. *)
Lemma update_changelog_files (check_output : list pyarg → M string) (w : world)
    (src_doc build_dir release_name template : string) :
  files (update_changelog check_output (Some src_doc) build_dir release_name
           template w).2 =
    match files w !! template_key w src_doc build_dir with
    | None => files w
    | Some notes =>
        let fs := <[notes_key w src_doc build_dir release_name := notes]> (files w) in
        match files w !! changelog_key w src_doc build_dir with
        | None => fs
        | Some content =>
            match text_lines content !! 3 with
            | None => fs
            | Some line3 =>
                if String.eqb line3 (title_line release_name) then fs
                else match render_section template release_name with
                     | Ok text =>
                         <[changelog_key w src_doc build_dir :=
                             Str.concat (splice3 (text_lines content)
                                           (Str.splitlines_keepends text))]> fs
                     | Raise _ => fs
                     end
            end
        end
    end.
Proof.
  unfold update_changelog.
  set (w1 := set_cwd (os_path_join (cwd w) build_dir) w).
  set (tpath := os_path_join (os_path_join src_doc "changes") "template.rst.inc").
  set (npath := os_path_join (os_path_join src_doc "changes") (relname2fname release_name)).
  set (fpath := os_path_join src_doc "changes.rst").
  assert (abspath w1 tpath = template_key w src_doc build_dir) as Ht by done.
  assert (abspath w1 npath = notes_key w src_doc build_dir release_name) as Hn by done.
  assert (abspath w1 fpath = changelog_key w src_doc build_dir) as Hf by done.
  pose proof (template_key_not_notes w src_doc build_dir release_name) as Htn.
  pose proof (changelog_key_not_notes w src_doc build_dir release_name) as Hfn.
  set (locals := (Some (relname2fname release_name), Some npath)).
  assert ((chdir build_dir ;; copy tpath npath ;; mret locals) w =
          match files w !! template_key w src_doc build_dir with
          | Some notes =>
              (Ok locals,
               set_files (<[notes_key w src_doc build_dir release_name := notes]>
                            (files w)) w1)
          | None => (Raise (FileNotFoundError tpath), w1)
          end) as Hprepare.
  { rewrite (bind_Ok (chdir build_dir) _ w w1 () eq_refl).
    unfold mbind, M_bind, bind. rewrite copy_run, Ht, Hn.
    apply String.eqb_neq in Htn. rewrite Htn. simpl files.
    by destruct (files w !! template_key w src_doc build_dir). }
  destruct (files w !! template_key w src_doc build_dir) as [notes|].
  2: { by rewrite (bind_Raise _ _ _ _ _ Hprepare). }
  rewrite (bind_Ok _ _ _ _ _ Hprepare). clear Hprepare.
  set (w2 := set_files _ w1). cbv zeta.
  rewrite (bind_Ok (lift (os_path_join_opt (Some src_doc) "changes.rst")) _ w2 w2 fpath eq_refl).
  assert (open_read fpath w2 =
          match files w !! changelog_key w src_doc build_dir with
          | Some content => (Ok (Str.universal_newlines content), w2)
          | None => (Raise (FileNotFoundError fpath), w2)
          end) as Hread.
  { unfold open_read. change (abspath w2 fpath) with (abspath w1 fpath).
    rewrite Hf. simpl files. by rewrite lookup_insert_ne. }
  destruct (files w !! changelog_key w src_doc build_dir) as [content|].
  2: { by rewrite (bind_Raise _ _ _ _ _ Hread). }
  rewrite (bind_Ok _ _ _ _ _ Hread). clear Hread.
  pose proof (getitem_run (text_lines content) 3 w2) as Hitem.
  destruct (text_lines content !! 3) as [line3|].
  2: { by rewrite (bind_Raise _ _ _ _ _ Hitem). }
  rewrite (bind_Ok _ _ _ _ _ Hitem). clear Hitem.
  fold (title_line release_name).
  destruct (String.eqb line3 (title_line release_name)); [done|].
  rewrite (bind_Ok (local "fname" locals.1) _ w2 w2 (relname2fname release_name) eq_refl).
  fold (render_section template release_name).
  destruct (render_section template release_name) as [text|e].
  2: { by rewrite (bind_Raise (lift (Raise e)) _ w2 w2 e eq_refl). }
  rewrite (bind_Ok (lift (Ok text)) _ w2 w2 text eq_refl).
  set (lines' := splice3 _ _).
  rewrite (bind_Ok (writelines fpath lines') _ w2
             (set_files (<[abspath w2 fpath := Str.concat lines']> (files w2)) w2)
             () eq_refl).
  rewrite keeps_confirm_and_stage. simpl files.
  change (abspath w2 fpath) with (abspath w1 fpath). by rewrite Hf.
Qed.

(** *** Lines of a text *)

Lemma concat_app (a b : list string) :
  Str.concat (a ++ b) = Str.concat a +:+ Str.concat b.
Proof.
  induction a as [|l a IH]; [done|].
  simpl. by rewrite IH, append_assoc.
Qed.

Lemma readlines_cons (c : ascii) (s : string) :
  Str.readlines (String c s) =
    if Ascii.eqb c "010" then String c "" :: Str.readlines s
    else Str.cons_first c (Str.readlines s).
Proof. reflexivity. Qed.

Lemma readlines_complete_line (l rest : string) :
  complete_line l → Str.readlines (l +:+ rest) = l :: Str.readlines rest.
Proof.
  intros (body & -> & Hbody). induction body as [|c body IH].
  - reflexivity.
  - simpl in Hbody. destruct (Ascii.eqb c "010") eqn:Hc; [done|].
    rewrite !append_cons, readlines_cons, Hc, IH by done. done.
Qed.

Lemma readlines_lines_complete (s : string) (i : nat) (l : string) :
  Str.readlines s !! i = Some l → is_Some (Str.readlines s !! S i) →
  complete_line l.
Proof.
  revert i l. induction s as [|c s IH]; intros i l; [done|].
  rewrite readlines_cons. destruct (Ascii.eqb c "010") eqn:Hc.
  - apply Ascii.eqb_eq in Hc as ->. destruct i as [|i].
    + intros [= <-] _. by exists "".
    + apply IH.
  - destruct (Str.readlines s) as [|l0 ls] eqn:Hls; simpl.
    + destruct i; [intros _ [? [=]]|done].
    + destruct i as [|i].
      * intros [= <-] Hnext.
        destruct (IH 0 l0 eq_refl Hnext) as (body & -> & Hbody).
        exists (String c body). split; [done|]. simpl. by rewrite Hc.
      * apply (IH (S i)).
Qed.

Lemma readlines_concat_complete (pre : list string) (rest : string) :
  Forall complete_line pre →
  Str.readlines (Str.concat pre +:+ rest) = pre ++ Str.readlines rest.
Proof.
  induction 1 as [|l pre Hl _ IH]; [done|].
  simpl. by rewrite append_assoc, readlines_complete_line, IH.
Qed.

Lemma take_readlines_complete (s : string) (n : nat) :
  n < length (Str.readlines s) → Forall complete_line (take n (Str.readlines s)).
Proof.
  intros Hn. apply Forall_lookup. intros i l Hi.
  apply lookup_take_Some in Hi as [Hi Hlt].
  apply (readlines_lines_complete s i l Hi).
  apply lookup_lt_is_Some. lia.
Qed.

Lemma splitlines_keepends_cons (c : ascii) (s : string) :
  Str.splitlines_keepends (String c s) =
    if Str.is_linebreak c then
      if Ascii.eqb c "013" && Str.startswith Str.NL s
      then Str.cons_first c (Str.splitlines_keepends s)
      else String c "" :: Str.splitlines_keepends s
    else Str.cons_first c (Str.splitlines_keepends s).
Proof. reflexivity. Qed.


Lemma splitlines_keepends_no_inner_nl (s : string) :
  Forall (λ l, no_inner_nl l = true) (Str.splitlines_keepends s).
Proof.
  induction s as [|c s IH]; [constructor|].
  rewrite splitlines_keepends_cons.
  assert (Str.is_linebreak c = false ∨ Ascii.eqb c "013" = true →
          Forall (λ l, no_inner_nl l = true)
            (Str.cons_first c (Str.splitlines_keepends s))) as Hfirst.
  { intros Hc. destruct IH as [|l0 ls Hl0 Hls]; simpl.
    - by constructor.
    - constructor; [|done]. simpl. destruct l0; [done|].
      rewrite Hl0, andb_true_r. apply negb_true_iff.
      destruct Hc as [Hc|Hc].
      + destruct (Ascii.eqb c "010") eqn:Hnl; [|done].
        apply Ascii.eqb_eq in Hnl as ->. done.
      + apply Ascii.eqb_eq in Hc as ->. done. }
  destruct (Str.is_linebreak c) eqn:Hbreak.
  - destruct (Ascii.eqb c "013") eqn:Hcr.
    + destruct (Str.startswith Str.NL s);
        [apply Hfirst; by right|by constructor].
    + by constructor.
  - apply Hfirst. by left.
Qed.

Lemma no_inner_nl_complete (t : string) :
  no_inner_nl (t +:+ Str.NL) = true → complete_line (t +:+ Str.NL).
Proof.
  intros H. exists t. split; [done|].
  induction t as [|c t IH]; [done|].
  rewrite append_cons in H. simpl in H.
  destruct (t +:+ Str.NL) eqn:Ht; [by destruct t|].
  apply andb_true_iff in H as [Hc H]. apply negb_true_iff in Hc.
  simpl. rewrite Hc. by apply IH.
Qed.

Lemma template_key_not_changelog (w : world) (src_doc build_dir : string) :
  template_key w src_doc build_dir ≠ changelog_key w src_doc build_dir.
Proof.
  destruct (changelog_keys w src_doc build_dir "")
    as (root & fname' & -> & -> & _).
  intros H. by do 2 apply append_inv_head in H.
Qed.


Lemma readlines_concat_drop (s : string) (n : nat) :
  n < length (Str.readlines s) →
  Str.readlines (Str.concat (drop n (Str.readlines s))) = drop n (Str.readlines s).
Proof.
  intros Hn. pose proof (concat_readlines s) as Hs.
  rewrite <- (take_drop n (Str.readlines s)) in Hs at 1.
  rewrite concat_app in Hs. apply (f_equal Str.readlines) in Hs.
  rewrite readlines_concat_complete in Hs by by apply take_readlines_complete.
  rewrite <- (take_drop n (Str.readlines s)) in Hs at 3.
  by apply app_inv_head in Hs.
Qed.

(** A spliced list of lines is what reading the written text gives back,
    provided the lines put in are complete. *)
Lemma readlines_splice3 (s : string) (section : list string) :
  3 < length (Str.readlines s) → Forall complete_line section →
  Str.readlines (Str.concat (splice3 (Str.readlines s) section))
    = splice3 (Str.readlines s) section.
Proof.
  intros Hlen Hsection. unfold splice3.
  rewrite concat_app, readlines_concat_complete by by apply take_readlines_complete.
  rewrite concat_app, readlines_concat_complete by done.
  by rewrite readlines_concat_drop.
Qed.

Lemma count_concat_splice3 (c : ascii) (lines section : list string) :
  Str.count c (Str.concat (splice3 lines section))
    = Str.count c (Str.concat lines) + Str.count c (Str.concat section).
Proof.
  unfold splice3. rewrite !concat_app, !count_append.
  rewrite <- (take_drop 3 lines) at 3. rewrite concat_app, count_append. lia.
Qed.



Lemma keys_same_cwd (w w' : world) (src_doc build_dir release_name : string) :
  cwd w' = cwd w →
  changelog_key w' src_doc build_dir = changelog_key w src_doc build_dir
  ∧ template_key w' src_doc build_dir = template_key w src_doc build_dir
  ∧ notes_key w' src_doc build_dir release_name
      = notes_key w src_doc build_dir release_name.
Proof. unfold changelog_key, template_key, notes_key. by intros ->. Qed.

Lemma count_concat_take (c : ascii) (n : nat) (lines : list string) :
  Str.count c (Str.concat lines) = 0 → Str.count c (Str.concat (take n lines)) = 0.
Proof.
  intros H. rewrite <- (take_drop n lines), concat_app, count_append in H. lia.
Qed.

(** A text that starts with the first three lines read from a file and then
    [l], a complete line without carriage return, reads back in text mode
    with [l] at index 3. *)
Lemma text_lines_spliced_title (content l : string) (after : list string) :
  3 < length (text_lines content) → complete_line l → Str.count "013" l = 0 →
  text_lines (Str.concat (take 3 (text_lines content) ++ (l :: after))) !! 3
    = Some l.
Proof.
  intros Hlen Hl Hcr. rewrite concat_app.
  rewrite universal_newlines_append
    by (apply count_concat_take; by rewrite concat_readlines, universal_newlines_no_cr).
  change (Str.concat (l :: after)) with (l +:+ Str.concat after).
  rewrite universal_newlines_append by done.
  rewrite readlines_concat_complete by by apply take_readlines_complete.
  rewrite lookup_app_r by (rewrite length_take; lia).
  rewrite length_take. replace (3 - 3 `min` length (text_lines content)) with 0 by lia.
  by rewrite readlines_complete_line.
Qed.

Lemma count_zero_slice_to (c : ascii) (n : nat) (s : string) :
  Str.count c s = 0 → Str.count c (Str.slice_to n s) = 0.
Proof.
  revert s. induction n as [|n IH]; intros [|a s] H; simpl in *; try done.
  destruct (Ascii.eqb a c); [done|]. by apply IH.
Qed.

Lemma count_cr_title_line (release_name : string) :
  Str.count "013" release_name = 0 →
  Str.count "013" (title_line release_name) = 0.
Proof.
  intros H. unfold title_line. rewrite !count_append.
  assert (Str.count "013" (short release_name) = 0) as ->; [|done].
  unfold short. destruct (Str.endswith ".0" release_name); [|done].
  by apply count_zero_slice_to.
Qed.

(** *** The default template *)

Lemma str_format_default (title underline fname : string) :
  str_format DEFAULT_CHANGELOG_INDEX_TEMPLATE title underline fname =
    Ok (ln title +:+ ln underline +:+ ln "" +:+ ln "In development." +:+ ln ""
        +:+ ln (".. include:: ./changes/" +:+ fname) +:+ ln "" +:+ ln "").
Proof.
  unfold ln. rewrite !append_assoc. reflexivity.
Qed.

Lemma has_linebreak_append (s t : string) :
  has_linebreak (s +:+ t) = has_linebreak s || has_linebreak t.
Proof.
  induction s as [|c s IH]; [done|].
  rewrite append_cons. simpl. by rewrite IH, orb_assoc.
Qed.

Lemma has_linebreak_slice_to (n : nat) (s : string) :
  has_linebreak s = false → has_linebreak (Str.slice_to n s) = false.
Proof.
  revert s. induction n as [|n IH]; intros [|c s] H; simpl in *; try done.
  apply orb_false_iff in H as [-> H]. by apply IH.
Qed.

Lemma has_linebreak_short (name : string) :
  has_linebreak name = false → has_linebreak (short name) = false.
Proof.
  intros H. unfold short. destruct (Str.endswith ".0" name); [|done].
  by apply has_linebreak_slice_to.
Qed.

Lemma splitlines_keepends_first (t rest : string) :
  has_linebreak t = false →
  Str.splitlines_keepends (ln t +:+ rest) = ln t :: Str.splitlines_keepends rest.
Proof.
  intros H. unfold ln. rewrite append_assoc. induction t as [|c t IH]; [done|].
  simpl in H. apply orb_false_iff in H as [Hc H].
  rewrite !append_cons, splitlines_keepends_cons, Hc, IH by done. done.
Qed.

(** With the default template and a release name free of line breaks, the
    section starts with the title line. *)
Lemma default_section_title_first (release_name : string) :
  has_linebreak release_name = false →
  ∃ text,
    render_section DEFAULT_CHANGELOG_INDEX_TEMPLATE release_name = Ok text
    ∧ Str.splitlines_keepends text !! 0 = Some (title_line release_name).
Proof.
  intros H. unfold render_section. rewrite str_format_default.
  eexists. split; [done|].
  rewrite splitlines_keepends_first; [done|].
  rewrite has_linebreak_append. by rewrite has_linebreak_short.
Qed.

(** C3 (as amended): when the line at index 3 of the changelog index is
    already the title line of the release, [update_changelog] leaves the
    content of the index as it is.  Consequently, when the release name
    holds no carriage return and a first run has spliced a section whose
    first line is that title line, a second run with the same arguments,
    started in the same directory on the files the first run left, changes
    no file: the section is in the index once.  The section starts with the
    title line when the template is the default one and the release name
    holds no line-break character. *)
Theorem update_changelog_title_guard
    (check_output : list pyarg → M string) (w : world)
    (src_doc build_dir release_name template content : string) :
  files w !! changelog_key w src_doc build_dir = Some content →
  (text_lines content !! 3 = Some (title_line release_name) →
   files (update_changelog check_output (Some src_doc) build_dir release_name
            template w).2 !! changelog_key w src_doc build_dir
     = Some content)
  ∧ (∀ (notes line3 text : string) (w' : world),
       files w !! template_key w src_doc build_dir = Some notes →
       text_lines content !! 3 = Some line3 →
       line3 ≠ title_line release_name →
       render_section template release_name = Ok text →
       Str.splitlines_keepends text !! 0 = Some (title_line release_name) →
       Str.count "013" release_name = 0 →
       cwd w' = cwd w →
       files w' = files (update_changelog check_output (Some src_doc) build_dir
                           release_name template w).2 →
       files w' !! changelog_key w src_doc build_dir
         = Some (Str.concat (splice3 (text_lines content)
                               (Str.splitlines_keepends text)))
       ∧ files (update_changelog check_output (Some src_doc) build_dir
                  release_name template w').2 = files w')
  ∧ (has_linebreak release_name = false →
     ∃ text,
       render_section DEFAULT_CHANGELOG_INDEX_TEMPLATE release_name = Ok text
       ∧ Str.splitlines_keepends text !! 0 = Some (title_line release_name)).
Proof.
  intros Hdoc.
  pose proof (changelog_key_not_notes w src_doc build_dir release_name) as Hfn.
  pose proof (template_key_not_notes w src_doc build_dir release_name) as Htn.
  pose proof (template_key_not_changelog w src_doc build_dir) as Htf.
  split; [|split; [|apply default_section_title_first]].
  - intros Hline3. rewrite update_changelog_files.
    destruct (files w !! template_key w src_doc build_dir); [|done].
    cbv zeta. rewrite Hdoc, Hline3, String.eqb_refl.
    by rewrite lookup_insert_ne.
  - intros notes line3 text w' Htemplate Hline3 Hnot Htext Hfirst Hcr Hcwd Hfiles.
    rewrite update_changelog_files, Htemplate in Hfiles. cbv zeta in Hfiles.
    rewrite Hdoc, Hline3, Htext in Hfiles.
    apply String.eqb_neq in Hnot. rewrite Hnot in Hfiles.
    set (lines' := splice3 _ _) in *.
    assert (files w' !! changelog_key w src_doc build_dir
            = Some (Str.concat lines')) as Hdoc'
      by (rewrite Hfiles; apply lookup_insert_eq).
    split; [done|].
    assert (files w' !! template_key w src_doc build_dir = Some notes) as Htemplate'
      by (by rewrite Hfiles, !lookup_insert_ne).
    assert (files w' !! notes_key w src_doc build_dir release_name = Some notes)
      as Hnotes'
      by (rewrite Hfiles, lookup_insert_ne by done; apply lookup_insert_eq).
    assert (text_lines (Str.concat lines') !! 3 = Some (title_line release_name))
      as Hthere.
    { unfold lines', splice3.
      destruct (Str.splitlines_keepends text) as [|l section] eqn:Hsection;
        [done|].
      injection Hfirst as ->.
      pose proof (splitlines_keepends_no_inner_nl text) as Hinner.
      rewrite Hsection in Hinner. apply Forall_cons in Hinner as [Hinner _].
      apply lookup_lt_Some in Hline3.
      apply (text_lines_spliced_title content (title_line release_name)
               (section ++ drop 3 (text_lines content))).
      - done.
      - by apply no_inner_nl_complete.
      - by apply count_cr_title_line. }
    rewrite update_changelog_files.
    destruct (keys_same_cwd w w' src_doc build_dir release_name Hcwd)
      as (-> & -> & ->).
    rewrite Htemplate'. cbv zeta. rewrite Hdoc', Hthere, String.eqb_refl.
    by apply insert_id.
Qed.

Lemma example_index_spliced :
  Str.concat (splice3 (Str.readlines example_index)
                (Str.splitlines_keepends (Str.concat (section_1_2 11))))
    = example_index_1_2.
Proof. by vm_compute. Qed.



(** C3 at the example project: with release 1.2 already in the index a run
    leaves the index alone; and after a first run on the index without it,
    a second run changes no file. *)
Lemma update_changelog_title_guard_witness :
  files (update_changelog no_subprocess (Some "doc") "proj" "1.2"
           DEFAULT_CHANGELOG_INDEX_TEMPLATE (example_world example_index_1_2)).2
    !! changelog_key (example_world example_index_1_2) "doc" "proj"
    = Some example_index_1_2
  ∧ (let start := example_world example_index in
     let again :=
       restart start
         (update_changelog no_subprocess (Some "doc") "proj" "1.2"
            DEFAULT_CHANGELOG_INDEX_TEMPLATE start).2 in
     files again !! changelog_key start "doc" "proj" = Some example_index_1_2
     ∧ files (update_changelog no_subprocess (Some "doc") "proj" "1.2"
                DEFAULT_CHANGELOG_INDEX_TEMPLATE again).2 = files again).
Proof.
  split.
  - destruct (update_changelog_title_guard no_subprocess
                (example_world example_index_1_2) "doc" "proj" "1.2"
                DEFAULT_CHANGELOG_INDEX_TEMPLATE example_index_1_2
                ltac:(by vm_compute)) as (Hguard & _ & _).
    apply Hguard. by vm_compute.
  - intros start again.
    destruct (update_changelog_title_guard no_subprocess start "doc" "proj" "1.2"
                DEFAULT_CHANGELOG_INDEX_TEMPLATE example_index eq_refl)
      as (_ & Htwice & _).
    assert (ln "Version 1.1" ≠ title_line "1.2") as Hnot by done.
    destruct (Htwice (ln "New features") (ln "Version 1.1")
                (Str.concat (section_1_2 11)) again
                ltac:(by vm_compute) ltac:(by vm_compute) Hnot
                ltac:(by vm_compute) ltac:(by vm_compute) eq_refl
                eq_refl eq_refl) as [Hdoc Hsame].
    split; [|done]. exact (eq_trans Hdoc (f_equal Some example_index_spliced)).
Defined.

(** C3, counterexample: two runs insert the section twice (a) with a
    template whose first line is not the bare title, (b) with the
    default template and the release name ["1.2\n"], whose title line is
    cut in two by [splitlines], and (c) with the default template and the
    release name ["1.2\r"], whose title line is written with the line end
    CRLF and read back with the line end LF. *)
Lemma update_changelog_twice_inserts_twice :
  (let run := λ w, (update_changelog no_subprocess (Some "doc") "proj" "1.2"
                      remark_template w).2 in
   let start := example_world example_index in
   let key := changelog_key start "doc" "proj" in
   let section := [ln "Version 1.2 (next release)"; ln "==========="; ln "";
                   ln ".. include:: ./changes/version_1_2.rst.inc"; ln ""] in
   let old := [ln "Version 1.1"; ln "==========="; ln "";
               ln ".. include:: ./changes/version_1_1.rst.inc"] in
   let header := [ln "Change log"; ln "##########"; ln ""] in
   files (run start) !! key = Some (Str.concat (header ++ section ++ old))
   ∧ files (run (restart start (run start))) !! key
       = Some (Str.concat (header ++ section ++ section ++ old)))
  ∧ (let run := λ w, (update_changelog no_subprocess (Some "doc") "proj" (ln "1.2")
                        DEFAULT_CHANGELOG_INDEX_TEMPLATE w).2 in
     let start := example_world example_index in
     let key := changelog_key start "doc" "proj" in
     let section := [ln "Version 1.2"; ln ""; ln "============"; ln "";
                     ln "In development."; ln "";
                     ln ".. include:: ./changes/version_1_2"; ln ".rst.inc";
                     ln ""; ln ""] in
     let old := [ln "Version 1.1"; ln "==========="; ln "";
                 ln ".. include:: ./changes/version_1_1.rst.inc"] in
     let header := [ln "Change log"; ln "##########"; ln ""] in
     files (run start) !! key = Some (Str.concat (header ++ section ++ old))
     ∧ files (run (restart start (run start))) !! key
         = Some (Str.concat (header ++ section ++ section ++ old)))
  ∧ (let run := λ w, (update_changelog no_subprocess (Some "doc") "proj" (cr "1.2")
                        DEFAULT_CHANGELOG_INDEX_TEMPLATE w).2 in
     let start := example_world example_index in
     let key := changelog_key start "doc" "proj" in
     let section := [crlf "Version 1.2"; ln "============"; ln "";
                     ln "In development."; ln "";
                     cr ".. include:: ./changes/version_1_2"; ln ".rst.inc";
                     ln ""; ln ""] in
     let section_read := [ln "Version 1.2"; ln "============"; ln "";
                          ln "In development."; ln "";
                          ln ".. include:: ./changes/version_1_2"; ln ".rst.inc";
                          ln ""; ln ""] in
     let old := [ln "Version 1.1"; ln "==========="; ln "";
                 ln ".. include:: ./changes/version_1_1.rst.inc"] in
     let header := [ln "Change log"; ln "##########"; ln ""] in
     render_section DEFAULT_CHANGELOG_INDEX_TEMPLATE (cr "1.2")
       = Ok (Str.concat section)
     ∧ Str.splitlines_keepends (Str.concat section) = section
     ∧ section !! 0 = Some (title_line (cr "1.2"))
     ∧ files (run start) !! key = Some (Str.concat (header ++ section ++ old))
     ∧ files (run (restart start (run start))) !! key
         = Some (Str.concat (header ++ section ++ section_read ++ old))).
Proof. by vm_compute. Qed.


Lemma section_1_2_complete (n : nat) : Forall complete_line (section_1_2 n).
Proof.
  assert (∀ k, Str.count "010" (Str.repeat "=" k) = 0) as Hrepeat
    by (induction k; [done|by simpl]).
  repeat constructor; by eexists.
Qed.

(** C6 (as amended): in a changelog index with a 3-line header and an
    existing version section below it, adding release ["1.2"] with the
    default template puts, between the header and that section, a section
    whose title line is ["Version 1.2"], whose underline is 11 characters
    of ["="] (the length of the title), and which includes
    [version_1_2.rst.inc].  The lines of the index are those that text mode
    reads, before the run and after it. *)
Theorem update_changelog_1_2_above_existing
    (check_output : list pyarg → M string) (w : world)
    (src_doc build_dir content notes h0 h1 h2 first : string)
    (rest : list string) :
  files w !! changelog_key w src_doc build_dir = Some content →
  files w !! template_key w src_doc build_dir = Some notes →
  text_lines content = h0 :: h1 :: h2 :: first :: rest →
  first ≠ ln "Version 1.2" →
  ∃ new_content : string,
    files (update_changelog check_output (Some src_doc) build_dir "1.2"
             DEFAULT_CHANGELOG_INDEX_TEMPLATE w).2
      !! changelog_key w src_doc build_dir = Some new_content
    ∧ Str.readlines new_content
        = [h0; h1; h2]
          ++ [ln "Version 1.2"; ln "==========="; ln ""; ln "In development.";
              ln ""; ln ".. include:: ./changes/version_1_2.rst.inc"; ln ""; ln ""]
          ++ first :: rest
    ∧ Str.len "Version 1.2" = 11 ∧ Str.len "===========" = 11
    ∧ text_lines new_content = Str.readlines new_content.
Proof.
  intros Hdoc Htemplate Hlines Hfirst.
  exists (Str.concat (splice3 (text_lines content) (section_1_2 11))).
  split; [|split; [|split; [done|split; [done|]]]].
  3: { rewrite universal_newlines_id; [done|].
       by rewrite count_concat_splice3, concat_readlines, universal_newlines_no_cr. }
  - rewrite update_changelog_files, Htemplate. cbv zeta.
    rewrite Hdoc, Hlines. simpl lookup.
    apply String.eqb_neq in Hfirst. change (title_line "1.2") with (ln "Version 1.2").
    rewrite Hfirst.
    replace (render_section DEFAULT_CHANGELOG_INDEX_TEMPLATE "1.2")
      with (Ok (Str.concat (section_1_2 11))) by by vm_compute.
    replace (Str.splitlines_keepends (Str.concat (section_1_2 11)))
      with (section_1_2 11) by by vm_compute.
    apply lookup_insert_eq.
  - rewrite readlines_splice3; [by rewrite Hlines| |apply section_1_2_complete].
    rewrite Hlines. simpl. lia.
Qed.

Lemma example_index_1_2_lines :
  [ln "Change log"; ln "##########"; ln ""]
    ++ [ln "Version 1.2"; ln "==========="; ln ""; ln "In development.";
        ln ""; ln ".. include:: ./changes/version_1_2.rst.inc"; ln ""; ln ""]
    ++ ln "Version 1.1"
       :: [ln "==========="; ln ""; ln ".. include:: ./changes/version_1_1.rst.inc"]
    = Str.readlines example_index_1_2.
Proof. by vm_compute. Qed.

(** C6 at the example project. *)
Lemma update_changelog_1_2_above_existing_witness :
  ∃ new_content : string,
    files (update_changelog no_subprocess (Some "doc") "proj" "1.2"
             DEFAULT_CHANGELOG_INDEX_TEMPLATE (example_world example_index)).2
      !! changelog_key (example_world example_index) "doc" "proj"
      = Some new_content
    ∧ Str.readlines new_content = Str.readlines example_index_1_2.
Proof.
  assert (ln "Version 1.1" ≠ ln "Version 1.2") as Hnot by done.
  destruct (update_changelog_1_2_above_existing no_subprocess
              (example_world example_index) "doc" "proj" example_index
              (ln "New features") (ln "Change log") (ln "##########") (ln "")
              (ln "Version 1.1")
              [ln "==========="; ln ""; ln ".. include:: ./changes/version_1_1.rst.inc"]
              ltac:(by vm_compute) ltac:(by vm_compute) ltac:(by vm_compute) Hnot)
    as (new_content & Hdoc & Hlines & _).
  exists new_content. split; [exact Hdoc|].
  exact (eq_trans Hlines example_index_1_2_lines).
Defined.

(** C6, counterexample: after release 1.2 is added to the example index,
    the line under the title ["Version 1.2"] is an underline of 11
    characters, one for each character of the title, and not of 12. *)
Lemma update_changelog_1_2_underline_is_11 :
  files (update_changelog no_subprocess (Some "doc") "proj" "1.2"
           DEFAULT_CHANGELOG_INDEX_TEMPLATE (example_world example_index)).2
    !! changelog_key (example_world example_index) "doc" "proj"
    = Some example_index_1_2
  ∧ Str.readlines example_index_1_2 !! 3 = Some (ln "Version 1.2")
  ∧ Str.readlines example_index_1_2 !! 4 = Some (ln (Str.repeat "=" 11))
  ∧ String.eqb (Str.repeat "=" 11) (Str.repeat "=" 12) = false.
Proof. by vm_compute. Qed.

(** * Further properties of the version names *)

Lemma append_nil_r (s : string) : s +:+ "" = s.
Proof. induction s as [|c s IH]; [done|]. by rewrite append_cons, IH. Qed.

Lemma slice_to_append_len (s t : string) :
  Str.slice_to (Str.len s) (s +:+ t) = s.
Proof.
  induction s as [|c s IH]; [by destruct t|].
  rewrite append_cons. simpl. by rewrite IH.
Qed.

Lemma endswith_append (p x : string) : Str.endswith p (x +:+ p) = true.
Proof.
  unfold Str.endswith. rewrite len_append.
  replace (Str.len x + Str.len p - Str.len p) with (Str.len x + 0) by lia.
  rewrite slice_from_append_ge. simpl Str.slice_from.
  replace (Str.slice_from 0 p) with p by by destruct p.
  rewrite String.eqb_refl, andb_true_r. apply Nat.leb_le. lia.
Qed.

Lemma short_append_dot_zero (x : string) : short (x +:+ ".0") = x.
Proof.
  unfold short. rewrite endswith_append. unfold Str.slice_to_neg.
  rewrite len_append. simpl Str.len.
  replace (Str.len x + 2 - 2) with (Str.len x) by lia.
  apply slice_to_append_len.
Qed.

Lemma long_release_name_Ok_dots (name r : string) :
  long_release_name name = Ok r → 2 ≤ Str.count "." r.
Proof.
  unfold long_release_name.
  destruct (2 <=? Str.count "." name)%nat eqn:Hle.
  - intros [= <-]. by apply Nat.leb_le.
  - destruct (Str.count "." name =? 1)%nat eqn:Hone; simpl; [|done].
    apply Nat.eqb_eq in Hone.
    destruct (pretag_pos name) as [pos|]; intros [= <-].
    + rewrite !count_append.
      assert (Str.count "." (Str.slice_to pos name)
              + Str.count "." (Str.slice_from pos name) = 1) as Hsum
        by (by rewrite <- count_append, slice_to_from).
      simpl. lia.
    + rewrite count_append. simpl. lia.
Qed.

(** X1: [long_release_name] is idempotent: a name it returns is returned
    unchanged when given back to it. *)
Theorem long_release_name_idempotent (name r : string) :
  long_release_name name = Ok r → long_release_name r = Ok r.
Proof.
  intros H. apply long_release_name_Ok_dots in H.
  unfold long_release_name. apply Nat.leb_le in H. by rewrite H.
Qed.

Lemma long_release_name_idempotent_witness :
  long_release_name "0.8.0rc1" = Ok "0.8.0rc1".
Proof. exact (long_release_name_idempotent "0.8rc1" "0.8.0rc1" eq_refl). Defined.

(** X2: [short] undoes [long_release_name] on a name with one dot and no
    pre-release tag: the long form is the name followed by [".0"], and
    [short] of the long form is the name again. *)
Theorem short_long_release_name (name : string) :
  Str.count "." name = 1 → isprerelease name = false →
  long_release_name name = Ok (name +:+ ".0")
  ∧ short (name +:+ ".0") = name.
Proof.
  intros Hdots Htag. split; [|apply short_append_dot_zero].
  rewrite long_release_name_one_dot by done.
  unfold isprerelease in Htag. by destruct (pretag_pos name).
Qed.

Lemma short_long_release_name_witness :
  long_release_name "0.8" = Ok "0.8.0" ∧ short "0.8.0" = "0.8".
Proof. exact (short_long_release_name "0.8" eq_refl eq_refl). Defined.

(** X3: [strip_pretags] returns the name itself exactly when the name is no
    pre-release; on a pre-release it returns a strictly shorter prefix of
    the name. *)
Theorem strip_pretags_prefix (name : string) :
  (∃ rest, name = strip_pretags name +:+ rest)
  ∧ (isprerelease name = false → strip_pretags name = name)
  ∧ (isprerelease name = true →
     Str.len (strip_pretags name) < Str.len name).
Proof.
  unfold strip_pretags, isprerelease.
  destruct (pretag_pos name) as [pos|] eqn:Hpos.
  - apply pretag_pos_bound in Hpos.
    split; [|split; [done|]].
    + exists (Str.slice_from pos name). by rewrite slice_to_from.
    + intros _. rewrite len_slice_to; lia.
  - split; [|done]. exists "". by rewrite append_nil_r.
Qed.

(** ** Well-formed names: a numeric core, then a tag and digits *)

Lemma eqb_outside_core (c0 c : ascii) :
  numeric_char c0 = false → numeric_char c = true → Ascii.eqb c0 c = false.
Proof.
  intros H0 Hc. destruct (Ascii.eqb c0 c) eqn:Heq; [|done].
  apply Ascii.eqb_eq in Heq as ->. congruence.
Qed.

Lemma match_tag_digits_core_char (tag : string) (c : ascii) (s : string) :
  starts_outside_core tag = true → numeric_char c = true →
  match_tag_digits tag (String c s) = false.
Proof.
  destruct tag as [|c0 tag]; [done|]. simpl. intros H0%negb_true_iff Hc.
  unfold match_tag_digits. simpl. by rewrite (eqb_outside_core c0 c).
Qed.

Lemma re_search_start_cons (tag : string) (c : ascii) (s : string) :
  re_search_start tag (String c s) =
    if match_tag_digits tag (String c s) then Some 0
    else option_map S (re_search_start tag s).
Proof. reflexivity. Qed.

Lemma re_search_start_skip_core (tag core rest : string) :
  starts_outside_core tag = true → numeric_core core = true →
  re_search_start tag (core +:+ rest)
    = option_map (λ i, Str.len core + i) (re_search_start tag rest).
Proof.
  intros Htag. induction core as [|c core IH]; intros Hcore.
  - change ("" +:+ rest) with rest. by destruct (re_search_start tag rest).
  - simpl in Hcore. apply andb_true_iff in Hcore as [Hc Hcore].
    rewrite append_cons, re_search_start_cons.
    rewrite match_tag_digits_core_char, IH by done.
    by destruct (re_search_start tag rest).
Qed.

Lemma pretag_loop_skip_core (tags : list string) (core rest : string) :
  Forall (λ tag, starts_outside_core tag = true) tags →
  numeric_core core = true →
  pretag_loop tags (core +:+ rest)
    = option_map (λ i, Str.len core + i) (pretag_loop tags rest).
Proof.
  intros Htags Hcore. induction Htags as [|tag tags Htag _ IH]; [done|].
  simpl. rewrite re_search_start_skip_core by done.
  by destruct (re_search_start tag rest).
Qed.

Lemma pretags_start_outside_core :
  Forall (λ tag, starts_outside_core tag = true) pretags.
Proof. repeat constructor. Qed.

Lemma pretag_pos_skip_core (core rest : string) :
  numeric_core core = true →
  pretag_pos (core +:+ rest)
    = option_map (λ i, Str.len core + i) (pretag_pos rest).
Proof.
  apply pretag_loop_skip_core, pretags_start_outside_core.
Qed.

Lemma pretag_pos_numeric_core (core : string) :
  numeric_core core = true → pretag_pos core = None.
Proof.
  intros H. rewrite <- (append_nil_r core). by rewrite pretag_pos_skip_core.
Qed.

Lemma all_digits_numeric_core (ds : string) :
  all_digits ds = true → numeric_core ds = true.
Proof.
  induction ds as [|d ds IH]; [done|].
  intros [Hd H]%andb_true_iff.
  change (numeric_char d && numeric_core ds = true).
  unfold numeric_char. by rewrite Hd, IH.
Qed.

Lemma re_search_start_digits (tag ds : string) :
  starts_outside_core tag = true → all_digits ds = true →
  re_search_start tag ds = None.
Proof.
  intros Htag Hds. rewrite <- (append_nil_r ds).
  rewrite re_search_start_skip_core by by try apply all_digits_numeric_core.
  simpl. by rewrite match_tag_digits_nil.
Qed.

Lemma digit_cases (d : ascii) :
  Str.is_digit d = true →
  d ∈ ["0"; "1"; "2"; "3"; "4"; "5"; "6"; "7"; "8"; "9"]%char.
Proof.
  destruct d as [[] [] [] [] [] [] [] []]; intros H; try discriminate H;
    set_solver.
Qed.

Lemma append_nil_l (s : string) : "" +:+ s = s.
Proof. reflexivity. Qed.

(** At the start of a tag of the list followed by digits, no tag earlier in
    the list matches anywhere, and the tag itself matches at index 0. *)
Lemma pretag_pos_tag_digits (tag : string) (d : ascii) (ds : string) :
  tag ∈ pretags → Str.is_digit d = true → all_digits ds = true →
  pretag_pos (tag +:+ String d ds) = Some 0.
Proof.
  intros Htag Hd%digit_cases Hds. unfold pretags in Htag.
  repeat (apply elem_of_cons in Htag as [->|Htag]);
    [..|by apply elem_of_nil in Htag];
    repeat (apply elem_of_cons in Hd as [->|Hd]);
    try (by apply elem_of_nil in Hd);
    rewrite ?append_cons, append_nil_l; unfold pretag_pos, pretags; simpl;
    rewrite ?re_search_start_digits by done; reflexivity.
Qed.

Lemma match_tag_digits_self (tag : string) (d : ascii) (ds : string) :
  Str.is_digit d = true → match_tag_digits tag (tag +:+ String d ds) = true.
Proof.
  intros Hd. unfold match_tag_digits.
  replace (Str.len tag) with (Str.len tag + 0) by lia.
  rewrite slice_from_append_ge. simpl. rewrite Hd, andb_true_r.
  induction tag as [|c tag IH]; [done|].
  rewrite append_cons. simpl. by rewrite Ascii.eqb_refl.
Qed.

Lemma existsb_core_char (c : ascii) (s : string) :
  numeric_char c = true →
  existsb (λ tag, match_tag_digits tag (String c s)) pretags = false.
Proof.
  intros Hc. apply not_true_is_false. intros (tag & Hin & Hm)%existsb_exists.
  rewrite match_tag_digits_core_char in Hm; [done| |done].
  apply list_elem_of_In in Hin.
  by apply (proj1 (Forall_forall _ _) pretags_start_outside_core).
Qed.

Lemma spec_leftmost_pretag_skip_core (core rest : string) :
  numeric_core core = true →
  spec_leftmost_pretag (core +:+ rest)
    = option_map (λ i, Str.len core + i) (spec_leftmost_pretag rest).
Proof.
  induction core as [|c core IH]; intros Hcore.
  - rewrite append_nil_l. by destruct (spec_leftmost_pretag rest).
  - simpl in Hcore. apply andb_true_iff in Hcore as [Hc Hcore].
    rewrite append_cons, spec_leftmost_pretag_cons, existsb_core_char, IH by done.
    by destruct (spec_leftmost_pretag rest).
Qed.

Lemma spec_leftmost_pretag_tag_digits (tag : string) (d : ascii) (ds : string) :
  tag ∈ pretags → Str.is_digit d = true →
  spec_leftmost_pretag (tag +:+ String d ds) = Some 0.
Proof.
  intros Htag Hd.
  assert (existsb (λ t, match_tag_digits t (tag +:+ String d ds)) pretags = true)
    as Hex.
  { apply existsb_exists. exists tag.
    split; [by apply list_elem_of_In|by apply match_tag_digits_self]. }
  destruct (tag +:+ String d ds) as [|c s].
  - by vm_compute in Hex.
  - by rewrite spec_leftmost_pretag_cons, Hex.
Qed.

(** X4: on a well-formed pre-release name (a core of digits and dots, then
    a tag of the list, then one or more digits) [pretag_pos] returns the
    length of the core, which is also the leftmost tag pattern of the name;
    [strip_pretags] returns the core and [isprerelease] is true, while the
    core alone is no pre-release. *)
Theorem pretag_pos_well_formed (core tag : string) (d : ascii) (ds : string) :
  numeric_core core = true → tag ∈ pretags →
  Str.is_digit d = true → all_digits ds = true →
  pretag_pos (core +:+ tag +:+ String d ds) = Some (Str.len core)
  ∧ spec_leftmost_pretag (core +:+ tag +:+ String d ds) = Some (Str.len core)
  ∧ strip_pretags (core +:+ tag +:+ String d ds) = core
  ∧ isprerelease (core +:+ tag +:+ String d ds) = true
  ∧ isprerelease core = false.
Proof.
  intros Hcore Htag Hd Hds.
  assert (pretag_pos (core +:+ tag +:+ String d ds) = Some (Str.len core)) as Hpos.
  { rewrite pretag_pos_skip_core, pretag_pos_tag_digits by done.
    simpl. f_equal. lia. }
  split; [done|]. split; [|split; [|split]].
  - rewrite spec_leftmost_pretag_skip_core, spec_leftmost_pretag_tag_digits by done.
    simpl. f_equal. lia.
  - unfold strip_pretags. rewrite Hpos. apply slice_to_append_len.
  - unfold isprerelease. by rewrite Hpos.
  - unfold isprerelease. by rewrite pretag_pos_numeric_core.
Qed.

Lemma pretag_pos_well_formed_witness :
  pretag_pos "0.8.1rc12" = Some 5
  ∧ spec_leftmost_pretag "0.8.1rc12" = Some 5
  ∧ strip_pretags "0.8.1rc12" = "0.8.1"
  ∧ isprerelease "0.8.1rc12" = true
  ∧ isprerelease "0.8.1" = false.
Proof.
  apply (pretag_pos_well_formed "0.8.1" "rc" "1" "2"); try reflexivity.
  set_solver.
Defined.

Lemma count_dot_digits (ds : string) :
  all_digits ds = true → Str.count "." ds = 0.
Proof.
  induction ds as [|d ds IH]; [done|].
  intros [Hd H]%andb_true_iff. simpl. rewrite IH by done.
  destruct (Ascii.eqb d ".") eqn:Heq; [|done].
  apply Ascii.eqb_eq in Heq as ->. done.
Qed.

Lemma count_dot_tag (tag : string) : tag ∈ pretags → Str.count "." tag = 0.
Proof.
  unfold pretags. intros H.
  repeat (apply elem_of_cons in H as [->|H]); try done.
  by apply elem_of_nil in H.
Qed.

(** X5: on a well-formed pre-release name whose core has one dot,
    [long_release_name] puts [".0"] right after the core, and the result
    is again well formed: stripping its tag gives the core followed by
    [".0"]. *)
Theorem long_release_name_well_formed (core tag : string) (d : ascii) (ds : string) :
  numeric_core core = true → Str.count "." core = 1 → tag ∈ pretags →
  Str.is_digit d = true → all_digits ds = true →
  long_release_name (core +:+ tag +:+ String d ds)
    = Ok ((core +:+ ".0") +:+ tag +:+ String d ds)
  ∧ strip_pretags ((core +:+ ".0") +:+ tag +:+ String d ds) = core +:+ ".0".
Proof.
  intros Hcore Hdots Htag Hd Hds. split.
  - rewrite long_release_name_one_dot.
    + rewrite pretag_pos_skip_core, pretag_pos_tag_digits by done. simpl.
      rewrite Nat.add_0_r, slice_to_append_len.
      replace (Str.len core) with (Str.len core + 0) at 1 by lia.
      rewrite slice_from_append_ge. simpl Str.slice_from.
      by rewrite !append_assoc.
    + rewrite !count_append, Hdots, count_dot_tag by done.
      assert (all_digits (String d ds) = true) as Hall
        by (change (Str.is_digit d && all_digits ds = true); by rewrite Hd).
      by rewrite (count_dot_digits _ Hall).
  - assert (numeric_core (core +:+ ".0") = true) as Hlong.
    { clear Hdots. induction core as [|c core IH]; [done|].
      simpl in Hcore. apply andb_true_iff in Hcore as [Hc Hcore].
      rewrite append_cons.
      change (numeric_char c && numeric_core (core +:+ ".0") = true).
      by rewrite Hc, IH. }
    unfold strip_pretags.
    rewrite pretag_pos_skip_core, pretag_pos_tag_digits by done. simpl.
    rewrite Nat.add_0_r. apply slice_to_append_len.
Qed.

Lemma long_release_name_well_formed_witness :
  long_release_name "0.8alpha25" = Ok "0.8.0alpha25"
  ∧ strip_pretags "0.8.0alpha25" = "0.8.0".
Proof.
  apply (long_release_name_well_formed "0.8" "alpha" "2" "5"); try reflexivity.
  set_solver.
Defined.

(** X6: a well-formed pre-release and its final release share one notes
    file: [relname2fname] of core, tag and digits is [relname2fname] of the
    core. *)
Theorem relname2fname_ignores_tag (core tag : string) (d : ascii) (ds : string) :
  numeric_core core = true → tag ∈ pretags →
  Str.is_digit d = true → all_digits ds = true →
  relname2fname (core +:+ tag +:+ String d ds) = relname2fname core.
Proof.
  intros Hcore Htag Hd Hds. unfold relname2fname, strip_pretags.
  rewrite pretag_pos_skip_core, pretag_pos_tag_digits by done. simpl.
  rewrite Nat.add_0_r, slice_to_append_len.
  by rewrite pretag_pos_numeric_core.
Qed.

Lemma relname2fname_ignores_tag_witness :
  relname2fname "0.8.1rc1" = relname2fname "0.8.1".
Proof.
  apply (relname2fname_ignores_tag "0.8.1" "rc" "1" ""); try reflexivity.
  set_solver.
Defined.

Lemma count_replaced (old new : ascii) (s : string) :
  old ≠ new → Str.count old (Str.replace old new s) = 0.
Proof.
  intros Hne. induction s as [|c s IH]; [done|]. simpl. rewrite IH.
  destruct (Ascii.eqb c old) eqn:Hc.
  - destruct (Ascii.eqb new old) eqn:Hn; [|done].
    apply Ascii.eqb_eq in Hn. congruence.
  - by rewrite Hc.
Qed.

(** X7: whatever the release name, the file name that [relname2fname]
    returns starts with ["version_"], ends with [".rst.inc"], and holds no
    dot other than the two of that ending. *)
Theorem relname2fname_shape (name : string) :
  Str.startswith "version_" (relname2fname name) = true
  ∧ Str.endswith ".rst.inc" (relname2fname name) = true
  ∧ Str.count "." (relname2fname name) = 2.
Proof.
  unfold relname2fname. split; [done|]. split.
  - rewrite <- append_assoc. apply endswith_append.
  - rewrite !count_append, count_replaced by done. reflexivity.
Qed.

(** * Further properties of the prompt and the shell wrappers *)

Lemma lower_char_y_n (c : ascii) :
  (Str.lower_char c = "y"%char ↔ c = "y"%char ∨ c = "Y"%char)
  ∧ (Str.lower_char c = "n"%char ↔ c = "n"%char ∨ c = "N"%char).
Proof.
  destruct c as [[] [] [] [] [] [] [] []]; vm_compute; (split; split); intros H;
    solve [ discriminate H | destruct H as [H|H]; discriminate H
          | by left | by right | reflexivity ].
Qed.

Lemma lower_nil (s : string) : Str.lower s = "" ↔ s = "".
Proof. by destruct s. Qed.

Lemma lower_letter (c : ascii) (a : string) (low : ascii) :
  String.eqb (Str.lower (String c a)) (String low "") = true ↔
  Str.lower_char c = low ∧ a = "".
Proof.
  rewrite String.eqb_eq. simpl. split.
  - intros [= Hc Ha]. split; [done|by apply lower_nil].
  - by intros [-> ->].
Qed.

Lemma answered_lower (a : string) :
  answered (Some (Str.lower a)) = true ↔ a ∈ accepted_answers.
Proof.
  unfold accepted_answers. rewrite !elem_of_cons, elem_of_nil.
  destruct a as [|c a]; [by split; [left|]|].
  unfold answered. rewrite !orb_true_iff, !lower_letter.
  destruct (lower_char_y_n c) as [Hy Hn]. rewrite Hy, Hn.
  split.
  - intros [[H|[[->| ->] ->]]|[[->| ->] ->]]; [done|auto 6..].
  - intros [H|[H|[H|[H|[H|[]]]]]]; try discriminate H;
      injection H as -> ->; auto.
Qed.

Lemma yes_loop_answered (turns : nat) (prompt a : string) (w : world) :
  answered (Some a) = true → yes_loop turns prompt (Some a) w = (Ok a, w).
Proof. intros H. destruct turns; simpl in *; by rewrite H. Qed.

Lemma yes_loop_turn (turns : nat) (prompt : string) (prev : option string) :
  answered prev = false →
  yes_loop (S turns) prompt prev =
    ((match prev with
      | Some _ => print "answer should be 'y', 'n', or <return>"
      | None => mret ()
      end) ;;
     line ← input prompt; yes_loop turns prompt (Some (Str.lower line))).
Proof. intros H. destruct prev as [a|]; simpl in *; by rewrite ?H. Qed.

(** The world after [yes] has printed [out] and consumed input down to
    [rest]. *)
Lemma yes_loop_run (rejected : list string) :
  ∀ (turns : nat) (prompt a : string) (rest : list string)
    (prev : option string) (w : world),
    stdin w = rejected ++ a :: rest →
    Forall (λ l, l ∉ accepted_answers) rejected →
    a ∈ accepted_answers →
    answered prev = false →
    length rejected < turns →
    yes_loop turns prompt prev w =
      (Ok (Str.lower a),
       World (cwd w) (files w)
         (stdout w ++ (match prev with Some _ => [complaint] | None => [] end)
                   ++ prompt_trace prompt rejected)
         rest).
Proof.
  induction rejected as [|l rejected IH];
    intros turns prompt a rest prev w Hin Hrej Ha Hprev Hturns.
  - destruct turns as [|turns]; [simpl in Hturns; lia|].
    rewrite yes_loop_turn by done.
    apply answered_lower in Ha.
    destruct prev as [p|]; unfold mbind, M_bind, bind, print, print_end, input;
      simpl; rewrite Hin; simpl; rewrite yes_loop_answered by done;
      unfold prompt_trace, set_stdin, set_stdout; simpl;
      by rewrite <- ?app_assoc.
  - destruct turns as [|turns]; [simpl in Hturns; lia|].
    rewrite yes_loop_turn by done.
    apply Forall_cons in Hrej as [Hl Hrej].
    assert (answered (Some (Str.lower l)) = false) as Hl'.
    { apply not_true_is_false. by rewrite answered_lower. }
    simpl in Hturns.
    destruct prev as [p|]; unfold mbind, M_bind, bind, print, print_end, input;
      simpl; rewrite Hin; simpl;
      (erewrite IH; [|reflexivity|done|done|done|lia]);
      unfold prompt_trace, set_stdin, set_stdout; simpl;
      by rewrite <- ?app_assoc.
Qed.

Lemma yes_loop_eof (rejected : list string) :
  ∀ (turns : nat) (prompt : string) (prev : option string) (w : world),
    stdin w = rejected →
    Forall (λ l, l ∉ accepted_answers) rejected →
    answered prev = false →
    length rejected < turns →
    yes_loop turns prompt prev w =
      (Raise EOFError,
       World (cwd w) (files w)
         (stdout w ++ (match prev with Some _ => [complaint] | None => [] end)
                   ++ prompt_trace prompt rejected)
         []).
Proof.
  induction rejected as [|l rejected IH];
    intros turns prompt prev w Hin Hrej Hprev Hturns.
  - destruct turns as [|turns]; [simpl in Hturns; lia|].
    rewrite yes_loop_turn by done.
    destruct prev as [p|]; unfold mbind, M_bind, bind, print, print_end, input;
      simpl; rewrite Hin; simpl;
      unfold prompt_trace, set_stdin, set_stdout; simpl;
      by rewrite <- ?app_assoc, ?Hin.
  - destruct turns as [|turns]; [simpl in Hturns; lia|].
    rewrite yes_loop_turn by done.
    apply Forall_cons in Hrej as [Hl Hrej].
    assert (answered (Some (Str.lower l)) = false) as Hl'.
    { apply not_true_is_false. by rewrite answered_lower. }
    simpl in Hturns.
    destruct prev as [p|]; unfold mbind, M_bind, bind, print, print_end, input;
      simpl; rewrite Hin; simpl;
      (erewrite IH; [|reflexivity|done|done|lia]);
      unfold prompt_trace, set_stdin, set_stdout; simpl;
      by rewrite <- ?app_assoc.
Qed.

(** X8: [yes] reads input lines until one is an accepted answer (empty,
    [y] or [n], in either case).  It returns whether that answer, or the
    default when the answer is empty, is [y]; it has printed the prompt
    once, and the complaint and the prompt again after every rejected line;
    the lines after the answer are left on the input. *)
Theorem yes_reads_until_accepted (msg default a : string)
    (rejected rest : list string) (w : world) :
  stdin w = rejected ++ a :: rest →
  Forall (λ l, l ∉ accepted_answers) rejected →
  a ∈ accepted_answers →
  yes msg default w =
    (Ok (String.eqb (if String.eqb (Str.lower a) "" then default else Str.lower a) "y"),
     World (cwd w) (files w)
       (stdout w ++ prompt_trace (msg +:+ choices default) rejected) rest).
Proof.
  intros Hin Hrej Ha. unfold yes.
  erewrite bind_Ok; [reflexivity|].
  erewrite yes_loop_run; [reflexivity|done..|].
  rewrite Hin, length_app. simpl. lia.
Qed.

Lemma yes_reads_until_accepted_witness :
  yes "Continue?" "y" (World "/" ∅ [] ["maybe"; "Y"; "later"]) =
    (Ok true,
     World "/" ∅ ["Continue? (Y/n) "; complaint; "Continue? (Y/n) "] ["later"]).
Proof.
  apply (yes_reads_until_accepted "Continue?" "y" "Y" ["maybe"] ["later"]
           (World "/" ∅ [] ["maybe"; "Y"; "later"]) eq_refl).
  - repeat constructor. by rewrite <- answered_lower.
  - by apply answered_lower.
Defined.

(** X9: when the input ends before any accepted answer, [yes] raises
    [EOFError] after asking once more than there were lines; it never
    gives up on its own. *)
Theorem yes_end_of_input (msg default : string) (rejected : list string)
    (w : world) :
  stdin w = rejected →
  Forall (λ l, l ∉ accepted_answers) rejected →
  yes msg default w =
    (Raise EOFError,
     World (cwd w) (files w)
       (stdout w ++ prompt_trace (msg +:+ choices default) rejected) []).
Proof.
  intros Hin Hrej. unfold yes.
  erewrite bind_Raise; [reflexivity|].
  erewrite yes_loop_eof; [reflexivity|done..|].
  rewrite Hin. lia.
Qed.

Lemma yes_end_of_input_witness :
  yes "Continue?" "n" (World "/" ∅ [] ["what"]) =
    (Raise EOFError,
     World "/" ∅ ["Continue? (y/N) "; complaint; "Continue? (y/N) "] []).
Proof.
  apply (yes_end_of_input "Continue?" "n" ["what"] (World "/" ∅ [] ["what"]) eq_refl).
  repeat constructor. by rewrite <- answered_lower.
Defined.

Lemma join_args_strs (i : nat) (words : list string) :
  join_args i (map PStr words) = Ok words.
Proof.
  revert i. induction words as [|x words IH]; intros i; [done|].
  simpl. by rewrite IH.
Qed.

Lemma join_args_list (i : nat) (words l : list string) (rest : list pyarg) :
  join_args i (map PStr words ++ PList l :: rest) =
    Raise (TypeError ("sequence item " +:+ str_of_nat (i + length words)
                      +:+ ": expected str instance, list found")).
Proof.
  revert i. induction words as [|x words IH]; intros i.
  - simpl. by rewrite Nat.add_0_r.
  - simpl. rewrite IH. by replace (S i + length words) with (i + S (length words)) by lia.
Qed.

(** X10: [echocall] given strings prints them joined by spaces and then
    runs the command.  Given an argument that is a list, as
    [update_changelog] gives it, it raises [TypeError] naming the index of
    the first list, before it prints anything or runs the command. *)
Theorem echocall_strings_or_list (check_output : list pyarg → M string) :
  (∀ (words : list string) (w : world),
     echocall check_output (map PStr words) w
       = call check_output (map PStr words)
           (set_stdout (stdout w ++ [Str.join " " words +:+ Str.NL]) w))
  ∧ (∀ (words l : list string) (rest : list pyarg) (w : world),
       echocall check_output (map PStr words ++ PList l :: rest) w
         = (Raise (TypeError ("sequence item " +:+ str_of_nat (length words)
                              +:+ ": expected str instance, list found")), w)).
Proof.
  split.
  - intros words w. unfold echocall.
    rewrite (bind_Ok _ _ w w words) by (unfold lift; by rewrite join_args_strs).
    by rewrite (bind_Ok (print _) _ w _ () eq_refl).
  - intros words l rest w. unfold echocall.
    apply bind_Raise. unfold lift. by rewrite join_args_list.
Qed.

(** * Further properties of the changelog editor *)

(** The whole outcome of a run with a notes directory, up to the point
    where the written index is shown to the operator. *)
Lemma update_changelog_run (check_output : list pyarg → M string) (w : world)
    (src_doc build_dir release_name template : string) :
  let w1 := set_cwd (os_path_join (cwd w) build_dir) w in
  let tpath := os_path_join (os_path_join src_doc "changes") "template.rst.inc" in
  let npath := os_path_join (os_path_join src_doc "changes")
                 (relname2fname release_name) in
  let fpath := os_path_join src_doc "changes.rst" in
  update_changelog check_output (Some src_doc) build_dir release_name template w =
    match files w !! template_key w src_doc build_dir with
    | None => (Raise (FileNotFoundError tpath), w1)
    | Some notes =>
        let w2 :=
          set_files (<[notes_key w src_doc build_dir release_name := notes]>
                       (files w)) w1 in
        match files w !! changelog_key w src_doc build_dir with
        | None => (Raise (FileNotFoundError fpath), w2)
        | Some content =>
            match text_lines content !! 3 with
            | None => (Raise (IndexError "list index out of range"), w2)
            | Some line3 =>
                if String.eqb line3 (title_line release_name) then
                  (Ok (),
                   set_stdout
                     (stdout w ++
                      [("changes.rst not modified (it already contains "
                        +:+ ("Version " +:+ short release_name) +:+ ")")
                       +:+ Str.NL]) w2)
                else
                  match render_section template release_name with
                  | Raise e => (Raise e, w2)
                  | Ok text =>
                      (shown ← open_read fpath;
                       print (Str.join Str.NL (take 20 (Str.splitlines shown))) ;;
                       declined ← no "Does the full changelog look right?" "n";
                       if declined : bool then raise (SystemExit 1)
                       else
                         changelog_file' ← local "changelog_file" (Some npath);
                         echocall check_output
                           [PList ["git"; "add"; fpath; changelog_file']] ;;
                         mret ())
                        (set_files
                           (<[changelog_key w src_doc build_dir :=
                                Str.concat (splice3 (text_lines content)
                                              (Str.splitlines_keepends text))]>
                              (files w2)) w2)
                  end
            end
        end
    end.
Proof.
  intros w1 tpath npath fpath. unfold update_changelog.
  fold tpath npath fpath.
  assert (abspath w1 tpath = template_key w src_doc build_dir) as Ht by done.
  assert (abspath w1 npath = notes_key w src_doc build_dir release_name) as Hn by done.
  assert (abspath w1 fpath = changelog_key w src_doc build_dir) as Hf by done.
  pose proof (template_key_not_notes w src_doc build_dir release_name) as Htn.
  pose proof (changelog_key_not_notes w src_doc build_dir release_name) as Hfn.
  set (locals := (Some (relname2fname release_name), Some npath)).
  assert ((chdir build_dir ;; copy tpath npath ;; mret locals) w =
          match files w !! template_key w src_doc build_dir with
          | Some notes =>
              (Ok locals,
               set_files (<[notes_key w src_doc build_dir release_name := notes]>
                            (files w)) w1)
          | None => (Raise (FileNotFoundError tpath), w1)
          end) as Hprepare.
  { rewrite (bind_Ok (chdir build_dir) _ w w1 () eq_refl).
    unfold mbind, M_bind, bind. rewrite copy_run, Ht, Hn.
    apply String.eqb_neq in Htn. rewrite Htn. simpl files.
    by destruct (files w !! template_key w src_doc build_dir). }
  destruct (files w !! template_key w src_doc build_dir) as [notes|].
  2: { by rewrite (bind_Raise _ _ _ _ _ Hprepare). }
  rewrite (bind_Ok _ _ _ _ _ Hprepare). clear Hprepare.
  set (w2 := set_files _ w1). cbv zeta.
  rewrite (bind_Ok (lift (os_path_join_opt (Some src_doc) "changes.rst")) _ w2 w2 fpath eq_refl).
  assert (open_read fpath w2 =
          match files w !! changelog_key w src_doc build_dir with
          | Some content => (Ok (Str.universal_newlines content), w2)
          | None => (Raise (FileNotFoundError fpath), w2)
          end) as Hread.
  { unfold open_read. change (abspath w2 fpath) with (abspath w1 fpath).
    rewrite Hf. simpl files. by rewrite lookup_insert_ne. }
  destruct (files w !! changelog_key w src_doc build_dir) as [content|].
  2: { by rewrite (bind_Raise _ _ _ _ _ Hread). }
  rewrite (bind_Ok _ _ _ _ _ Hread). clear Hread.
  pose proof (getitem_run (text_lines content) 3 w2) as Hitem.
  destruct (text_lines content !! 3) as [line3|].
  2: { by rewrite (bind_Raise _ _ _ _ _ Hitem). }
  rewrite (bind_Ok _ _ _ _ _ Hitem). clear Hitem.
  fold (title_line release_name).
  destruct (String.eqb line3 (title_line release_name)); [done|].
  rewrite (bind_Ok (local "fname" locals.1) _ w2 w2 (relname2fname release_name) eq_refl).
  fold (render_section template release_name).
  destruct (render_section template release_name) as [text|e].
  2: { by rewrite (bind_Raise (lift (Raise e)) _ w2 w2 e eq_refl). }
  rewrite (bind_Ok (lift (Ok text)) _ w2 w2 text eq_refl).
  set (lines' := splice3 _ _).
  rewrite (bind_Ok (writelines fpath lines') _ w2
             (set_files (<[abspath w2 fpath := Str.concat lines']> (files w2)) w2)
             () eq_refl).
  change (abspath w2 fpath) with (abspath w1 fpath). by rewrite Hf.
Qed.

Lemma no_run (msg default a : string) (rejected rest : list string) (w : world) :
  stdin w = rejected ++ a :: rest →
  Forall (λ l, l ∉ accepted_answers) rejected →
  a ∈ accepted_answers →
  no msg default w =
    (Ok (negb (String.eqb
                 (if String.eqb (Str.lower a) "" then default else Str.lower a) "y")),
     World (cwd w) (files w)
       (stdout w ++ prompt_trace (msg +:+ choices default) rejected) rest).
Proof.
  intros Hin Hrej Ha. unfold no.
  erewrite bind_Ok; [reflexivity|]. unfold yes.
  erewrite bind_Ok; [reflexivity|].
  erewrite yes_loop_run; [reflexivity|done..|].
  rewrite Hin, length_app. simpl. lia.
Qed.

Lemma map_chomp_cons_first (c : ascii) (ls : list string) :
  Str.is_linebreak c = false →
  map Str.chomp (Str.cons_first c ls) = Str.cons_first c (map Str.chomp ls).
Proof. intros Hc. destruct ls as [|l ls]; simpl; by rewrite Hc. Qed.

Lemma splitlines_linebreak (c : ascii) (s : string) :
  Str.is_linebreak c = true →
  Ascii.eqb c "013" && Str.startswith Str.NL s = false →
  Str.splitlines (String c s) = "" :: Str.splitlines s.
Proof.
  intros Hc Hcrlf. unfold Str.splitlines.
  rewrite splitlines_keepends_cons, Hc, Hcrlf. simpl. by rewrite Hc.
Qed.

Lemma splitlines_crlf (s : string) :
  Str.splitlines (String "013" (String "010" s)) = "" :: Str.splitlines s.
Proof. reflexivity. Qed.

Lemma splitlines_other (c : ascii) (s : string) :
  Str.is_linebreak c = false →
  Str.splitlines (String c s) = Str.cons_first c (Str.splitlines s).
Proof.
  intros Hc. unfold Str.splitlines.
  by rewrite splitlines_keepends_cons, Hc, map_chomp_cons_first.
Qed.

(** [splitlines] breaks at CRLF, CR and LF alike: the lines it gives are
    the same for a text and for that text as text mode reads it. *)
Lemma splitlines_universal_newlines (s : string) :
  Str.splitlines (Str.universal_newlines s) = Str.splitlines s.
Proof.
  remember (Str.len s) as n eqn:Hn. revert s Hn.
  induction n as [n IH] using lt_wf_ind. intros [|c s] Hn; [done|].
  simpl in Hn. destruct (Ascii.eqb c "013") eqn:Hcr.
  - apply Ascii.eqb_eq in Hcr as ->. rewrite universal_newlines_cr.
    rewrite (splitlines_linebreak "010") by done.
    destruct s as [|c2 s].
    + reflexivity.
    + simpl in Hn. destruct (Ascii.eqb c2 "010") eqn:Hlf.
      * apply Ascii.eqb_eq in Hlf as ->. rewrite splitlines_crlf.
        f_equal. eapply IH; [|reflexivity]. lia.
      * rewrite Ascii.eqb_sym in Hlf.
        rewrite (splitlines_linebreak "013")
          by (try done; rewrite Ascii.eqb_refl; unfold Str.NL;
              cbn [Str.startswith andb]; by rewrite Hlf).
        f_equal. eapply IH; [|reflexivity]. simpl. lia.
  - rewrite universal_newlines_cons by done.
    destruct (Str.is_linebreak c) eqn:Hc.
    + rewrite !splitlines_linebreak by (by rewrite ?Hcr).
      f_equal. eapply IH; [|reflexivity]. lia.
    + rewrite !splitlines_other by done.
      f_equal. eapply IH; [|reflexivity]. lia.
Qed.

(** X11: once [update_changelog] has written the index with the new
    section, it does not return: it shows the index and asks the operator,
    then raises [SystemExit(1)] when the answer is [n] or empty, and
    [TypeError] from [echocall] when the answer is [y].  In both cases the
    notes file and the rewritten index stay on disk, the process is left
    in the build directory, and no command has been run. *)
Theorem update_changelog_stops_after_write
    (check_output : list pyarg → M string) (w : world)
    (src_doc build_dir release_name template content notes line3 text a : string)
    (rejected rest : list string) :
  files w !! changelog_key w src_doc build_dir = Some content →
  files w !! template_key w src_doc build_dir = Some notes →
  text_lines content !! 3 = Some line3 →
  line3 ≠ title_line release_name →
  render_section template release_name = Ok text →
  stdin w = rejected ++ a :: rest →
  Forall (λ l, l ∉ accepted_answers) rejected →
  a ∈ accepted_answers →
  let index := Str.concat (splice3 (text_lines content)
                             (Str.splitlines_keepends text)) in
  update_changelog check_output (Some src_doc) build_dir release_name template w =
    (Raise (if String.eqb (Str.lower a) "y"
            then TypeError "sequence item 0: expected str instance, list found"
            else SystemExit 1),
     World (os_path_join (cwd w) build_dir)
       (<[changelog_key w src_doc build_dir := index]>
          (<[notes_key w src_doc build_dir release_name := notes]> (files w)))
       ((stdout w ++ [Str.join Str.NL (take 20 (Str.splitlines index)) +:+ Str.NL])
        ++ prompt_trace "Does the full changelog look right? (y/N) " rejected)
       rest).
Proof.
  intros Hdoc Htemplate Hline3 Hnot Htext Hin Hrej Ha index.
  rewrite update_changelog_run, Htemplate. cbv zeta.
  rewrite Hdoc, Hline3, Htext.
  apply String.eqb_neq in Hnot. rewrite Hnot. fold index.
  set (w3 := set_files _ _).
  assert (open_read (os_path_join src_doc "changes.rst") w3
          = (Ok (Str.universal_newlines index), w3)) as Hshow.
  { unfold open_read.
    change (abspath w3 (os_path_join src_doc "changes.rst"))
      with (changelog_key w src_doc build_dir).
    unfold w3. simpl files. by rewrite lookup_insert_eq. }
  rewrite (bind_Ok _ _ _ _ _ Hshow), splitlines_universal_newlines.
  rewrite (bind_Ok (print _) _ w3 _ () eq_refl).
  erewrite bind_Ok; [|by apply (no_run _ _ a rejected rest)].
  unfold w3. simpl.
  apply answered_lower in Ha. unfold answered in Ha.
  destruct (String.eqb (Str.lower a) "") eqn:Hempty.
  - apply String.eqb_eq in Hempty. by rewrite Hempty.
  - destruct (String.eqb (Str.lower a) "y") eqn:Hyes; [done|].
    done.
Qed.

(** X12: when the index already has the title line at index 3,
    [update_changelog] returns normally after printing that the index is
    not modified; by then it has copied the template over the notes file
    of the release, whatever that file held.  [add_release] then goes on to
    [update_version] with the release name followed by ["-dev"]. *)
Theorem update_changelog_guard_resets_notes
    (check_output : list pyarg → M string)
    (update_version : string → string → string → string → M unit)
    (w : world)
    (src_doc build_dir package_name module_name release_name template
       content notes : string) :
  files w !! changelog_key w src_doc build_dir = Some content →
  files w !! template_key w src_doc build_dir = Some notes →
  text_lines content !! 3 = Some (title_line release_name) →
  let after :=
    World (os_path_join (cwd w) build_dir)
      (<[notes_key w src_doc build_dir release_name := notes]> (files w))
      (stdout w ++
       [("changes.rst not modified (it already contains "
         +:+ ("Version " +:+ short release_name) +:+ ")") +:+ Str.NL])
      (stdin w) in
  update_changelog check_output (Some src_doc) build_dir release_name template w
    = (Ok (), after)
  ∧ files after !! notes_key w src_doc build_dir release_name = Some notes
  ∧ files after !! changelog_key w src_doc build_dir = Some content
  ∧ add_release check_output update_version build_dir package_name module_name
      release_name (Some src_doc) template w
    = update_version build_dir (release_name +:+ "-dev") package_name
        module_name after.
Proof.
  intros Hdoc Htemplate Hline3 after.
  assert (update_changelog check_output (Some src_doc) build_dir release_name
            template w = (Ok (), after)) as Hrun.
  { rewrite update_changelog_run, Htemplate. cbv zeta.
    by rewrite Hdoc, Hline3, String.eqb_refl. }
  split; [done|]. split; [apply lookup_insert_eq|]. split.
  - simpl. rewrite lookup_insert_ne; [done|]. apply changelog_key_not_notes.
  - unfold add_release. by rewrite (bind_Ok _ _ _ _ _ Hrun).
Qed.

(** X13: the ways a run with a notes directory fails before it writes the
    index.  Without the template file it raises [FileNotFoundError] with no
    file changed, already in the build directory.  With the template but
    without the index, or with an index of fewer than 4 lines, it raises
    [FileNotFoundError] or [IndexError] after it has copied the template
    over the notes file. *)
Theorem update_changelog_early_failures
    (check_output : list pyarg → M string) (w : world)
    (src_doc build_dir release_name template : string) :
  let w1 := set_cwd (os_path_join (cwd w) build_dir) w in
  let copied := λ notes,
    set_files (<[notes_key w src_doc build_dir release_name := notes]> (files w)) w1 in
  (files w !! template_key w src_doc build_dir = None →
   update_changelog check_output (Some src_doc) build_dir release_name template w
     = (Raise (FileNotFoundError
                 (os_path_join (os_path_join src_doc "changes") "template.rst.inc")),
        w1))
  ∧ (∀ notes,
       files w !! template_key w src_doc build_dir = Some notes →
       files w !! changelog_key w src_doc build_dir = None →
       update_changelog check_output (Some src_doc) build_dir release_name template w
         = (Raise (FileNotFoundError (os_path_join src_doc "changes.rst")),
            copied notes))
  ∧ (∀ notes content,
       files w !! template_key w src_doc build_dir = Some notes →
       files w !! changelog_key w src_doc build_dir = Some content →
       length (text_lines content) ≤ 3 →
       update_changelog check_output (Some src_doc) build_dir release_name template w
         = (Raise (IndexError "list index out of range"), copied notes)).
Proof.
  intros w1 copied. split; [|split].
  - intros Htemplate. by rewrite update_changelog_run, Htemplate.
  - intros notes Htemplate Hdoc.
    rewrite update_changelog_run, Htemplate. cbv zeta. by rewrite Hdoc.
  - intros notes content Htemplate Hdoc Hlen.
    rewrite update_changelog_run, Htemplate. cbv zeta. rewrite Hdoc.
    by rewrite (lookup_ge_None_2 _ 3).
Qed.

(** X14: [update_changelog] never runs an external command: its outcome
    is the same whatever the command runner would do. *)
Theorem update_changelog_runs_no_command
    (check_output check_output' : list pyarg → M string)
    (src_documentation : option string)
    (build_dir release_name template : string) (w : world) :
  update_changelog check_output src_documentation build_dir release_name
    template w
  = update_changelog check_output' src_documentation build_dir release_name
      template w.
Proof. reflexivity. Qed.

Lemma update_changelog_stops_after_write_witness :
  (update_changelog no_subprocess (Some "doc") "proj" "1.2"
     DEFAULT_CHANGELOG_INDEX_TEMPLATE (example_world example_index)).1
    = Raise (TypeError "sequence item 0: expected str instance, list found").
Proof.
  assert (ln "Version 1.1" ≠ title_line "1.2") as Hnot by done.
  exact (f_equal fst
           (update_changelog_stops_after_write no_subprocess
              (example_world example_index) "doc" "proj" "1.2"
              DEFAULT_CHANGELOG_INDEX_TEMPLATE example_index (ln "New features")
              (ln "Version 1.1") (Str.concat (section_1_2 11)) "y" [] []
              ltac:(by vm_compute) ltac:(by vm_compute) ltac:(by vm_compute)
              Hnot ltac:(by vm_compute) eq_refl (List.Forall_nil _)
              (proj1 (answered_lower "y") eq_refl))).
Defined.

Lemma update_changelog_guard_resets_notes_witness :
  (update_changelog no_subprocess (Some "doc") "proj" "1.2"
     DEFAULT_CHANGELOG_INDEX_TEMPLATE (example_world example_index_1_2)).1
    = Ok ().
Proof.
  exact (f_equal fst
           (proj1 (update_changelog_guard_resets_notes no_subprocess
                     no_update_version (example_world example_index_1_2)
                     "doc" "proj" "pkg" "mod" "1.2"
                     DEFAULT_CHANGELOG_INDEX_TEMPLATE example_index_1_2
                     (ln "New features")
                     ltac:(by vm_compute) ltac:(by vm_compute)
                     ltac:(by vm_compute)))).
Defined.

Lemma update_changelog_early_failures_witness :
  (update_changelog no_subprocess (Some "doc") "proj" "1.2"
     DEFAULT_CHANGELOG_INDEX_TEMPLATE (example_world example_header)).1
    = Raise (IndexError "list index out of range").
Proof.
  assert (length (Str.readlines example_header) ≤ 3) as Hlen by (vm_compute; lia).
  exact (f_equal fst
           (proj2 (proj2 (update_changelog_early_failures no_subprocess
                            (example_world example_header) "doc" "proj" "1.2"
                            DEFAULT_CHANGELOG_INDEX_TEMPLATE))
              (ln "New features") example_header
              ltac:(by vm_compute) ltac:(by vm_compute) Hlen)).
Defined.

(** * Further properties of the text patcher *)

Lemma replace_step_match (end_ : string) (i : nat) (line sub new : string)
    (lines : list string) :
  Str.startswith "#" (Str.strip line) = false →
  Str.contains sub line = true →
  replace_step end_ i line lines (sub, new) = <[i := new +:+ end_]> lines.
Proof. intros Hcomment Hsub. unfold replace_step. by rewrite Hsub, Hcomment. Qed.

Lemma fold_replace_step_last_match (end_ : string) (j : nat) (line sub new : string)
    (before after : list (string * string)) (lines : list string) :
  j < length lines →
  Str.startswith "#" (Str.strip line) = false →
  Str.contains sub line = true →
  (∀ s n, (s, n) ∈ after → Str.contains s line = false) →
  fold_left (replace_step end_ j line) (before ++ (sub, new) :: after) lines !! j
    = Some (new +:+ end_).
Proof.
  intros Hj Hcomment Hsub Hafter.
  rewrite fold_left_app. cbn [fold_left].
  rewrite (fold_replace_step_left_alone _ _ _ after) by (by right || done).
  rewrite replace_step_match by done.
  apply list_lookup_insert_eq. by rewrite fold_replace_step_length.
Qed.

Lemma replace_loop_last_match (changes : list (string * string)) (end_ : string)
    (line sub new : string) (before after : list (string * string))
    (snapshot : list string) :
  changes = before ++ (sub, new) :: after →
  Str.startswith "#" (Str.strip line) = false →
  Str.contains sub line = true →
  (∀ s n, (s, n) ∈ after → Str.contains s line = false) →
  ∀ (i j : nat) (lines : list string),
    i ≤ j → snapshot !! (j - i) = Some line → j < length lines →
    replace_loop changes end_ i snapshot lines !! j = Some (new +:+ end_).
Proof.
  intros -> Hcomment Hsub Hafter.
  induction snapshot as [|line0 snapshot IH]; intros i j lines Hij Hline Hj; [done|].
  simpl. destruct (decide (i = j)) as [<-|Hne].
  - rewrite Nat.sub_diag in Hline. injection Hline as ->.
    rewrite replace_loop_frame by (left; lia).
    by apply fold_replace_step_last_match.
  - apply IH; [lia| |by rewrite fold_replace_step_length].
    replace (j - i) with (S (j - S i)) in Hline by lia. done.
Qed.

(** X15: when several pairs match a line that is no comment, the last
    matching pair of the list wins: the line becomes that pair's new line
    followed by the line ending given to [replace_lines]. *)
Theorem replace_lines_last_match_wins (w : world) (fpath : string)
    (before after : list (string * string)) (sub new end_ content line : string)
    (i : nat) :
  files w !! abspath w fpath = Some content →
  text_lines content !! i = Some line →
  Str.startswith "#" (Str.strip line) = false →
  Str.contains sub line = true →
  (∀ s n, (s, n) ∈ after → Str.contains s line = false) →
  ∃ lines' : list string,
    replace_lines fpath (before ++ (sub, new) :: after) end_ w
      = (Ok (), set_files (<[abspath w fpath := Str.concat lines']> (files w)) w)
    ∧ lines' !! i = Some (new +:+ end_).
Proof.
  intros Hfile Hline Hcomment Hsub Hafter.
  eexists. split.
  - unfold replace_lines, mbind, M_bind, bind, open_read. by rewrite Hfile.
  - eapply replace_loop_last_match; try done; [lia|by rewrite Nat.sub_0_r|].
    by apply lookup_lt_Some in Hline.
Qed.

Lemma replace_lines_last_match_wins_witness :
  ∃ lines' : list string,
    replace_lines "setup.cfg"
      [("version", "version = '0.2'"); ("0.1", "version = '0.3'"); ("name", "n")]
      Str.NL example_settings_world
      = (Ok (), set_files (<["/home/release/setup.cfg" := Str.concat lines']>
                             (files example_settings_world))
                  example_settings_world)
    ∧ lines' !! 1 = Some (ln "version = '0.3'").
Proof.
  apply (replace_lines_last_match_wins example_settings_world "setup.cfg"
           [("version", "version = '0.2'")] [("name", "n")] "0.1"
           "version = '0.3'" Str.NL example_settings (ln "version = '0.1'") 1);
    try reflexivity.
  intros s n [= -> ->]%list_elem_of_singleton. reflexivity.
Defined.

Lemma set_files_same (w : world) : set_files (files w) w = w.
Proof. by destruct w. Qed.

(** X16: [replace_lines] on a missing file raises [FileNotFoundError] and
    changes nothing; on a file whose every line is a comment or holds none
    of the substrings (in particular with an empty list of pairs) it
    writes back the text it read: the content with every line end CRLF or
    CR turned into LF.  A file without carriage returns is thus written
    back exactly as it was. *)
Theorem replace_lines_nothing_to_do (w : world) (fpath : string)
    (changes : list (string * string)) (end_ : string) :
  (files w !! abspath w fpath = None →
   replace_lines fpath changes end_ w = (Raise (FileNotFoundError fpath), w))
  ∧ (∀ content,
       files w !! abspath w fpath = Some content →
       Forall (left_alone changes) (text_lines content) →
       replace_lines fpath changes end_ w
         = (Ok (), set_files (<[abspath w fpath := Str.universal_newlines content]>
                                (files w)) w)
       ∧ (Str.count "013" content = 0 →
          replace_lines fpath changes end_ w = (Ok (), w))).
Proof.
  split.
  - intros Hfile. unfold replace_lines, mbind, M_bind, bind, open_read.
    by rewrite Hfile.
  - intros content Hfile Halone.
    assert (replace_lines fpath changes end_ w
            = (Ok (), set_files (<[abspath w fpath := Str.universal_newlines content]>
                                   (files w)) w)) as Hrun.
    { unfold replace_lines, mbind, M_bind, bind, open_read. rewrite Hfile.
      unfold writelines, open_write.
      assert (replace_loop changes end_ 0 (text_lines content)
                (text_lines content) = text_lines content) as ->.
      { apply list_eq. intros i.
        destruct (text_lines content !! i) as [line|] eqn:Hline.
        - rewrite replace_loop_frame; [done|]. right. exists line.
          rewrite Nat.sub_0_r. split; [lia|]. split; [done|].
          by apply (proj1 (Forall_lookup _ _) Halone i).
        - apply lookup_ge_None. rewrite replace_loop_length.
          by apply lookup_ge_None. }
      by rewrite concat_readlines. }
    split; [done|]. intros Hcr.
    by rewrite Hrun, universal_newlines_id, insert_id, set_files_same.
Qed.

Lemma example_settings_crlf_read :
  Str.universal_newlines example_settings_crlf
    = ln "# version = '0.1'" +:+ ln "name = 'proj'".
Proof. by vm_compute. Qed.

(** X16 at the example settings file, and at the same kind of file saved
    with CRLF line ends, which is written back with LF line ends. *)
Lemma replace_lines_nothing_to_do_witness :
  replace_lines "setup.cfg" [("licence", "licence = 'GPL'")] Str.NL
    example_settings_world = (Ok (), example_settings_world)
  ∧ replace_lines "setup.cfg" [("licence", "licence = 'GPL'")] Str.NL
      example_settings_crlf_world
    = (Ok (), set_files (<["/home/release/setup.cfg" :=
                             ln "# version = '0.1'" +:+ ln "name = 'proj'"]>
                           (files example_settings_crlf_world))
                example_settings_crlf_world).
Proof.
  split.
  - apply (proj2 (replace_lines_nothing_to_do example_settings_world "setup.cfg"
                    [("licence", "licence = 'GPL'")] Str.NL) example_settings);
      [reflexivity| |reflexivity].
    apply Forall_forall. intros line Hin. right.
    intros s n [= -> ->]%list_elem_of_singleton.
    apply list_elem_of_In in Hin. vm_compute in Hin.
    destruct Hin as [<-|[<-|[<-|[]]]]; reflexivity.
  - refine (eq_trans
              (proj1 (proj2 (replace_lines_nothing_to_do example_settings_crlf_world
                               "setup.cfg" [("licence", "licence = 'GPL'")] Str.NL)
                        example_settings_crlf eq_refl _))
              (f_equal (λ text, (Ok (), set_files (<["/home/release/setup.cfg" := text]>
                                                (files example_settings_crlf_world))
                                          example_settings_crlf_world))
                 example_settings_crlf_read)).
    apply Forall_forall. intros line Hin. right.
    intros s n [= -> ->]%list_elem_of_singleton.
    apply list_elem_of_In in Hin. vm_compute in Hin.
    destruct Hin as [<-|[<-|[]]]; reflexivity.
Defined.

(** * Further properties of the generic tools *)

Lemma append_longer (s t : string) : t ≠ "" → s +:+ t ≠ s.
Proof.
  intros Ht H. apply (f_equal Str.len) in H. rewrite len_append in H.
  destruct t; [done|]. simpl in H. lia.
Qed.

Lemma abspath_tmpl (w : world) (fname : string) :
  abspath w (fname +:+ ".tmpl") ≠ abspath w fname.
Proof.
  unfold abspath, os_path_join.
  assert (Str.startswith "/" (fname +:+ ".tmpl") = Str.startswith "/" fname) as ->
    by by destruct fname.
  destruct (Str.startswith "/" fname); [by apply append_longer|].
  destruct (_ || _).
  - intros H. apply append_inv_head in H. by apply append_longer in H.
  - intros H. do 2 apply append_inv_head in H. by apply append_longer in H.
Qed.

(** X17: [generate] needs the template [fname.tmpl]: without it the call
    raises [FileNotFoundError] and the output file is not touched.  With
    it, the template is formatted as text mode reads it, and the output
    file holds the formatted text when formatting succeeds; when formatting
    fails (an unknown field, a stray brace) the exception is raised with
    the output file already emptied, whatever it held before.  The template
    file is never changed. *)
Theorem generate_outcomes (fname : string) (kwargs : gmap string string)
    (w : world) :
  (files w !! abspath w (fname +:+ ".tmpl") = None →
   generate fname kwargs w = (Raise (FileNotFoundError (fname +:+ ".tmpl")), w))
  ∧ (∀ template,
       files w !! abspath w (fname +:+ ".tmpl") = Some template →
       ∃ w',
         generate fname kwargs w =
           (match str_format_kw (Str.universal_newlines template) kwargs with
            | Ok _ => Ok ()
            | Raise e => Raise e
            end, w')
         ∧ files w' !! abspath w fname =
             Some (match str_format_kw (Str.universal_newlines template) kwargs with
                   | Ok text => text
                   | Raise _ => ""
                   end)
         ∧ files w' !! abspath w (fname +:+ ".tmpl") = Some template).
Proof.
  pose proof (abspath_tmpl w fname) as Hne.
  split.
  - intros Hnone. unfold generate. apply bind_Raise.
    unfold open_read. by rewrite Hnone.
  - intros template Htemplate. unfold generate.
    rewrite (bind_Ok _ _ w w (Str.universal_newlines template))
      by (unfold open_read; by rewrite Htemplate).
    rewrite (bind_Ok (open_write fname "") _ w _ () eq_refl).
    set (w1 := set_files _ w).
    assert (open_read (fname +:+ ".tmpl") w1
            = (Ok (Str.universal_newlines template), w1)) as Hread.
    { unfold open_read. change (abspath w1 (fname +:+ ".tmpl"))
        with (abspath w (fname +:+ ".tmpl")).
      unfold w1. simpl files. by rewrite lookup_insert_ne, Htemplate. }
    rewrite (bind_Ok _ _ _ _ _ Hread).
    destruct (str_format_kw (Str.universal_newlines template) kwargs) as [text|e].
    + rewrite (bind_Ok (lift (Ok text)) _ w1 w1 text eq_refl).
      eexists. split; [reflexivity|].
      change (abspath w1 fname) with (abspath w fname). unfold w1. simpl files.
      split; [apply lookup_insert_eq|].
      by rewrite !lookup_insert_ne.
    + rewrite (bind_Raise (lift (Raise e)) _ w1 w1 e eq_refl).
      eexists. split; [reflexivity|]. unfold w1. simpl files.
      split; [apply lookup_insert_eq|]. by rewrite lookup_insert_ne.
Qed.

Lemma example_template_without_version :
  str_format_kw (Str.universal_newlines (ln "version = '{version}'")) ∅
    = Raise (KeyError "version").
Proof. by vm_compute. Qed.

(** X17 at the example: formatting without the keyword [version] raises
    [KeyError] and leaves [setup.py] empty. *)
Lemma generate_outcomes_witness :
  ∃ w',
    generate "setup.py" ∅ example_template_world = (Raise (KeyError "version"), w')
    ∧ files w' !! "/home/release/setup.py" = Some "".
Proof.
  destruct (proj2 (generate_outcomes "setup.py" ∅ example_template_world)
              (ln "version = '{version}'") ltac:(by vm_compute))
    as (w' & Hrun & Hout & _).
  rewrite example_template_without_version in Hrun, Hout.
  exists w'. split; [exact Hrun|exact Hout].
Defined.

(** ** Paths *)

Lemma endswith_slash_append (x b : string) :
  b ≠ "" → Str.endswith "/" (x +:+ b) = Str.endswith "/" b.
Proof.
  intros Hb. unfold Str.endswith. rewrite len_append.
  assert (1 ≤ Str.len b) as Hlen by (destruct b; [done|simpl; lia]).
  simpl Str.len.
  replace (Str.len x + Str.len b - 1) with (Str.len x + (Str.len b - 1)) by lia.
  rewrite slice_from_append_ge.
  replace (1 <=? Str.len x + Str.len b)%nat with true
    by (symmetry; apply Nat.leb_le; lia).
  replace (1 <=? Str.len b)%nat with true by (symmetry; by apply Nat.leb_le).
  done.
Qed.

Lemma dir_prefix_idemp (a : string) : dir_prefix (dir_prefix a) = dir_prefix a.
Proof.
  unfold dir_prefix.
  destruct (String.eqb a "" || Str.endswith "/" a) eqn:Ha.
  - by rewrite Ha.
  - by rewrite (endswith_append "/" a), orb_true_r.
Qed.

Lemma dir_prefix_append (a b : string) :
  b ≠ "" → dir_prefix (a +:+ b) = a +:+ dir_prefix b.
Proof.
  intros Hb. unfold dir_prefix. rewrite endswith_slash_append by done.
  replace (String.eqb (a +:+ b) "") with false
    by (symmetry; apply String.eqb_neq; destruct a, b; done).
  replace (String.eqb b "") with false
    by (symmetry; by apply String.eqb_neq).
  simpl. destruct (Str.endswith "/" b); [done|]. by rewrite append_assoc.
Qed.

Lemma startswith_slash_dir_prefix (b c : string) :
  b ≠ "" → Str.startswith "/" (dir_prefix b +:+ c) = Str.startswith "/" b.
Proof.
  intros Hb. unfold dir_prefix. destruct b as [|ch b]; [done|].
  destruct (_ || _); rewrite ?append_cons; simpl; by rewrite !andb_true_r.
Qed.

(** [os.path.join] is associative, so [join(a, b, c)] can be read either
    way. *)
Lemma os_path_join_assoc (a b c : string) :
  os_path_join a (os_path_join b c) = os_path_join (os_path_join a b) c.
Proof.
  destruct (Str.startswith "/" c) eqn:Hc.
  - by rewrite !(os_path_join_absolute _ c).
  - rewrite (os_path_join_relative b c), (os_path_join_relative _ c) by done.
    destruct (decide (b = "")) as [->|Hb].
    + rewrite append_nil_l.
      rewrite (os_path_join_relative a ""), append_nil_r, dir_prefix_idemp by done.
      by apply os_path_join_relative.
    + destruct (Str.startswith "/" b) eqn:Hbabs.
      * rewrite (os_path_join_absolute a b) by done.
        apply os_path_join_absolute. by rewrite startswith_slash_dir_prefix.
      * rewrite (os_path_join_relative a b) by done.
        rewrite dir_prefix_append, append_assoc by done.
        apply os_path_join_relative. by rewrite startswith_slash_dir_prefix.
Qed.

(** * Further properties of the release notes *)

Lemma update_changelog_creates_notes (check_output : list pyarg → M string)
    (w : world) (src_doc build_dir release_name template notes : string) :
  files w !! template_key w src_doc build_dir = Some notes →
  files (update_changelog check_output (Some src_doc) build_dir release_name
           template w).2 !! notes_key w src_doc build_dir release_name
    = Some notes.
Proof.
  intros Htemplate. rewrite update_changelog_files, Htemplate. cbv zeta.
  pose proof (changelog_key_not_notes w src_doc build_dir release_name) as Hne.
  assert (∀ x, (<[changelog_key w src_doc build_dir := x]>
                  (<[notes_key w src_doc build_dir release_name := notes]> (files w)))
               !! notes_key w src_doc build_dir release_name = Some notes) as Hboth
    by (intros x; rewrite lookup_insert_ne by done; apply lookup_insert_eq).
  repeat case_match; by rewrite ?Hboth, ?lookup_insert_eq.
Qed.

Lemma release_changes_path (w : world) (src_doc build_dir release_name : string) :
  abspath w (os_path_join (os_path_join build_dir (os_path_join src_doc "changes"))
               (relname2fname release_name))
    = notes_key w src_doc build_dir release_name.
Proof.
  unfold abspath, notes_key. by rewrite !os_path_join_assoc.
Qed.

(** X18: [release_changes] returns [None], touching nothing, when the
    configuration has no [src_documentation], and raises [KeyError] when it
    has one but no [release_name].  Otherwise it reads the notes file that
    [update_changelog] creates: started in the same directory on the files
    that a run of [update_changelog] left, for the same documentation and
    build directories and a release name with the same notes file name, it
    returns the text of the notes template, as text mode reads it. *)
Theorem release_changes_reads_notes (config : gmap string string) (w' : world) :
  (config !! "src_documentation" = None →
   release_changes config w' = (Ok None, w'))
  ∧ (is_Some (config !! "src_documentation") → config !! "release_name" = None →
     release_changes config w' = (Raise (KeyError "release_name"), w'))
  ∧ (∀ (check_output : list pyarg → M string) (w : world)
       (src_doc build_dir release_name release_name' template notes : string),
       config !! "src_documentation" = Some src_doc →
       config !! "release_name" = Some release_name' →
       config !! "build_dir" = Some build_dir →
       relname2fname release_name' = relname2fname release_name →
       files w !! template_key w src_doc build_dir = Some notes →
       cwd w' = cwd w →
       files w' = files (update_changelog check_output (Some src_doc) build_dir
                           release_name template w).2 →
       release_changes config w'
         = (Ok (Some (Str.universal_newlines notes)), w')).
Proof.
  split; [|split].
  - intros Hnone. unfold release_changes. by rewrite Hnone.
  - intros [sd Hsd] Hname. unfold release_changes, getkey.
    rewrite Hsd, Hname. reflexivity.
  - intros co w sd bd name name' tmpl notes Hsd Hname Hbd Hfname Htemplate
      Hcwd Hfiles.
    unfold release_changes, getkey. rewrite Hsd, Hname, Hbd.
    rewrite (bind_Ok (mret sd) _ w' w' sd eq_refl).
    rewrite (bind_Ok (mret name') _ w' w' name' eq_refl).
    rewrite (bind_Ok (mret bd) _ w' w' bd eq_refl).
    erewrite bind_Ok; [reflexivity|].
    unfold open_read. rewrite Hfname, release_changes_path.
    destruct (keys_same_cwd w w' sd bd name Hcwd) as (_ & _ & ->).
    by rewrite Hfiles, (update_changelog_creates_notes co w sd bd name tmpl notes).
Qed.

Lemma release_changes_reads_notes_witness :
  let config : gmap string string :=
    <["src_documentation" := "doc"]>
      (<["release_name" := "1.2rc1"]> (<["build_dir" := "proj"]> ∅)) in
  let start := example_world example_index in
  let again :=
    restart start
      (update_changelog no_subprocess (Some "doc") "proj" "1.2"
         DEFAULT_CHANGELOG_INDEX_TEMPLATE start).2 in
  release_changes config again = (Ok (Some (ln "New features")), again).
Proof.
  intros config start again.
  exact (proj2 (proj2 (release_changes_reads_notes config again))
           no_subprocess start "doc" "proj" "1.2" "1.2rc1"
           DEFAULT_CHANGELOG_INDEX_TEMPLATE (ln "New features")
           ltac:(by vm_compute) ltac:(by vm_compute) ltac:(by vm_compute)
           ltac:(by vm_compute) ltac:(by vm_compute) eq_refl eq_refl).
Defined.

(** * Further properties of [branchname] *)

Lemma remove_append (c : ascii) (s t : string) :
  Str.remove c (s +:+ t) = Str.remove c s +:+ Str.remove c t.
Proof.
  induction s as [|a s IH]; [done|].
  rewrite append_cons. simpl. destruct (Ascii.eqb a c); [done|].
  by rewrite append_cons, IH.
Qed.

Lemma remove_absent (c : ascii) (s : string) :
  Str.count c s = 0 → Str.remove c s = s.
Proof.
  induction s as [|a s IH]; [done|]. simpl.
  destruct (Ascii.eqb a c); [done|]. intros H. by rewrite IH.
Qed.

Lemma count_removed (c : ascii) (s : string) : Str.count c (Str.remove c s) = 0.
Proof.
  induction s as [|a s IH]; [done|]. simpl.
  destruct (Ascii.eqb a c) eqn:Ha; [done|]. simpl. by rewrite Ha.
Qed.

Lemma count_lstrip (c : ascii) (s : string) :
  Str.count c (Str.lstrip s) ≤ Str.count c s.
Proof.
  induction s as [|a s IH]; [done|]. simpl.
  destruct (Str.is_space a); [lia|done].
Qed.

Lemma rstrip_cons (c : ascii) (s : string) :
  Str.rstrip (String c s) =
    match Str.rstrip s with
    | EmptyString => if Str.is_space c then EmptyString else String c EmptyString
    | r => String c r
    end.
Proof. reflexivity. Qed.

Lemma count_rstrip (c : ascii) (s : string) :
  Str.count c (Str.rstrip s) ≤ Str.count c s.
Proof.
  induction s as [|a s IH]; [done|]. rewrite rstrip_cons.
  destruct (Str.rstrip s) as [|b r].
  - destruct (Str.is_space a); simpl in *; lia.
  - simpl in *. lia.
Qed.

Lemma count_slice_to (c : ascii) (n : nat) (s : string) :
  Str.count c (Str.slice_to n s) ≤ Str.count c s.
Proof.
  revert s. induction n as [|n IH]; intros [|a s]; simpl; try lia.
  specialize (IH s). lia.
Qed.

Lemma contains_cons (sub : string) (c : ascii) (s : string) :
  Str.contains sub (String c s) =
    Str.startswith sub (String c s) || Str.contains sub s.
Proof. reflexivity. Qed.

Lemma find_cons (sub : string) (c : ascii) (s : string) :
  Str.find sub (String c s) =
    if Str.startswith sub (String c s) then Some 0
    else option_map S (Str.find sub s).
Proof. reflexivity. Qed.

Lemma find_None (sub s : string) :
  Str.find sub s = None → Str.contains sub s = false.
Proof.
  induction s as [|c s IH].
  - simpl. by destruct (Str.startswith sub "").
  - rewrite find_cons, contains_cons.
    destruct (Str.startswith sub (String c s)); [done|].
    destruct (Str.find sub s); [done|]. intros _. by apply IH.
Qed.

Lemma find_Some_prefix (sub s : string) (pos : nat) :
  sub ≠ "" → Str.find sub s = Some pos →
  Str.contains sub (Str.slice_to pos s) = false.
Proof.
  intros Hsub. revert pos. induction s as [|c s IH]; intros pos.
  - destruct sub; [done|]. done.
  - rewrite find_cons.
    destruct (Str.startswith sub (String c s)) eqn:Hstart.
    + intros [= <-]. simpl. by destruct sub.
    + destruct (Str.find sub s) as [pos'|]; [|done].
      intros [= <-]. simpl Str.slice_to. rewrite contains_cons, (IH pos') by done.
      rewrite orb_false_r. apply not_true_is_false. intros Hpre.
      apply (startswith_append _ _ (Str.slice_from pos' s)) in Hpre.
      rewrite append_cons, slice_to_from in Hpre. congruence.
Qed.

(** X19: the name that [branchname] returns holds no ["#"] and no
    ["..."], whatever the status line. *)
Theorem branchname_no_hash_no_dots (statusline : string) :
  Str.count "#" (branchname statusline) = 0
  ∧ Str.contains "..." (branchname statusline) = false.
Proof.
  unfold branchname.
  set (s := Str.strip (Str.remove "#" statusline)).
  assert (Str.count "#" s = 0) as Hhash.
  { pose proof (count_rstrip "#" (Str.lstrip (Str.remove "#" statusline))).
    pose proof (count_lstrip "#" (Str.remove "#" statusline)).
    pose proof (count_removed "#" statusline). unfold s, Str.strip. lia. }
  destruct (Str.find "..." s) as [pos|] eqn:Hfind.
  - split; [|by apply find_Some_prefix].
    pose proof (count_slice_to "#" pos s). lia.
  - split; [done|by apply find_None].
Qed.

Lemma lstrip_no_leading_space (s : string) :
  starts_with_space s = false → Str.lstrip s = s.
Proof. destruct s as [|c s]; [done|]. simpl. by intros ->. Qed.

Lemma starts_with_space_append (b : string) (c : ascii) (z : string) :
  starts_with_space b = false → Str.is_space c = false →
  starts_with_space (b +:+ String c z) = false.
Proof. by destruct b. Qed.

Lemma rstrip_nonspace (c : ascii) (z : string) :
  Str.is_space c = false → Str.rstrip (String c z) = String c (Str.rstrip z).
Proof. intros Hc. rewrite rstrip_cons, Hc. by destruct (Str.rstrip z). Qed.

Lemma rstrip_append (x y : string) :
  Str.rstrip y ≠ "" → Str.rstrip (x +:+ y) = x +:+ Str.rstrip y.
Proof.
  intros Hy. induction x as [|c x IH]; [done|].
  rewrite !append_cons, rstrip_cons, IH.
  destruct (x +:+ Str.rstrip y) eqn:Hx; [|done].
  destruct x; [|done]. by rewrite append_nil_l in Hx.
Qed.

Lemma startswith_long_prefix (p x y : string) :
  Str.len p ≤ Str.len x → Str.startswith p (x +:+ y) = Str.startswith p x.
Proof.
  revert x. induction p as [|a p IH]; intros [|b x] H; simpl in *; try done; try lia.
  rewrite IH by lia. done.
Qed.

Lemma startswith_append_self (p t : string) : Str.startswith p (p +:+ t) = true.
Proof.
  induction p as [|a p IH]; [done|].
  rewrite append_cons. simpl. by rewrite Ascii.eqb_refl.
Qed.

Lemma find_startswith (sub s : string) :
  Str.startswith sub s = true → Str.find sub s = Some 0.
Proof. intros H. destruct s; simpl; by rewrite H. Qed.

(** [sub] is found right after [b] when it does not occur earlier, not
    even across the end of [b]. *)
Lemma find_after (sub b r : string) :
  sub ≠ "" →
  Str.contains sub (b +:+ Str.slice_to (Str.len sub - 1) sub) = false →
  Str.find sub (b +:+ sub +:+ r) = Some (Str.len b).
Proof.
  intros Hsub. induction b as [|c b IH]; intros Hb.
  - rewrite append_nil_l. apply find_startswith, startswith_append_self.
  - rewrite append_cons in Hb |- *. rewrite contains_cons in Hb.
    apply orb_false_iff in Hb as [Hstart Hrest].
    rewrite find_cons, IH by done. simpl.
    replace (Str.startswith sub (String c (b +:+ sub +:+ r))) with false; [done|].
    symmetry. rewrite <- Hstart.
    rewrite <- (slice_to_from (Str.len sub - 1) sub) at 2.
    rewrite (append_assoc (Str.slice_to _ sub)), <- (append_assoc b), <- append_cons.
    apply startswith_long_prefix.
    assert (1 ≤ Str.len sub) by (destruct sub; [done|simpl; lia]).
    rewrite <- append_cons, len_append, len_slice_to; simpl; lia.
Qed.

Lemma strip_status_line (b r : string) :
  starts_with_space b = false →
  Str.strip (" " +:+ b +:+ "..." +:+ r) = b +:+ "..." +:+ Str.rstrip r.
Proof.
  intros Hb. unfold Str.strip.
  change (Str.lstrip (" " +:+ b +:+ "..." +:+ r))
    with (Str.lstrip (b +:+ "..." +:+ r)).
  rewrite lstrip_no_leading_space
    by (by apply (starts_with_space_append b "." (".." +:+ r))).
  assert (Str.rstrip ("..." +:+ r) = "..." +:+ Str.rstrip r) as Hdots.
  { change ("..." +:+ r) with (String "." (String "." (String "." r))).
    by rewrite !rstrip_nonspace. }
  rewrite rstrip_append; by rewrite Hdots.
Qed.

(** X20: from a status line ["## branch...remote"], [branchname] returns
    the branch, provided the branch holds no ["#"], does not start with
    whitespace, and neither holds three dots in a row nor ends in a dot.
    The remote part may be anything. *)
Theorem branchname_of_status_line (branch remote : string) :
  Str.count "#" branch = 0 →
  starts_with_space branch = false →
  Str.contains "..." (branch +:+ "..") = false →
  branchname ("## " +:+ branch +:+ "..." +:+ remote) = branch.
Proof.
  intros Hhash Hspace Hdots. unfold branchname.
  rewrite (remove_append "#" "## "), (remove_append "#" branch),
    (remove_append "#" "..."), (remove_absent "#" branch) by done.
  change (Str.remove "#" "## ") with " ". change (Str.remove "#" "...") with "...".
  rewrite strip_status_line by done.
  rewrite find_after by done.
  apply slice_to_append_len.
Qed.

Lemma branchname_of_status_line_witness :
  branchname "## master...origin/master" = "master".
Proof.
  exact (branchname_of_status_line "master" "origin/master" eq_refl eq_refl eq_refl).
Defined.

(** * Pre-release status and the long form *)

Lemma startswith_char_at (p x : string) (d : ascii) (y : string) :
  Str.startswith p (x +:+ String d y) = true → Str.len x < Str.len p →
  1 ≤ Str.count d p.
Proof.
  revert p. induction x as [|c x IH]; intros [|a p] Hstart Hlen;
    simpl in Hlen; try lia.
  - rewrite append_nil_l in Hstart. simpl in Hstart.
    apply andb_true_iff in Hstart as [Ha _]. simpl. rewrite Ha. lia.
  - rewrite append_cons in Hstart. simpl in Hstart.
    apply andb_true_iff in Hstart as [_ Hstart].
    specialize (IH p Hstart). simpl. lia.
Qed.

Lemma match_tag_digits_dot_zero (tag s : string) :
  tag ∈ pretags → match_tag_digits tag s = false →
  match_tag_digits tag (s +:+ ".0") = false.
Proof.
  intros Htag Hs. apply not_true_is_false. intros Hlong.
  unfold match_tag_digits in Hlong.
  apply andb_true_iff in Hlong as [Hstart Hdigit].
  destruct (Nat.lt_trichotomy (Str.len tag) (Str.len s)) as [Hlt|[Heq|Hgt]].
  - unfold match_tag_digits in Hs.
    rewrite startswith_long_prefix in Hstart by lia. rewrite Hstart in Hs.
    rewrite slice_from_append_le in Hdigit by lia.
    destruct (Str.slice_from (Str.len tag) s) eqn:Hrest;
      [|rewrite append_cons in Hdigit; simpl in Hs, Hdigit; congruence].
    pose proof (f_equal Str.len (slice_to_from (Str.len tag) s)) as Hsum.
    rewrite len_append, Hrest, len_slice_to in Hsum by lia. simpl in Hsum. lia.
  - rewrite Heq in Hdigit.
    replace (Str.len s) with (Str.len s + 0) in Hdigit by lia.
    by rewrite slice_from_append_ge in Hdigit.
  - apply (startswith_char_at tag s "." "0") in Hstart; [|done].
    rewrite count_dot_tag in Hstart by done. lia.
Qed.

Lemma tag_at_dot_zero (tag name : string) :
  tag ∈ pretags → (∀ j, tag_at tag name j = false) →
  ∀ i, tag_at tag (name +:+ ".0") i = false.
Proof.
  intros Htag. induction name as [|c name IH]; intros Hnone i.
  - rewrite append_nil_l. unfold pretags in Htag.
    repeat (apply elem_of_cons in Htag as [->|Htag]);
      [..|by apply elem_of_nil in Htag];
      by destruct i as [|[|[|i]]].
  - destruct i as [|i].
    + apply match_tag_digits_dot_zero; [done|]. apply (Hnone 0).
    + rewrite append_cons, tag_at_cons. apply IH. intros j. apply (Hnone (S j)).
Qed.

Lemma pretag_pos_dot_zero (name : string) :
  pretag_pos name = None → pretag_pos (name +:+ ".0") = None.
Proof.
  intros Hnone.
  pose proof (pretag_loop_spec pretags name) as Hname.
  pose proof (pretag_loop_spec pretags (name +:+ ".0")) as Hlong.
  unfold pretag_pos in *. rewrite Hnone in Hname.
  destruct (pretag_loop pretags (name +:+ ".0")) as [i|]; [|done].
  destruct Hlong as (before & tag & after & Htags & _ & Hat & _).
  assert (tag ∈ pretags) as Htag
    by (rewrite Htags; apply elem_of_app; right; apply elem_of_cons; by left).
  rewrite tag_at_dot_zero in Hat; [done|done|].
  intros j. by apply Hname.
Qed.

Lemma tag_at_shift (tag before after : string) :
  tag_at tag (before +:+ after) (Str.len before) = match_tag_digits tag after.
Proof.
  unfold tag_at. replace (Str.len before) with (Str.len before + 0) by lia.
  by rewrite slice_from_append_ge.
Qed.

(** X21: [long_release_name] keeps the pre-release status: the name it
    returns is a pre-release exactly when the name it was given is. *)
Theorem long_release_name_keeps_prerelease (name r : string) :
  long_release_name name = Ok r → isprerelease r = isprerelease name.
Proof.
  unfold long_release_name.
  destruct (2 <=? Str.count "." name)%nat; [by intros [= <-]|].
  destruct (Str.count "." name =? 1)%nat; simpl; [|done].
  unfold isprerelease.
  destruct (pretag_pos name) as [pos|] eqn:Hpos; intros [= <-].
  - pose proof (pretag_loop_spec pretags name) as Hname.
    unfold pretag_pos in Hpos. rewrite Hpos in Hname.
    destruct Hname as (before & tag & after & Htags & _ & Hat & _ & Hlen).
    assert (tag ∈ pretags) as Htag
      by (rewrite Htags; apply elem_of_app; right; apply elem_of_cons; by left).
    set (r := Str.slice_to pos name +:+ ".0" +:+ Str.slice_from pos name).
    pose proof (pretag_loop_spec pretags r) as Hr. unfold pretag_pos.
    destruct (pretag_loop pretags r); [done|].
    specialize (Hr tag (Str.len (Str.slice_to pos name +:+ ".0")) Htag).
    unfold r in Hr. rewrite <- append_assoc, tag_at_shift in Hr.
    unfold tag_at in Hat. congruence.
  - by rewrite pretag_pos_dot_zero.
Qed.

Lemma long_release_name_keeps_prerelease_witness :
  isprerelease "0.8.0rc1" = isprerelease "0.8rc1".
Proof.
  exact (long_release_name_keeps_prerelease "0.8rc1" "0.8.0rc1" eq_refl).
Defined.

(** * The section of the default template, for any release name *)

Lemma has_linebreak_repeat (n : nat) : has_linebreak (Str.repeat "=" n) = false.
Proof. induction n as [|n IH]; [done|]. simpl. by rewrite IH. Qed.

Lemma len_repeat (c : ascii) (n : nat) : Str.len (Str.repeat c n) = n.
Proof. induction n as [|n IH]; [done|]. simpl. by rewrite IH. Qed.

Lemma has_linebreak_replace_dot (s : string) :
  has_linebreak (Str.replace "." "_" s) = has_linebreak s.
Proof.
  induction s as [|c s IH]; [done|]. simpl. rewrite IH.
  destruct (Ascii.eqb c ".") eqn:Hc; [|done].
  apply Ascii.eqb_eq in Hc as ->. done.
Qed.

Lemma has_linebreak_relname2fname (name : string) :
  has_linebreak name = false → has_linebreak (relname2fname name) = false.
Proof.
  intros H. unfold relname2fname.
  rewrite !has_linebreak_append, has_linebreak_replace_dot.
  rewrite has_linebreak_short; [done|].
  unfold strip_pretags. destruct (pretag_pos name); [|done].
  by apply has_linebreak_slice_to.
Qed.

Lemma has_linebreak_count_nl (s : string) :
  has_linebreak s = false → Str.count "010" s = 0.
Proof.
  induction s as [|c s IH]; [done|]. simpl.
  intros [Hc H]%orb_false_iff. rewrite IH by done.
  destruct (Ascii.eqb c "010") eqn:Heq; [|done].
  apply Ascii.eqb_eq in Heq as ->. done.
Qed.

Lemma complete_line_ln (s : string) : has_linebreak s = false → complete_line (ln s).
Proof. intros H. exists s. split; [done|]. by apply has_linebreak_count_nl. Qed.

Lemma splitlines_keepends_last (t : string) :
  has_linebreak t = false → Str.splitlines_keepends (ln t) = [ln t].
Proof.
  intros H. rewrite <- (append_nil_r (ln t)) at 1.
  by rewrite splitlines_keepends_first.
Qed.

Lemma default_section_rendered (release_name : string) :
  has_linebreak release_name = false →
  ∃ text,
    render_section DEFAULT_CHANGELOG_INDEX_TEMPLATE release_name = Ok text
    ∧ Str.splitlines_keepends text = default_section release_name
    ∧ Forall complete_line (default_section release_name).
Proof.
  intros Hname.
  assert (has_linebreak ("Version " +:+ short release_name) = false) as Htitle
    by (rewrite has_linebreak_append; by rewrite has_linebreak_short).
  assert (has_linebreak (".. include:: ./changes/" +:+ relname2fname release_name)
          = false) as Hinclude
    by (rewrite has_linebreak_append; by rewrite has_linebreak_relname2fname).
  pose proof (has_linebreak_repeat (Str.len ("Version " +:+ short release_name)))
    as Hunderline.
  unfold render_section. rewrite str_format_default.
  eexists. split; [done|]. split.
  - rewrite !splitlines_keepends_first by done.
    by rewrite splitlines_keepends_last.
  - unfold default_section. repeat constructor; by apply complete_line_ln.
Qed.

Lemma has_linebreak_count_cr (s : string) :
  has_linebreak s = false → Str.count "013" s = 0.
Proof.
  induction s as [|c s IH]; [done|]. simpl.
  intros [Hc H]%orb_false_iff. rewrite IH by done.
  destruct (Ascii.eqb c "013") eqn:Heq; [|done].
  apply Ascii.eqb_eq in Heq as ->. done.
Qed.

Lemma count_cr_ln (s : string) :
  has_linebreak s = false → Str.count "013" (ln s) = 0.
Proof.
  intros H. unfold ln. by rewrite count_append, has_linebreak_count_cr.
Qed.

Lemma count_cr_default_section (release_name : string) :
  has_linebreak release_name = false →
  Str.count "013" (Str.concat (default_section release_name)) = 0.
Proof.
  intros Hname.
  assert (has_linebreak ("Version " +:+ short release_name) = false) as Htitle
    by (rewrite has_linebreak_append; by rewrite has_linebreak_short).
  assert (has_linebreak (".. include:: ./changes/" +:+ relname2fname release_name)
          = false) as Hinclude
    by (rewrite has_linebreak_append; by rewrite has_linebreak_relname2fname).
  pose proof (has_linebreak_repeat (Str.len ("Version " +:+ short release_name)))
    as Hunderline.
  unfold default_section. cbn [Str.concat fold_right].
  rewrite !count_append, !count_cr_ln by done. done.
Qed.

(** X22: for every release name without line-break characters,
    [update_changelog] with the default template puts exactly these lines
    between the 3 header lines and the rest of the index: the title
    ["Version "] and the short name, an underline of ["="] as long as the
    title, ["In development."] and the reference to the notes file of the
    release, with the blank lines of the template.  The lines of the index
    are those that text mode reads, before the run and after it. *)
Theorem update_changelog_default_section
    (check_output : list pyarg → M string) (w : world)
    (src_doc build_dir release_name content notes line3 : string) :
  has_linebreak release_name = false →
  files w !! changelog_key w src_doc build_dir = Some content →
  files w !! template_key w src_doc build_dir = Some notes →
  text_lines content !! 3 = Some line3 →
  line3 ≠ title_line release_name →
  ∃ new_content : string,
    files (update_changelog check_output (Some src_doc) build_dir release_name
             DEFAULT_CHANGELOG_INDEX_TEMPLATE w).2
      !! changelog_key w src_doc build_dir = Some new_content
    ∧ Str.readlines new_content
        = take 3 (text_lines content) ++ default_section release_name
          ++ drop 3 (text_lines content)
    ∧ Str.len (Str.repeat "=" (Str.len ("Version " +:+ short release_name)))
        = Str.len ("Version " +:+ short release_name)
    ∧ text_lines new_content = Str.readlines new_content.
Proof.
  intros Hname Hdoc Htemplate Hline3 Hnot.
  destruct (default_section_rendered release_name Hname)
    as (text & Htext & Hlines & Hcomplete).
  exists (Str.concat (splice3 (text_lines content) (default_section release_name))).
  split; [|split; [|split; [apply len_repeat|]]].
  3: { rewrite universal_newlines_id; [done|].
       rewrite count_concat_splice3, concat_readlines, universal_newlines_no_cr.
       by rewrite count_cr_default_section. }
  - rewrite update_changelog_files, Htemplate. cbv zeta.
    rewrite Hdoc, Hline3, Htext, Hlines.
    apply String.eqb_neq in Hnot. rewrite Hnot. apply lookup_insert_eq.
  - rewrite readlines_splice3; [done| |done].
    by apply lookup_lt_Some in Hline3.
Qed.

Lemma update_changelog_default_section_witness :
  ∃ new_content : string,
    files (update_changelog no_subprocess (Some "doc") "proj" "0.9.0"
             DEFAULT_CHANGELOG_INDEX_TEMPLATE (example_world example_index)).2
      !! changelog_key (example_world example_index) "doc" "proj"
      = Some new_content
    ∧ Str.readlines new_content !! 3 = Some (ln "Version 0.9")
    ∧ Str.readlines new_content !! 4 = Some (ln "===========").
Proof.
  assert (ln "Version 1.1" ≠ title_line "0.9.0") as Hnot by done.
  destruct (update_changelog_default_section no_subprocess
              (example_world example_index) "doc" "proj" "0.9.0" example_index
              (ln "New features") (ln "Version 1.1")
              eq_refl ltac:(by vm_compute) ltac:(by vm_compute)
              ltac:(by vm_compute) Hnot)
    as (new_content & Hdoc & Hlines & _).
  exists new_content. split; [exact Hdoc|]. rewrite Hlines.
  split; reflexivity.
Defined.
